(** * Sales-pipeline scenario lab: the ingestion pipeline and the dashboard
      arithmetic of [utils/excelParser.js] and the dashboard pages.

    Modelling conventions.

    - A JavaScript number that carries money or volume is a real number
      ([R]): IEEE rounding, NaN and the infinities are idealised away
      (a [parseFloat] that yields NaN is [None]).  Week, month and year
      values are integer valued in the source and are kept in [Z].
    - A sum is written as the source computes it, [reduce] from 0 in
      the order of the array ([sumOf]).  The results about the sums of
      accounts, buckets and groups equate expressions that hold the same
      additions in the same order, so that they do not rest on
      re-association; where the double arithmetic of the source departs
      from the reals there, the module [Binary64] computes the summing
      code on the binary64 numbers of the kernel.
    - A JavaScript string is a [string] of bytes (UTF-8); the month names
      and the column headers of the source are ASCII.  The white space
      of [\s] and of [parseInt] is the ECMAScript class, each character
      as its UTF-8 bytes.
    - A spread call such as [Math.max(...years)] passes the elements of
      the array as arguments, and an engine throws when they are too
      many: [spread] maps the number of arguments to the message of the
      error thrown, if any.  It is a variable of the parsers.
    - A spreadsheet row, as [XLSX.utils.sheet_to_json] hands it over, is
      the list of its (header, cell) pairs in [Object.keys] order; a cell
      is a string, a number or a boolean, and a missing key reads as
      [undefined] ([None]).
    - [Math.random] and [new Date()] are inputs of a run: the sequence of
      values the generator returns, and the calendar year and month of
      the clock.
    - [Number::toString] and [parseFloat] are the engine's: they are
      variables of the sections below, so every result holds for whatever
      they compute.
    - The seeded generator [mulberry32] is computed on integers with the
      32-bit conversions written out; [Math.floor] and [Math.sin] are
      the integer part and the sine of the real numbers. *)

From Stdlib Require Import ZArith Reals Lra Lia List Bool Ascii String
  DecimalString Permutation Sorted.
From Stdlib Require PrimFloat.
Import ListNotations.

Local Open Scope string_scope.
Local Open Scope list_scope.
Local Open Scope Z_scope.

(** ** JavaScript strings *)

Module Js.

(** [c.toLowerCase()] on one ASCII byte; the bytes of a multi-byte
    character are left as they are. *)
Definition lowerAscii (c : ascii) : ascii :=
  let n := nat_of_ascii c in
  if (65 <=? n)%nat && (n <=? 90)%nat then ascii_of_nat (n + 32) else c.

Fixpoint toLowerCase (s : string) : string :=
  match s with
  | EmptyString => EmptyString
  | String c t => String (lowerAscii c) (toLowerCase t)
  end.

(** [s.includes(pat)]. *)
Fixpoint includes (s pat : string) : bool :=
  String.prefix pat s ||
  match s with
  | EmptyString => false
  | String _ t => includes t pat
  end.

(** [arr.join(sep)]. *)
Definition join (sep : string) (l : list string) : string :=
  String.concat sep l.

(** [arr.includes(x)] on an array of strings. *)
Definition arrayIncludes (l : list string) (x : string) : bool :=
  existsb (String.eqb x) l.

(** [String(n)] for a natural number. *)
Definition natToString (n : nat) : string :=
  NilZero.string_of_uint (Nat.to_uint n).

(** The string of the given bytes. *)
Definition bytes (l : list nat) : string :=
  fold_right (fun n s => String (ascii_of_nat n) s) EmptyString l.

(** The characters of [\s], which are also the white space and line
    terminators [parseInt] skips, each as its UTF-8 bytes: U+0009 to
    U+000D, U+0020, U+00A0, U+1680, U+2000 to U+200A, U+2028, U+2029,
    U+202F, U+205F, U+3000 and U+FEFF. *)
Definition whiteSpace : list string :=
  map bytes
    [ [9]; [10]; [11]; [12]; [13]; [32]; [194; 160]; [225; 154; 128];
      [226; 128; 128]; [226; 128; 129]; [226; 128; 130]; [226; 128; 131];
      [226; 128; 132]; [226; 128; 133]; [226; 128; 134]; [226; 128; 135];
      [226; 128; 136]; [226; 128; 137]; [226; 128; 138]; [226; 128; 168];
      [226; 128; 169]; [226; 128; 175]; [226; 129; 159]; [227; 128; 128];
      [239; 187; 191] ]%nat.

(** What is left of [s] after the piece [p] it starts with. *)
Fixpoint dropPrefix (p s : string) : option string :=
  match p, s with
  | EmptyString, _ => Some s
  | String a p', String b s' =>
      if Ascii.eqb a b then dropPrefix p' s' else None
  | String _ _, EmptyString => None
  end.

(** What is left of [s] after the character of [chars] it starts with,
    if it starts with one. *)
Fixpoint afterOneOf (chars : list string) (s : string) : option string :=
  match chars with
  | [] => None
  | c :: rest =>
      match dropPrefix c s with
      | Some t => Some t
      | None => afterOneOf rest s
      end
  end.

(** The leading white space taken off; [fuel] bounds the scan by the
    length of [s]. *)
Fixpoint trimStartFuel (fuel : nat) (s : string) : string :=
  match fuel with
  | O => s
  | S fuel' =>
      match afterOneOf whiteSpace s with
      | Some t => trimStartFuel fuel' t
      | None => s
      end
  end.

Definition trimStart (s : string) : string :=
  trimStartFuel (String.length s) s.

(** The value of [c] as a digit in [radix] (10 or 16). *)
Definition digitOf (radix : Z) (c : ascii) : option Z :=
  let n := Z.of_nat (nat_of_ascii c) in
  if (48 <=? n) && (n <=? 57) then Some (n - 48)
  else if (radix =? 16) && (97 <=? n) && (n <=? 102) then Some (n - 87)
  else if (radix =? 16) && (65 <=? n) && (n <=? 70) then Some (n - 55)
  else None.

(** The longest prefix of digits, read in [radix]; [None] when it is
    empty. *)
Fixpoint readDigits (radix : Z) (s : string) (acc : Z) (seen : bool)
  : option Z :=
  match s with
  | String c t =>
      match digitOf radix c with
      | Some d => readDigits radix t (acc * radix + d) true
      | None => if seen then Some acc else None
      end
  | EmptyString => if seen then Some acc else None
  end.

(** [parseInt(s)] with no radix argument: leading white space, a sign, a
    [0x] prefix, then digits; [None] is NaN. *)
Definition parseIntString (s : string) : option Z :=
  let s1 := trimStart s in
  let '(sign, s2) :=
    match s1 with
    | String "-" t => (-1, t)
    | String "+" t => (1, t)
    | _ => (1, s1)
    end in
  let '(radix, s3) :=
    match s2 with
    | String "0" (String "x" t) => (16, t)
    | String "0" (String "X" t) => (16, t)
    | _ => (10, s2)
    end in
  match readDigits radix s3 0 false with
  | Some v => Some (sign * v)
  | None => None
  end.

(** [s.replace(/[...]/g, '')] for a class of characters, each given as
    its UTF-8 bytes: one scan from left to right, in which a character of
    the class is skipped and any other byte kept; [fuel] bounds the scan
    by the length of [s]. *)
Fixpoint removeCharsFuel (fuel : nat) (chars : list string) (s : string)
  : string :=
  match fuel with
  | O => s
  | S fuel' =>
      match s with
      | EmptyString => EmptyString
      | String c t =>
          match afterOneOf chars s with
          | Some rest => removeCharsFuel fuel' chars rest
          | None => String c (removeCharsFuel fuel' chars t)
          end
      end
  end.

Definition removeChars (chars : list string) (s : string) : string :=
  removeCharsFuel (String.length s) chars s.

(** [c.toUpperCase()] on one ASCII byte. *)
Definition upperAscii (c : ascii) : ascii :=
  let n := nat_of_ascii c in
  if (97 <=? n)%nat && (n <=? 122)%nat then ascii_of_nat (n - 32) else c.

Fixpoint toUpperCase (s : string) : string :=
  match s with
  | EmptyString => EmptyString
  | String c t => String (upperAscii c) (toUpperCase t)
  end.

(** [s.substring(0, n)]. *)
Definition substring0 (n : nat) (s : string) : string :=
  String.substring 0 n s.

Fixpoint replicate (n : nat) (c : ascii) : string :=
  match n with
  | O => EmptyString
  | S n' => String c (replicate n' c)
  end.

(** [s.padStart(n, c)] for a one-character pad. *)
Definition padStart (n : nat) (c : ascii) (s : string) : string :=
  (replicate (n - String.length s) c ++ s)%string.

End Js.

(** ** Cells and rows *)

Inductive cell : Type :=
| CStr (s : string)
| CNum (x : R)
| CBool (b : bool).

(** A property read: [None] is [undefined]. *)
Definition value := option cell.

Definition row := list (string * cell).

(** [row[key]]. *)
Fixpoint get (r : row) (key : string) : value :=
  match r with
  | [] => None
  | (k, v) :: t => if String.eqb k key then Some v else get t key
  end.

(** [Object.keys(row)]. *)
Definition keys (r : row) : list string := map fst r.

(** ToBoolean. *)
Definition truthy (v : value) : bool :=
  match v with
  | None => false
  | Some (CStr s) => negb (String.eqb s "")
  | Some (CNum x) => if Req_dec_T x 0%R then false else true
  | Some (CBool b) => b
  end.

(** [v || d]. *)
Definition orElse (v : value) (d : cell) : cell :=
  match v with
  | Some c => if truthy v then c else d
  | None => d
  end.

(** ** Conversions of cell values *)

Section Conversions.

(** The engine's [Number::toString]. *)
Variable numberToString : R -> string.

(** [String(c)]. *)
Definition toString (c : cell) : string :=
  match c with
  | CStr s => s
  | CNum x => numberToString x
  | CBool true => "true"
  | CBool false => "false"
  end.

Definition valueToString (v : value) : string :=
  match v with
  | Some c => toString c
  | None => "undefined"
  end.

(** [parseInt(v)]. *)
Definition parseInt (v : value) : option Z :=
  Js.parseIntString (valueToString v).

(** [parseInt(v) || d]: NaN and 0 give way to [d]. *)
Definition parseIntOr (v : value) (d : Z) : Z :=
  match parseInt v with
  | Some n => if n =? 0 then d else n
  | None => d
  end.

End Conversions.

(** ** The data model *)

(** The fields only the richer column mapping produces. *)
Module Ext.
Record t : Type := mk {
  salesCategory : string;
  city : string;
  territoryCode : string;
  startMonth : Z;
  startYear : Z;
  yearsOfEngagement : Z;
  endYear : Z
}.
End Ext.

(** One element of [weekly]. *)
Module Weekly.
Record t : Type := mk {
  week : Z;
  year : Z;
  account : string;
  industry : string;
  area : string;
  agent : string;
  status : string;
  revenue : R;
  volume : R;
  ext : option Ext.t
}.
End Weekly.

(** One element of [accounts]. *)
Module Account.
Record t : Type := mk {
  id : nat;
  name : string;
  industry : string;
  area : string;
  agent : string;
  status : string;
  baseRev : R;
  baseVol : R;
  ext : option Ext.t
}.
End Account.

(** One element of [accountsData]: a row after normalization. *)
Module Normalized.
Record t : Type := mk {
  account : string;
  industry : string;
  salesCategory : string;
  city : string;
  territoryCode : string;
  agent : string;
  status : string;
  teamDesignation : string;
  monthlyRevenue : R;
  monthlyVolume : R;
  startMonth : Z;
  startYear : Z;
  yearsOfEngagement : Z;
  endYear : Z
}.
End Normalized.

(** The object a parse resolves with.  Of [meta] and [info] the model keeps
    [meta.year], [info.totalRows], [info.originalColumns] and
    [info.dateRange.years]; the lists of categorical values are left out. *)
Record result : Type := mkResult {
  weekly : list Weekly.t;
  accounts : list Account.t;
  metaYear : option Z;
  totalRows : nat;
  originalColumns : list string;
  years : list Z
}.

(** A parse either rejects with [new Error(message)] or resolves. *)
Inductive outcome : Type :=
| Rejected (message : string)
| Resolved (r : result).

(** ** Arithmetic shared by the parser and the dashboard *)

(** [Math.ceil(w / 4.345)] for an integer [w]: the least integer [m] with
    [w <= 4.345 * m] (see [ceilWeeks_spec]). *)
Definition ceilWeeks (w : Z) : Z := - ((- (1000 * w)) / 4345).

(** [arr.reduce((s, d) => s + f(d), 0)]. *)
Definition sumOf {A : Type} (f : A -> R) (l : list A) : R :=
  fold_left (fun s d => (s + f d)%R) l 0%R.

(** [[...new Set(l)]]: the first occurrences, in order. *)
Fixpoint setOf {A : Type} (eqb : A -> A -> bool) (l : list A) : list A :=
  match l with
  | [] => []
  | x :: t => x :: filter (fun y => negb (eqb y x)) (setOf eqb t)
  end.

(** [String(n)] for an integer. *)
Definition intToString (n : Z) : string :=
  NilZero.string_of_int (Z.to_int n).

Fixpoint insertBy {A : Type} (le : A -> A -> bool) (x : A) (l : list A)
  : list A :=
  match l with
  | [] => [x]
  | y :: t => if le x y then x :: l else y :: insertBy le x t
  end.

(** A stable sort for the comparison [le]. *)
Fixpoint sortBy {A : Type} (le : A -> A -> bool) (l : list A) : list A :=
  match l with
  | [] => []
  | x :: t => insertBy le x (sortBy le t)
  end.

(** [arr.sort()] on integers: the default order compares the elements as
    strings. *)
Definition sortDefault (l : list Z) : list Z :=
  sortBy (fun a b => String.leb (intToString a) (intToString b)) l.

(** [Math.max(...l)]; [None] is the [-Infinity] of an empty list. *)
Definition mathMax (l : list Z) : option Z :=
  match l with
  | [] => None
  | x :: t => Some (fold_left Z.max t x)
  end.

(** ** Accounts derived from the weekly records (both parsers) *)

Definition hasKey {V : Type} (m : list (string * V)) (k : string) : bool :=
  existsb (fun e => String.eqb (fst e) k) m.

(** The body of [transformedData.forEach(d => ...)] that fills
    [accountMap]; the map keeps insertion order. *)
Definition addAccount (m : list (string * Account.t)) (d : Weekly.t)
  : list (string * Account.t) :=
  if hasKey m (Weekly.account d) then m
  else m ++ [(Weekly.account d,
              Account.mk (List.length m + 1) (Weekly.account d)
                (Weekly.industry d) (Weekly.area d) (Weekly.agent d)
                (Weekly.status d) 0%R 0%R (Weekly.ext d))].

Definition accountMap (data : list Weekly.t) : list (string * Account.t) :=
  fold_left addAccount data [].

(** The body of [accounts.forEach(account => ...)]: the base figures are
    the sums over the records that carry the account's name. *)
Definition setBase (data : list Weekly.t) (a : Account.t) : Account.t :=
  let accountData :=
    filter (fun d => String.eqb (Weekly.account d) (Account.name a)) data in
  let totalRev := sumOf Weekly.revenue accountData in
  let totalVol := sumOf Weekly.volume accountData in
  Account.mk (Account.id a) (Account.name a) (Account.industry a)
    (Account.area a) (Account.agent a) (Account.status a)
    totalRev totalVol (Account.ext a).

Definition deriveAccounts (data : list Weekly.t) : list Account.t :=
  map (setBase data) (map snd (accountMap data)).

(** From the metadata extraction to [resolve(result)]. *)
Definition buildResult (fileColumns : list string) (data : list Weekly.t)
  : result :=
  let years := sortDefault (setOf Z.eqb (map Weekly.year data)) in
  mkResult data (deriveAccounts data) (mathMax years) (List.length data)
    fileColumns years.

(** The spread calls of the result literal, in evaluation order:
    [Math.max(...years)], then [Math.min(...)] and [Math.max(...)] over
    the weeks of all records (the same number of arguments twice).
    [spread n] is what the engine does with a call that spreads [n]
    arguments: [None] when the call goes through, [Some message] when it
    throws (a RangeError, once [n] passes the limit of the engine). *)
Definition spreadError (spread : nat -> option string) (r : result)
  : option string :=
  match spread (List.length (years r)) with
  | Some message => Some message
  | None => spread (List.length (weekly r))
  end.

(** The result literal inside the [try]: an error thrown while it is
    built is caught and rejected as 'Failed to parse Excel file: ...'. *)
Definition finish (spread : nat -> option string)
  (fileColumns : list string) (data : list Weekly.t) : outcome :=
  let r := buildResult fileColumns data in
  match spreadError spread r with
  | Some message =>
      Rejected ("Failed to parse Excel file: " ++ message)%string
  | None => Resolved r
  end.

(** ** The parser of the richer column mapping (first [parseExcelFile]) *)

Module Rich.

(** [Object.keys(COLUMN_MAPPING)]. *)
Definition mappedColumns : list string :=
  [ "Account Name"; "Industry"; "Sales Category"; "Sales Stage"; "City";
    "Territory Code"; "Sales Agent"; "Committed Monthly Volume";
    "Committed FY Volume"; "Monthly Sales Forecast"; "Team Designation";
    "Forecasted TXN Start (Month)"; "Forecasted TXN Start (Year)";
    "Years of Engagement"; "Sales Remarks / Contact History" ].

(** [Object.entries(monthMap)] of [parseMonthFromText]. *)
Definition monthMap : list (string * Z) :=
  [ ("jan", 1); ("feb", 2); ("mar", 3); ("apr", 4);
    ("may", 5); ("jun", 6); ("jul", 7); ("aug", 8);
    ("sep", 9); ("oct", 10); ("nov", 11); ("dec", 12);
    ("january", 1); ("february", 2); ("march", 3); ("april", 4);
    ("june", 6); ("july", 7); ("august", 8);
    ("september", 9); ("october", 10); ("november", 11); ("december", 12) ].

(** The columns of the mapping that some header of the file contains or
    that are contained in one; [includes] compares bytes as they are. *)
Definition foundColumns (fileColumns : list string) : list string :=
  filter
    (fun col =>
       existsb (fun fileCol => Js.includes fileCol col || Js.includes col fileCol)
         fileColumns)
    mappedColumns.

Definition notEnoughColumns (found fileColumns : list string) : string :=
  ("Could not find enough expected columns. Found: " ++ Js.join ", " found
   ++ ". Available: " ++ Js.join ", " fileColumns)%string.

(** [Math.ceil(w / 4.345)] in the expansion loop. *)
Definition weekMonth (w : Z) : Z := ceilWeeks w.

(** [shouldContribute] of the expansion loop, where [currentYear] is
    [acc.startYear]. *)
Definition shouldContribute (w : Z) (acc : Normalized.t) : bool :=
  let currentYear := Normalized.startYear acc in
  (Normalized.startMonth acc <=? weekMonth w)
  && (currentYear <=? Normalized.endYear acc).

(** [1 + 0.12 * Math.sin((2 * Math.PI * w) / 52)]. *)
Definition seasonalFactor (w : Z) : R :=
  (1 + 0.12 * sin ((2 * PI * IZR w) / 52))%R.

(** The body of the expansion loop: the record pushed for week [w] and
    account [acc]. *)
Definition expandWeek (w : Z) (acc : Normalized.t) : Weekly.t :=
  let currentYear := Normalized.startYear acc in
  let weeklyRevenue :=
    if shouldContribute w acc
    then (Normalized.monthlyRevenue acc / 4.345 * seasonalFactor w)%R
    else 0%R in
  let weeklyVolume :=
    if shouldContribute w acc
    then (Normalized.monthlyVolume acc / 4.345 * seasonalFactor w)%R
    else 0%R in
  Weekly.mk w currentYear (Normalized.account acc) (Normalized.industry acc)
    (Normalized.teamDesignation acc) (Normalized.agent acc)
    (Normalized.status acc) weeklyRevenue weeklyVolume
    (Some (Ext.mk (Normalized.salesCategory acc) (Normalized.city acc)
             (Normalized.territoryCode acc) (Normalized.startMonth acc)
             (Normalized.startYear acc) (Normalized.yearsOfEngagement acc)
             (Normalized.endYear acc))).

(** [w = 1 .. 52]. *)
Definition weeks : list Z := map Z.of_nat (seq 1 52).

(** [for (let w = 1; w <= 52; w++) accountsData.forEach(...)]. *)
Definition expand (accountsData : list Normalized.t) : list Weekly.t :=
  flat_map (fun w => map (expandWeek w) accountsData) weeks.

(** [/[₱,\s]/g] replaced by the empty string. *)
Definition cleanRevenue (s : string) : string :=
  Js.removeChars ("₱" :: "," :: Js.whiteSpace) s.

(** [/[,\s]/g] replaced by the empty string. *)
Definition cleanVolume (s : string) : string :=
  Js.removeChars ("," :: Js.whiteSpace) s.

Section Run.

(** The engine: what a spread call of [n] arguments does, then
    [Number::toString] and [parseFloat] ([None] is NaN). *)
Variable spread : nat -> option string.
Variable numberToString : R -> string.
Variable parseFloat : string -> option R.
(** The clock: [new Date().getFullYear()] and [new Date().getMonth()]. *)
Variable fullYear : Z.
Variable getMonth : Z.
(** [random k] is what the [k]-th call of [Math.random()] returns. *)
Variable random : nat -> R.

Definition parseMonthFromText (monthStr : cell) : Z :=
  let byName :=
    match monthStr with
    | CStr s =>
        let lowerStr := Js.toLowerCase s in
        find (fun e => Js.includes lowerStr (fst e)) monthMap
    | _ => None
    end in
  match byName with
  | Some (_, num) => num
  | None =>
      match parseInt numberToString (Some monthStr) with
      | Some num =>
          if (1 <=? num) && (num <=? 12) then num else getMonth + 1
      | None => getMonth + 1
      end
  end.

(** The start month of a row:
    [parseMonthFromText(row['Forecasted TXN Start (Month)'] || 'August')]. *)
Definition startMonthOf (v : value) : Z :=
  parseMonthFromText (orElse v (CStr "August")).

(** A figure read from a cell: [0] unless the cell is truthy and its
    cleaned text parses to a positive number. *)
Definition parseFigure (clean : string -> string) (v : value) : R :=
  if truthy v then
    match parseFloat (clean (valueToString numberToString v)) with
    | Some parsed => if Rlt_dec 0 parsed then parsed else 0%R
    | None => 0%R
    end
  else 0%R.

(** The body of [jsonData.forEach((row, index) => ...)]; [k] counts the
    calls of [Math.random()] made so far.  No step of the body throws on
    a string, number or boolean cell, so the [catch] is never entered. *)
Definition normalizeRow (index : nat) (r : row) (k : nat)
  : Normalized.t * nat :=
  let startYear :=
    parseIntOr numberToString (get r "Forecasted TXN Start (Year)") fullYear in
  let startMonth := startMonthOf (get r "Forecasted TXN Start (Month)") in
  let yearsOfEngagement :=
    parseIntOr numberToString (get r "Years of Engagement") 1 in
  let text key d := toString numberToString (orElse (get r key) (CStr d)) in
  let account :=
    text "Account Name" ("Account-" ++ Js.natToString (index + 1))%string in
  let revenue0 := parseFigure cleanRevenue (get r "Monthly Sales Forecast") in
  let volume0 := parseFigure cleanVolume (get r "Committed Monthly Volume") in
  let '(monthlyRevenue, k1) :=
    if Req_dec_T revenue0 0%R
    then ((500000 + random k * 2000000)%R, S k) else (revenue0, k) in
  let '(monthlyVolume, k2) :=
    if Req_dec_T volume0 0%R
    then ((50 + random k1 * 500)%R, S k1) else (volume0, k1) in
  (Normalized.mk account (text "Industry" "Unknown")
     (text "Sales Category" "Unknown") (text "City" "Unknown")
     (text "Territory Code" "Unknown") (text "Sales Agent" "Unknown")
     (text "Sales Stage" "Prospect") (text "Team Designation" "Unknown")
     monthlyRevenue monthlyVolume startMonth startYear yearsOfEngagement
     (startYear + yearsOfEngagement - 1),
   k2).

Fixpoint normalizeRows (index : nat) (rows : list row) (k : nat)
  : list Normalized.t :=
  match rows with
  | [] => []
  | r :: t =>
      let '(a, k') := normalizeRow index r k in
      a :: normalizeRows (S index) t k'
  end.

(** [parseExcelFile], from the rows of the first sheet on. *)
Definition parseExcelFile (jsonData : list row) : outcome :=
  match jsonData with
  | [] => Rejected "Excel file is empty"
  | first :: _ =>
      let fileColumns := keys first in
      let found := foundColumns fileColumns in
      if (List.length found <? 2)%nat
      then Rejected (notEnoughColumns found fileColumns)
      else
        let accountsData := normalizeRows 0 jsonData 0 in
        let transformedData := expand accountsData in
        match transformedData with
        | [] => Rejected "No valid data rows found after transformation"
        | _ => finish spread fileColumns transformedData
        end
  end.

End Run.

End Rich.

(** ** The parser of the shorter column mapping (second [parseExcelFile]) *)

Module Basic.

(** [Object.keys(COLUMN_MAPPING)]. *)
Definition mappedColumns : list string :=
  [ "Account Name"; "Industry"; "Sales Stage"; "Area"; "Sales Rep";
    "Committed Monthly Vol"; "Monthly Sales Report Prep" ].

(** [Object.entries(monthMap)] of [getWeekFromMonth]. *)
Definition monthMap : list (string * Z) :=
  [ ("January", 1); ("February", 5); ("March", 9); ("April", 13);
    ("May", 17); ("June", 21); ("July", 26); ("August", 30);
    ("September", 35); ("October", 39); ("November", 44); ("December", 48) ].

(** The columns of the mapping that are headers of the file, letter for
    letter. *)
Definition foundColumns (fileColumns : list string) : list string :=
  filter (fun col => Js.arrayIncludes fileColumns col) mappedColumns.

Definition notEnoughColumns (found : list string) : string :=
  ("Could not find enough expected columns. Found: "
   ++ Js.join ", " found)%string.

(** [/[â‚±,\s]/g] replaced by the empty string. *)
Definition cleanRevenue (s : string) : string :=
  Js.removeChars ("â" :: "‚" :: "±" :: "," :: Js.whiteSpace) s.

(** [/[,\s]/g] replaced by the empty string. *)
Definition cleanVolume (s : string) : string :=
  Js.removeChars ("," :: Js.whiteSpace) s.

Definition weekSourceKey : string :=
  "Expected/Forecasted TXN Start (Year Years of Engageme Committed Monthly Vol Committed FY Volu Monthly Sales Report Prep Territory Code".

Section Run.

Variable spread : nat -> option string.
Variable numberToString : R -> string.
Variable parseFloat : string -> option R.
(** The clock: [new Date().getFullYear()], and the week of the year the
    fallback of [getWeekFromMonth] computes from [new Date()]. *)
Variable fullYear : Z.
Variable currentWeek : Z.
Variable random : nat -> R.

Definition getWeekFromMonth (monthStr : cell) : Z :=
  let byName :=
    match monthStr with
    | CStr s =>
        find (fun e => Js.includes (Js.toLowerCase s) (Js.toLowerCase (fst e)))
          monthMap
    | _ => None
    end in
  match byName with
  | Some (_, week) => week
  | None => currentWeek
  end.

(** [parseFloat(text) || fallback]: NaN and 0 give way to the fallback,
    which is only then evaluated. *)
Definition parseFloatOr (text : string) (fallback : R) (k : nat) : R * nat :=
  match parseFloat text with
  | Some x => if Req_dec_T x 0%R then (fallback, S k) else (x, k)
  | None => (fallback, S k)
  end.

(** The body of [jsonData.forEach((row, index) => ...)]. *)
Definition normalizeRow (index : nat) (r : row) (k : nat) : Weekly.t * nat :=
  let year := parseIntOr numberToString (get r "Year of Engagement") fullYear in
  let weekSource :=
    orElse (get r weekSourceKey)
      (orElse (get r "Expected/Forecasted TXN Start") (CStr "August")) in
  let week := getWeekFromMonth weekSource in
  let text key d := toString numberToString (orElse (get r key) (CStr d)) in
  let account :=
    text "Account Name" ("Account-" ++ Js.natToString (index + 1))%string in
  let revenueStr :=
    toString numberToString
      (orElse (get r "Monthly Sales Report Prep")
         (orElse (get r "Committed FY Volu") (CStr "0"))) in
  let '(revenue, k1) :=
    parseFloatOr (cleanRevenue revenueStr)
      (random k * 1000000 + 100000)%R k in
  let volumeStr :=
    toString numberToString (orElse (get r "Committed Monthly Vol") (CStr "0")) in
  let '(volume, k2) :=
    parseFloatOr (cleanVolume volumeStr) (random k1 * 500 + 50)%R k1 in
  (Weekly.mk week year account (text "Industry" "Unknown")
     (text "Area" "Unknown") (text "Sales Rep" "Unknown")
     (text "Sales Stage" "Prospect") revenue volume None,
   k2).

Fixpoint normalizeRows (index : nat) (rows : list row) (k : nat)
  : list Weekly.t :=
  match rows with
  | [] => []
  | r :: t =>
      let '(d, k') := normalizeRow index r k in
      d :: normalizeRows (S index) t k'
  end.

(** [parseExcelFile], from the rows of the first sheet on. *)
Definition parseExcelFile (jsonData : list row) : outcome :=
  match jsonData with
  | [] => Rejected "Excel file is empty"
  | first :: _ =>
      let fileColumns := keys first in
      let found := foundColumns fileColumns in
      if (List.length found <? 3)%nat
      then Rejected (notEnoughColumns found)
      else
        let transformedData := normalizeRows 0 jsonData 0 in
        match transformedData with
        | [] => Rejected "No valid data rows found after transformation"
        | _ => finish spread fileColumns transformedData
        end
  end.

End Run.

End Basic.

(** ** The dashboard: aggregation, scenario engine, forecast figures *)

(** What a bucket of [aggregate] is keyed by: [week], [month] (with
    [monthName] in the richer dashboard) or [year], where [ByYear None] is
    the ["N/A"] of an empty input. *)
Inductive bucketTag : Type :=
| ByWeek (week : Z)
| ByMonth (month : Z) (monthName : option string)
| ByYear (year : option Z).

Module Bucket.
Record t : Type := mk {
  tag : bucketTag;
  revenue : R;
  volume : R
}.

(** [b.month]; [None] is [undefined]. *)
Definition month (b : t) : option Z :=
  match tag b with
  | ByMonth m _ => Some m
  | _ => None
  end.
End Bucket.

(** The options of [applyScenario]; [mixShiftIndustry] is [null] or a
    string. *)
Record scenario : Type := mkScenario {
  revenueMultiplier : R;
  volumeMultiplier : R;
  mixShiftIndustry : option string;
  mixShiftPct : R
}.

Module Dashboard.

Definition weeklyToMonth (week : Z) : Z :=
  Z.min 12 (Z.max 1 (ceilWeeks week)).

Definition months : list string :=
  [ "January"; "February"; "March"; "April"; "May"; "June";
    "July"; "August"; "September"; "October"; "November"; "December" ].

(** [months[monthNum - 1] || 'Unknown']. *)
Definition getMonthName (monthNum : Z) : string :=
  if monthNum <=? 0 then "Unknown"
  else nth (Z.to_nat (monthNum - 1)) months "Unknown".

(** [by[k].revenue += r; by[k].volume += v] on the bucket stored under
    [k]. *)
Fixpoint addTo (by_ : list (Z * Bucket.t)) (k : Z) (r v : R)
  : list (Z * Bucket.t) :=
  match by_ with
  | [] => []
  | (k', b) :: t =>
      if k' =? k
      then (k', Bucket.mk (Bucket.tag b) (Bucket.revenue b + r)
                  (Bucket.volume b + v)) :: t
      else (k', b) :: addTo t k r v
  end.

Definition hasBucket (by_ : list (Z * Bucket.t)) (k : Z) : bool :=
  existsb (fun e => fst e =? k) by_.

(** One turn of [for (const d of data)]: the bucket of [keyOf d] is
    created on first use, then [d] is added to it. *)
Definition accumulate (keyOf : Weekly.t -> Z) (fresh : Z -> bucketTag)
  (by_ : list (Z * Bucket.t)) (d : Weekly.t) : list (Z * Bucket.t) :=
  let k := keyOf d in
  let by1 :=
    if hasBucket by_ k then by_ else by_ ++ [(k, Bucket.mk (fresh k) 0 0)] in
  addTo by1 k (Weekly.revenue d) (Weekly.volume d).

(** [Object.values(by).sort((a, b) => a.key - b.key)]: the keys of [by]
    are distinct, so the sorted array does not depend on the order in
    which [Object.values] lists them. *)
Definition sortedValues (by_ : list (Z * Bucket.t)) : list Bucket.t :=
  map snd (sortBy (fun a b => fst a <=? fst b) by_).

Section Aggregate.

(** Whether a monthly bucket carries [monthName] (the richer dashboard
    does, the other one does not). *)
Variable withMonthName : bool.

Definition aggregate (data : list Weekly.t) (period : string)
  : list Bucket.t :=
  if String.eqb period "Weekly" then
    sortedValues (fold_left (accumulate Weekly.week ByWeek) data [])
  else if String.eqb period "Monthly" then
    sortedValues
      (fold_left
         (accumulate (fun d => weeklyToMonth (Weekly.week d))
            (fun k =>
               ByMonth k (if withMonthName then Some (getMonthName k) else None)))
         data [])
  else
    let totals :=
      fold_left
        (fun acc d =>
           (fst acc + Weekly.revenue d, snd acc + Weekly.volume d)%R)
        data (0%R, 0%R) in
    [ Bucket.mk (ByYear (option_map Weekly.year (hd_error data)))
        (fst totals) (snd totals) ].

End Aggregate.

(** [mixShiftIndustry && d.industry === mixShiftIndustry]. *)
Definition targeted (opts : scenario) (d : Weekly.t) : bool :=
  match mixShiftIndustry opts with
  | Some s => negb (String.eqb s "") && String.eqb (Weekly.industry d) s
  | None => false
  end.

(** The body of [data.map((d) => ...)] in [applyScenario]. *)
Definition adjust (opts : scenario) (d : Weekly.t) : Weekly.t :=
  let rev := (Weekly.revenue d * revenueMultiplier opts)%R in
  let vol := (Weekly.volume d * volumeMultiplier opts)%R in
  let rev' :=
    if targeted opts d then (rev * (1 + mixShiftPct opts / 100))%R else rev in
  let vol' :=
    if targeted opts d
    then (vol * (1 + (mixShiftPct opts * 0.6) / 100))%R else vol in
  Weekly.mk (Weekly.week d) (Weekly.year d) (Weekly.account d)
    (Weekly.industry d) (Weekly.area d) (Weekly.agent d) (Weekly.status d)
    rev' vol' (Weekly.ext d).

Definition applyScenario (data : list Weekly.t) (opts : scenario)
  : list Weekly.t :=
  map (adjust opts) data.

(** The year-to-date, month-to-date and forecast figures of the page, for
    the figure [f] ([Bucket.revenue] or [Bucket.volume]) of a monthly
    series. *)
Section Forecast.

Variable f : Bucket.t -> R.
Variable monthly : list Bucket.t.
Variable monthCutoff : Z.
Variable forecastAdjPct : R.

(** [m.month <= monthCutoff]. *)
Definition upToCutoff (m : Bucket.t) : bool :=
  match Bucket.month m with
  | Some k => k <=? monthCutoff
  | None => false
  end.

(** [m.month === monthCutoff]. *)
Definition atCutoff (m : Bucket.t) : bool :=
  match Bucket.month m with
  | Some k => k =? monthCutoff
  | None => false
  end.

Definition ytd : R := sumOf f (filter upToCutoff monthly).

Definition mtd : R :=
  match find atCutoff monthly with
  | Some m => f m
  | None => 0%R
  end.

Definition avgPerMonth : R :=
  if 0 <? monthCutoff then (ytd / IZR monthCutoff)%R else 0%R.

Definition forecast : R :=
  (ytd + (12 - IZR monthCutoff) * avgPerMonth * (1 + forecastAdjPct / 100))%R.

End Forecast.

End Dashboard.

(** The figures of an entry of [by]. *)
Definition revOf (e : Z * Bucket.t) : R := Bucket.revenue (snd e).

Definition volOf (e : Z * Bucket.t) : R := Bucket.volume (snd e).

(** ** More of the dashboard: grouping by a key, filters, KPI figures *)

(** The keys [groupByAccount], [groupByIndustry], [groupByArea] and
    [groupByAgent] hand to [groupByKey]. *)
Inductive groupKey : Type := ByAccount | ByIndustry | ByArea | ByAgent.

(** [d[key]]. *)
Definition keyValue (key : groupKey) (d : Weekly.t) : string :=
  match key with
  | ByAccount => Weekly.account d
  | ByIndustry => Weekly.industry d
  | ByArea => Weekly.area d
  | ByAgent => Weekly.agent d
  end.

(** A value of the [Map] of [groupByKey]: [{ [key]: k, revenue, volume }]. *)
Module Group.
Record t : Type := mk {
  key : groupKey;
  value : string;
  revenue : R;
  volume : R
}.
End Group.

(** The filter set of the richer dashboard; a field that the state object
    lacks reads as [undefined] ([None]). *)
Module Filters.
Record t : Type := mk {
  industry : option string;
  salesCategory : option string;
  status : option string;
  city : option string;
  territoryCode : option string;
  agent : option string;
  area : option string
}.
End Filters.

Module Views.

(** [v.revenue += r; v.volume += w] on the value stored under [k]. *)
Fixpoint addToGroup (m : list (string * Group.t)) (k : string) (r w : R)
  : list (string * Group.t) :=
  match m with
  | [] => []
  | (k', g) :: t =>
      if String.eqb k' k
      then (k', Group.mk (Group.key g) (Group.value g)
                  (Group.revenue g + r) (Group.volume g + w)) :: t
      else (k', g) :: addToGroup t k r w
  end.

(** The body of [data.forEach((d) => ...)] in [groupByKey]; the [Map]
    keeps insertion order. *)
Definition collect (key : groupKey) (m : list (string * Group.t))
  (d : Weekly.t) : list (string * Group.t) :=
  let k := keyValue key d in
  let m1 := if hasKey m k then m else m ++ [(k, Group.mk key k 0 0)] in
  addToGroup m1 k (Weekly.revenue d) (Weekly.volume d).

(** The comparison of [sort((a, b) => b.revenue - a.revenue)]: [a] may
    stay in front of [b]. *)
Definition revenueDescending (a b : Group.t) : bool :=
  if Rle_dec (Group.revenue b) (Group.revenue a) then true else false.

(** The comparison of [sort((a, b) => b.volume - a.volume)]. *)
Definition volumeDescending (a b : Group.t) : bool :=
  if Rle_dec (Group.volume b) (Group.volume a) then true else false.

Definition groupByKey (data : list Weekly.t) (key : groupKey)
  : list Group.t :=
  sortBy revenueDescending (map snd (fold_left (collect key) data [])).

Definition groupByAccount (d : list Weekly.t) := groupByKey d ByAccount.
Definition groupByIndustry (d : list Weekly.t) := groupByKey d ByIndustry.
Definition groupByArea (d : list Weekly.t) := groupByKey d ByArea.
Definition groupByAgent (d : list Weekly.t) := groupByKey d ByAgent.

(** [perAccount.slice(0, 10)]. *)
Definition top10Rev (perAccount : list Group.t) : list Group.t :=
  firstn 10 perAccount.

(** [[...perAccount].sort((a, b) => b.volume - a.volume).slice(0, 10)]. *)
Definition top10Vol (perAccount : list Group.t) : list Group.t :=
  firstn 10 (sortBy volumeDescending perAccount).

(** [a === b] on values that are strings or [undefined]. *)
Definition strictEq (a b : option string) : bool :=
  match a, b with
  | Some x, Some y => String.eqb x y
  | None, None => true
  | _, _ => false
  end.

(** [filters.f === 'all' || item.f === filters.f]. *)
Definition dimension (f item : option string) : bool :=
  strictEq f (Some "all") || strictEq item f.

(** The predicate of [data.filter(item => ...)] in [applyFilters]. *)
Definition passes (filters : Filters.t) (item : Weekly.t) : bool :=
  dimension (Filters.industry filters) (Some (Weekly.industry item))
  && dimension (Filters.salesCategory filters)
       (option_map Ext.salesCategory (Weekly.ext item))
  && dimension (Filters.status filters) (Some (Weekly.status item))
  && dimension (Filters.city filters)
       (option_map Ext.city (Weekly.ext item))
  && dimension (Filters.territoryCode filters)
       (option_map Ext.territoryCode (Weekly.ext item))
  && dimension (Filters.agent filters) (Some (Weekly.agent item))
  && dimension (Filters.area filters) (Some (Weekly.area item)).

Definition applyFilters (filters : Filters.t) (data : list Weekly.t)
  : list Weekly.t :=
  filter (passes filters) data.

(** The filter set of the initial state, of an upload and of
    'Clear All Filters'. *)
Definition allFilters : Filters.t :=
  Filters.mk (Some "all") (Some "all") (Some "all") (Some "all")
    (Some "all") (Some "all") (Some "all").

(** The filter set [resetToSampleData] installs: it has no [area]. *)
Definition resetFilters : Filters.t :=
  Filters.mk (Some "all") (Some "all") (Some "all") (Some "all")
    (Some "all") (Some "all") None.

(** [adjustedTY] of the richer page: the scenario, then the filters. *)
Definition adjustedTY (weekly : list Weekly.t) (opts : scenario)
  (filters : Filters.t) : list Weekly.t :=
  applyFilters filters (Dashboard.applyScenario weekly opts).

(** [series.reduce((s, d) => s + (d.f || 0), 0)]: [overallRevenue] and
    [overallVolume]. *)
Definition overall (f : Bucket.t -> R) (series : list Bucket.t) : R :=
  sumOf f series.

(** [avgMonthly.length ? avgMonthly.reduce(...) / avgMonthly.length : 0]. *)
Definition avgMonthlyOf (f : Bucket.t -> R) (avgMonthly : list Bucket.t) : R :=
  match avgMonthly with
  | [] => 0%R
  | _ => (sumOf f avgMonthly / INR (List.length avgMonthly))%R
  end.

(** The data of the overlay charts:
    [Array.from({ length: 12 }, (_, i) => ({ month: i + 1,
       ty: monthlyTY[i]?.f || 0 }))], one series. *)
Definition overlay (f : Bucket.t -> R) (monthly : list Bucket.t)
  : list (Z * R) :=
  map (fun i =>
         (Z.of_nat i + 1,
          match nth_error monthly i with
          | Some b => f b
          | None => 0%R
          end))
    (seq 0 12).

End Views.

(** ** The synthetic data set *)

Module Sample.

(** [ToInt32] and [ToUint32] of an integer-valued number. *)
Definition toInt32 (x : Z) : Z :=
  (x + 2147483648) mod 4294967296 - 2147483648.

Definition toUint32 (x : Z) : Z := x mod 4294967296.

(** [Math.imul(x, y)]. *)
Definition imul (x y : Z) : Z := toInt32 (toUint32 x * toUint32 y).

(** [x ^ y], [x | y] and [x >>> n] (for [0 <= n < 32]). *)
Definition bitXor (x y : Z) : Z := Z.lxor (toInt32 x) (toInt32 y).
Definition bitOr (x y : Z) : Z := Z.lor (toInt32 x) (toInt32 y).
Definition ushr (x n : Z) : Z := Z.shiftr (toUint32 x) n.

(** One call of the closure [mulberry32(a)] returns: the number it
    returns, and the new value of the captured [a] (a number, which the
    additions do not wrap). *)
Definition mulberry32 (a : Z) : R * Z :=
  let a := a + 1831565813 in
  let t := a in
  let t := imul (bitXor t (ushr t 15)) (bitOr t 1) in
  let t := bitXor t (t + imul (bitXor t (ushr t 7)) (bitOr t 61)) in
  ((IZR (ushr (bitXor t (ushr t 14)) 0) / 4294967296)%R, a).

(** A computation that calls [rnd()]: it threads the captured [a], and
    yields [None] when an array is read outside its bounds (the source
    then goes on with [undefined], or throws at [industry.substring]). *)
Definition gen (A : Type) : Type := Z -> option (A * Z).

Definition ret {A : Type} (x : A) : gen A := fun a => Some (x, a).

Definition bind {A B : Type} (m : gen A) (f : A -> gen B) : gen B :=
  fun a =>
    match m a with
    | Some (x, a') => f x a'
    | None => None
    end.

Declare Scope gen_scope.
Delimit Scope gen_scope with gen.
Notation "x <- m ;; k" := (bind m (fun x => k))
  (at level 61, m at next level, right associativity) : gen_scope.
Local Open Scope gen_scope.

(** [rnd()]. *)
Definition rnd : gen R := fun a => Some (mulberry32 a).

(** [Math.floor]. *)
Definition floor (x : R) : Z := Int_part x.

(** [l[i]]. *)
Definition element (l : list string) (i : Z) : gen string :=
  fun a =>
    if i <? 0 then None
    else match nth_error l (Z.to_nat i) with
         | Some x => Some (x, a)
         | None => None
         end.

(** [l[Math.floor(rnd() * l.length)]]. *)
Definition pickFrom (l : list string) : gen string :=
  r <- rnd ;;
  element l (floor (r * IZR (Z.of_nat (List.length l)))).

(** [l.indexOf(x)]. *)
Fixpoint indexOf (l : list string) (x : string) : Z :=
  match l with
  | [] => -1
  | y :: t =>
      if String.eqb y x then 0
      else let i := indexOf t x in if i <? 0 then -1 else i + 1
  end.

(** [l.map((x, i) => f(x, i))] and [l.forEach((x, i) => ...)] with the
    results collected, the calls in order. *)
Fixpoint mapIndexed {A B : Type} (f : A -> nat -> gen B) (l : list A)
  (i : nat) : gen (list B) :=
  match l with
  | [] => ret []
  | x :: t =>
      y <- f x i ;;
      ys <- mapIndexed f t (S i) ;;
      ret (y :: ys)
  end.

Definition industries : list string :=
  ["Retail"; "FMCG"; "Technology"; "Manufacturing"; "Healthcare"; "Logistics"].
Definition areas : list string :=
  ["NCR"; "North Luzon"; "South Luzon"; "Visayas"; "Mindanao"].
Definition agents : list string :=
  ["Alonzo"; "Bautista"; "Cruz"; "Dela Cruz"; "Escobar"; "Flores"; "Garcia";
   "Hernandez"].
Definition statuses : list string :=
  ["Prospect"; "Negotiation"; "Won"; "Lost"; "On Hold"].

(** The account name built from the industry, the area and the index. *)
Definition accountName (industry area : string) (idx : nat) : string :=
  (Js.toUpperCase (Js.substring0 3 industry) ++ "-"
   ++ Js.toUpperCase (Js.substring0 2 area) ++ "-ACCT-"
   ++ Js.padStart 3 "0" (Js.natToString (idx + 1)))%string.

Definition industryW (industry : string) : R :=
  (0.8 + IZR (indexOf industries industry) * 0.08)%R.

Definition areaW (area : string) : R :=
  (0.9 + IZR (indexOf areas area) * 0.05)%R.

(** [1 + 0.12 * Math.sin((2 * Math.PI * (w + i)) / 52)]. *)
Definition season (w : Z) (i : nat) : R :=
  (1 + 0.12 * sin ((2 * PI * IZR (w + Z.of_nat i)) / 52))%R.

(** The synthetic data set: [weekly], [accounts] and [meta.year] (the
    other members of [meta] are the constant arrays above). *)
Record t : Type := mk {
  weekly : list Weekly.t;
  accounts : list Account.t;
  year : Z
}.

(** [for (let w = 1; w <= 52; w++) accounts.forEach(...)]. *)
Fixpoint forWeeks (body : Z -> Account.t -> nat -> gen Weekly.t)
  (ws : list Z) (accs : list Account.t) : gen (list Weekly.t) :=
  match ws with
  | [] => ret []
  | w :: t =>
      l <- mapIndexed (body w) accs 0 ;;
      rest <- forWeeks body t accs ;;
      ret (l ++ rest)
  end.

(** [m] never reads outside an array, and what it yields satisfies [P],
    whatever the captured [a] is. *)
Definition always {A : Type} (m : gen A) (P : A -> Prop) : Prop :=
  forall a, exists x a', m a = Some (x, a') /\ P x.

(** The generator of the first dashboard page. *)
Module Lab.

(** The body of [Array.from({ length: 80 }).map((_, idx) => ...)]. *)
Definition account (_ : unit) (idx : nat) : gen Account.t :=
  industry <- pickFrom industries ;;
  area <- pickFrom areas ;;
  agent <- pickFrom agents ;;
  status <- pickFrom statuses ;;
  let name := accountName industry area idx in
  r1 <- rnd ;;
  let baseRev :=
    (400000 + r1 * 3000000 * industryW industry * areaW area)%R in
  r2 <- rnd ;;
  let baseVol :=
    (40 + IZR (floor (r2 * 600 * industryW industry * areaW area)))%R in
  ret (Account.mk (idx + 1) name industry area agent status baseRev baseVol
         None).

(** The body of [accounts.forEach((acc, i) => ...)] in week [w]. *)
Definition record (year : Z) (w : Z) (acc : Account.t) (i : nat)
  : gen Weekly.t :=
  r1 <- rnd ;;
  let rev :=
    (Account.baseRev acc / 4.345 * (0.6 + r1 * 0.8) * season w i
     * (if year =? 2025 then 1.06 else 1.0))%R in
  r2 <- rnd ;;
  let vol := (Account.baseVol acc / 4.345 * (0.6 + r2 * 0.8) * season w i)%R in
  ret (Weekly.mk w year (Account.name acc) (Account.industry acc)
         (Account.area acc) (Account.agent acc) (Account.status acc)
         rev vol None).

Definition generate (year : Z) : gen t :=
  accs <- mapIndexed account (repeat tt 80) 0 ;;
  weekly <- forWeeks (record year) Rich.weeks accs ;;
  ret (mk weekly accs year).

(** [generateSample(seed, year)]. *)
Definition generateSample (seed year : Z) : option t :=
  option_map fst (generate year seed).

End Lab.

(** The generator of the richer dashboard page. *)
Module Forecast.

Definition salesCategories : list string :=
  ["New"; "Cross-Sell"; "Upsell"; "Renewal"].
Definition cities : list string :=
  ["Manila"; "Cebu"; "Davao"; "Quezon City"; "Makati"; "Pasig"; "Taguig"].
Definition territoryCodes : list string :=
  ["T01"; "T02"; "T03"; "T04"; "T05"; "T06"; "T07"; "T08"].

(** The body of [Array.from({ length: 80 }).map((_, idx) => ...)]. *)
Definition account (year : Z) (_ : unit) (idx : nat) : gen Account.t :=
  industry <- pickFrom industries ;;
  salesCategory <- pickFrom salesCategories ;;
  city <- pickFrom cities ;;
  area <- pickFrom areas ;;
  territoryCode <- pickFrom territoryCodes ;;
  agent <- pickFrom agents ;;
  status <- pickFrom statuses ;;
  let name := accountName industry area idx in
  r1 <- rnd ;;
  let startMonth := floor (r1 * 12) + 1 in
  r2 <- rnd ;;
  let startYear := year + floor (r2 * 2) in
  r3 <- rnd ;;
  let yearsOfEngagement := floor (r3 * 3) + 1 in
  let endYear := startYear + yearsOfEngagement - 1 in
  r4 <- rnd ;;
  let baseRev :=
    (400000 + r4 * 3000000 * industryW industry * areaW area)%R in
  r5 <- rnd ;;
  let baseVol :=
    (40 + IZR (floor (r5 * 600 * industryW industry * areaW area)))%R in
  ret (Account.mk (idx + 1) name industry area agent status baseRev baseVol
         (Some (Ext.mk salesCategory city territoryCode startMonth startYear
                  yearsOfEngagement endYear))).

(** [shouldContribute] of the weekly loop, where [currentYear] is
    [year]. *)
Definition shouldContribute (year w : Z) (e : Ext.t) : bool :=
  let weekMonth := ceilWeeks w in
  let currentYear := year in
  ((Ext.startYear e <? currentYear)
   || ((currentYear =? Ext.startYear e) && (Ext.startMonth e <=? weekMonth)))
  && (currentYear <=? Ext.endYear e).

(** The body of [accounts.forEach((acc, i) => ...)] in week [w]; an
    account without start fields compares false throughout. *)
Definition record (year : Z) (w : Z) (acc : Account.t) (i : nat)
  : gen Weekly.t :=
  let contributes :=
    match Account.ext acc with
    | Some e => shouldContribute year w e
    | None => false
    end in
  figures <-
    (if contributes
     then
       r1 <- rnd ;;
       let rev :=
         (Account.baseRev acc / 4.345 * (0.6 + r1 * 0.8) * season w i
          * (if year =? 2025 then 1.06 else 1.0))%R in
       r2 <- rnd ;;
       let vol :=
         (Account.baseVol acc / 4.345 * (0.6 + r2 * 0.8) * season w i)%R in
       ret (rev, vol)
     else ret (0%R, 0%R)) ;;
  ret (Weekly.mk w year (Account.name acc) (Account.industry acc)
         (Account.area acc) (Account.agent acc) (Account.status acc)
         (fst figures) (snd figures) (Account.ext acc)).

Definition generate (year : Z) : gen t :=
  accs <- mapIndexed (account year) (repeat tt 80) 0 ;;
  weekly <- forWeeks (record year) Rich.weeks accs ;;
  ret (mk weekly accs year).

(** [generateSample(seed, year)]. *)
Definition generateSample (seed year : Z) : option t :=
  option_map fst (generate year seed).

End Forecast.

(** What every generated account satisfies. *)
Definition accountOk (idx : nat) (acc : Account.t) : Prop :=
  Account.id acc = (idx + 1)%nat /\
  In (Account.industry acc) industries /\
  In (Account.area acc) areas /\
  In (Account.agent acc) agents /\
  In (Account.status acc) statuses /\
  Account.name acc
  = accountName (Account.industry acc) (Account.area acc) idx /\
  (400000 <= Account.baseRev acc < 4360000)%R /\
  (40 <= Account.baseVol acc < 832)%R.

(** The record of week [w] for account [acc]. *)
Definition recordOf (year w : Z) (acc : Account.t) (d : Weekly.t) : Prop :=
  Weekly.week d = w /\ Weekly.year d = year /\
  Weekly.account d = Account.name acc /\
  Weekly.industry d = Account.industry acc /\
  Weekly.area d = Account.area acc /\
  Weekly.agent d = Account.agent acc /\
  Weekly.status d = Account.status acc.

(** The start fields of a generated account of the richer page. *)
Definition startOk (year : Z) (e : Ext.t) : Prop :=
  In (Ext.salesCategory e) Forecast.salesCategories /\
  In (Ext.city e) Forecast.cities /\
  In (Ext.territoryCode e) Forecast.territoryCodes /\
  1 <= Ext.startMonth e <= 12 /\
  (Ext.startYear e = year \/ Ext.startYear e = year + 1) /\
  1 <= Ext.yearsOfEngagement e <= 3 /\
  Ext.endYear e = Ext.startYear e + Ext.yearsOfEngagement e - 1.

End Sample.

(** ** The summing code in binary64

    The sums of the program are sums of IEEE doubles, taken in the order
    in which the code adds.  This module holds the summing code once
    more, on the doubles of the kernel: the reduction of a list, the
    derivation of the accounts and the aggregation by period. *)

Module Binary64.

Import PrimFloat.
#[local] Set Warnings "-inexact-float".

(** The fields of a weekly record that the summing code reads. *)
Record record : Type := mk {
  week : Z;
  account : string;
  revenue : float;
  volume : float
}.

(** [arr.reduce((s, d) => s + f(d), 0)]. *)
Definition sumOf {A : Type} (f : A -> float) (l : list A) : float :=
  fold_left (fun s d => PrimFloat.add s (f d)) l 0%float.

(** The members of an account that the summing code writes. *)
Record account_ : Type := mkAccount {
  name : string;
  baseRev : float;
  baseVol : float
}.

(** The body of [transformedData.forEach(d => ...)] that fills
    [accountMap]. *)
Definition addAccount (m : list (string * account_)) (d : record)
  : list (string * account_) :=
  if hasKey m (account d) then m
  else m ++ [(account d, mkAccount (account d) 0 0)].

Definition accountMap (data : list record) : list (string * account_) :=
  fold_left addAccount data [].

(** The body of [accounts.forEach(account => ...)]. *)
Definition setBase (data : list record) (a : account_) : account_ :=
  let accountData :=
    filter (fun d => String.eqb (account d) (name a)) data in
  let totalRev := sumOf revenue accountData in
  let totalVol := sumOf volume accountData in
  mkAccount (name a) totalRev totalVol.

Definition deriveAccounts (data : list record) : list account_ :=
  map (setBase data) (map snd (accountMap data)).

(** A bucket of [aggregate]: its key (the week, the month, or 0 for the
    single bucket of the year) and its two sums. *)
Record bucket : Type := mkBucket {
  key : Z;
  bucketRevenue : float;
  bucketVolume : float
}.

(** [by[k].revenue += r; by[k].volume += v]. *)
Fixpoint addTo (by_ : list (Z * bucket)) (k : Z) (r v : float)
  : list (Z * bucket) :=
  match by_ with
  | [] => []
  | (k', b) :: t =>
      if Z.eqb k' k
      then (k', mkBucket (key b) (PrimFloat.add (bucketRevenue b) r)
                  (PrimFloat.add (bucketVolume b) v)) :: t
      else (k', b) :: addTo t k r v
  end.

(** One turn of [for (const d of data)]. *)
Definition accumulate (keyOf : record -> Z) (by_ : list (Z * bucket))
  (d : record) : list (Z * bucket) :=
  let k := keyOf d in
  let by1 :=
    if existsb (fun e => Z.eqb (fst e) k) by_ then by_
    else by_ ++ [(k, mkBucket k 0 0)] in
  addTo by1 k (revenue d) (volume d).

(** [Object.values(by).sort((a, b) => a.key - b.key)]. *)
Definition sortedValues (by_ : list (Z * bucket)) : list bucket :=
  map snd (sortBy (fun a b => Z.leb (fst a) (fst b)) by_).

(** [aggregate(data, period)]. *)
Definition aggregate (data : list record) (period : string) : list bucket :=
  if String.eqb period "Weekly" then
    sortedValues (fold_left (accumulate week) data [])
  else if String.eqb period "Monthly" then
    sortedValues
      (fold_left (accumulate (fun d => Dashboard.weeklyToMonth (week d)))
         data [])
  else
    let totals :=
      fold_left
        (fun acc d =>
           (PrimFloat.add (fst acc) (revenue d),
            PrimFloat.add (snd acc) (volume d)))
        data (0%float, 0%float) in
    [ mkBucket 0 (fst totals) (snd totals) ].

(** [a == b]. *)
Definition same (a b : float) : bool := PrimFloat.eqb a b.

(** [a] and [b] agree within the relative tolerance 1e-6. *)
Definition agree (a b : float) : bool :=
  PrimFloat.leb (PrimFloat.abs (PrimFloat.sub a b))
    (PrimFloat.mul 1e-6
       (if PrimFloat.ltb (PrimFloat.abs a) (PrimFloat.abs b)
        then PrimFloat.abs b else PrimFloat.abs a)).

(** Three records with the figures 1.1, 2.2 and 3.3, the first and the
    last of one account and of week 1, the second of week 9: what the
    second parser reads from three rows with these cells, starting in
    'January', 'March' and 'January'. *)
Definition tenths : list record :=
  [ mk 1 "A" 1.1 1.1; mk 9 "B" 2.2 2.2; mk 1 "A" 3.3 3.3 ].

(** Three records whose first and last figures cancel. *)
Definition cancelling : list record :=
  [ mk 1 "A" 1e16 1e16; mk 9 "B" 1 1; mk 1 "A" (-1e16) (-1e16) ].

End Binary64.

(** ** The wording of the specification *)

(** The contribution window as the specification words it, for a record
    of year [year], in week [w] whose month is [month]. *)
Definition contributes (year month : Z) (acc : Normalized.t) : Prop :=
  (year > Normalized.startYear acc
   \/ (year = Normalized.startYear acc /\ month >= Normalized.startMonth acc))
  /\ year <= Normalized.endYear acc.

(** The matching the specification words: a canonical header matches when
    some header of the file contains it, or is contained in it, letter
    case set aside. *)
Definition matchesAnyCase (fileColumns : list string) (col : string) : bool :=
  existsb
    (fun fileCol =>
       Js.includes (Js.toLowerCase fileCol) (Js.toLowerCase col)
       || Js.includes (Js.toLowerCase col) (Js.toLowerCase fileCol))
    fileColumns.

Definition matchedAnyCase (mapped fileColumns : list string) : list string :=
  filter (matchesAnyCase fileColumns) mapped.

(** No month name of the table occurs in the cell (always so for a cell
    that is not a string). *)
Definition noMonthName (c : cell) : Prop :=
  match c with
  | CStr s =>
      forall e, In e Rich.monthMap ->
                Js.includes (Js.toLowerCase s) (fst e) = false
  | _ => True
  end.

(** The records of [data] named [k], summed. *)
Definition sumNamed (f : Weekly.t -> R) (data : list Weekly.t) (k : string)
  : R :=
  sumOf f (filter (fun d => String.eqb (Weekly.account d) k) data).

(** The two figures of a row as read from its cells, before any
    fallback. *)
Definition revenueRead (numberToString : R -> string)
  (parseFloat : string -> option R) (raw : row) : R :=
  Rich.parseFigure numberToString parseFloat Rich.cleanRevenue
    (get raw "Monthly Sales Forecast").

Definition volumeRead (numberToString : R -> string)
  (parseFloat : string -> option R) (raw : row) : R :=
  Rich.parseFigure numberToString parseFloat Rich.cleanVolume
    (get raw "Committed Monthly Volume").

(** The texts the second parser hands to [parseFloat]. *)
Definition basicRevenueText (numberToString : R -> string) (raw : row)
  : string :=
  Basic.cleanRevenue
    (toString numberToString
       (orElse (get raw "Monthly Sales Report Prep")
          (orElse (get raw "Committed FY Volu") (CStr "0")))).

Definition basicVolumeText (numberToString : R -> string) (raw : row)
  : string :=
  Basic.cleanVolume
    (toString numberToString
       (orElse (get raw "Committed Monthly Vol") (CStr "0"))).

(** [parseFloat(text)] is truthy: a number other than 0. *)
Definition parsesNonZero (parseFloat : string -> option R) (text : string)
  : Prop :=
  exists x, parseFloat text = Some x /\ x <> 0%R.

(** ** Sample inputs *)

Definition retailRecord : Weekly.t :=
  Weekly.mk 7 2025 "RET-NC-ACCT-001" "Retail" "NCR" "Cruz" "Won"
    1000%R 50%R None.

Definition retailShift : scenario := mkScenario 1 1 (Some "Retail") 20.

Definition demoMonthly : list Bucket.t :=
  [ Bucket.mk (ByMonth 1 (Some "January")) 700 7;
    Bucket.mk (ByMonth 3 (Some "March")) 500 5;
    Bucket.mk (ByMonth 9 (Some "September")) 300 3 ].

Definition augustAccount : Normalized.t :=
  Normalized.mk "Acme" "Retail" "New" "Cebu" "T01" "Cruz" "Won" "Visayas"
    869000%R 86.9%R 8 2025 2 2026.

Definition bareRow : row :=
  [("Account Name", CStr "Acme"); ("Industry", CStr "Retail")].

(** What [parseFloat] returns on the two numerals of the sample sheet;
    the sheet holds no number cell, so [Number::toString] is never
    consulted on it. *)
Definition sampleParseFloat (text : string) : option R :=
  if String.eqb text "869000" then Some 869000%R
  else if String.eqb text "86.9" then Some 86.9%R
  else None.

Definition sampleNumberToString (x : R) : string := "".

(** Three rows, two of them for the same account. *)
Definition sampleSheet : list row :=
  [ [ ("Account Name", CStr "Acme"); ("Industry", CStr "Retail");
      ("Monthly Sales Forecast", CStr "₱869,000");
      ("Committed Monthly Volume", CStr "86.9");
      ("Forecasted TXN Start (Month)", CStr "March");
      ("Forecasted TXN Start (Year)", CStr "2024");
      ("Years of Engagement", CStr "3") ];
    [ ("Account Name", CStr "Acme"); ("Industry", CStr "Retail");
      ("Monthly Sales Forecast", CStr "₱ 869,000");
      ("Committed Monthly Volume", CStr "86.9") ];
    [ ("Account Name", CStr "Bolt"); ("Industry", CStr "FMCG");
      ("Monthly Sales Forecast", CStr "869,000");
      ("Committed Monthly Volume", CStr " 86.9");
      ("Forecasted TXN Start (Year)", CStr "2026") ] ].

(** An engine whose spread calls take up to 100000 arguments. *)
Definition sampleSpread (n : nat) : option string :=
  if 100000 <? Z.of_nat n
  then Some "Maximum call stack size exceeded"
  else None.

(** The parse of the sample sheet in August 2025. *)
Definition sampleParse (random : nat -> R) : outcome :=
  Rich.parseExcelFile sampleSpread sampleNumberToString sampleParseFloat
    2025 7 random sampleSheet.

Definition sampleResult (random : nat -> R) : result :=
  buildResult (keys (hd [] sampleSheet))
    (Rich.expand
       (Rich.normalizeRows sampleNumberToString sampleParseFloat 2025 7 random
          0 sampleSheet 0)).

(** A record for every week of the year. *)
Definition yearOfWeeks : list Weekly.t :=
  map (fun w => Weekly.mk w 2025 "Acme" "Retail" "NCR" "Cruz" "Won" 100 1 None)
    Rich.weeks.

(** The month the dashboard files a record under. *)
Definition monthOf (d : Weekly.t) : Z :=
  Dashboard.weeklyToMonth (Weekly.week d).

(** The bucket of month [k] over [data]: the sums over the records of
    that month. *)
Definition monthBucket (withMonthName : bool) (data : list Weekly.t) (k : Z)
  : Bucket.t :=
  Bucket.mk
    (ByMonth k (if withMonthName then Some (Dashboard.getMonthName k) else None))
    (sumOf Weekly.revenue (filter (fun d => monthOf d =? k) data))
    (sumOf Weekly.volume (filter (fun d => monthOf d =? k) data)).

(** The months of a year, in order. *)
Definition monthsOfYear : list Z := map Z.of_nat (seq 1 12).

(** The first record of [data] named [k], if any. *)
Definition firstNamed (data : list Weekly.t) (k : string) : option Weekly.t :=
  find (fun d => String.eqb (Weekly.account d) k) data.

(** The three-letter entries of the month table of [parseMonthFromText],
    in table order. *)
Definition monthAbbreviations : list string :=
  map fst (firstn 12 Rich.monthMap).

(** * Properties *)

(** ** Sums *)

Section Sums.

Context {A : Type}.
Variable f : A -> R.

Lemma fold_sum_shift (l : list A) (a : R) :
  fold_left (fun s d => (s + f d)%R) l a = (a + sumOf f l)%R.
Proof.
  unfold sumOf.
  revert a; induction l as [|x l IH]; intros a; simpl.
  - lra.
  - rewrite IH. rewrite (IH (0 + f x)%R). lra.
Qed.

Lemma sumOf_nil : sumOf f [] = 0%R.
Proof. reflexivity. Qed.

Lemma sumOf_cons (x : A) (l : list A) :
  sumOf f (x :: l) = (f x + sumOf f l)%R.
Proof.
  unfold sumOf at 1; simpl. rewrite fold_sum_shift. lra.
Qed.

Lemma sumOf_app (l1 l2 : list A) :
  sumOf f (l1 ++ l2) = (sumOf f l1 + sumOf f l2)%R.
Proof.
  induction l1 as [|x l1 IH]; simpl.
  - rewrite sumOf_nil. lra.
  - rewrite !sumOf_cons, IH. lra.
Qed.

Lemma sumOf_insertBy (le : A -> A -> bool) (x : A) (l : list A) :
  sumOf f (insertBy le x l) = (f x + sumOf f l)%R.
Proof.
  induction l as [|y l IH]; simpl.
  - now rewrite sumOf_cons.
  - destruct (le x y).
    + now rewrite sumOf_cons.
    + rewrite !sumOf_cons, IH. lra.
Qed.

End Sums.

Lemma sumOf_map {A B : Type} (g : A -> B) (f : B -> R) (l : list A) :
  sumOf f (map g l) = sumOf (fun a => f (g a)) l.
Proof.
  induction l as [|x l IH]; simpl.
  - reflexivity.
  - now rewrite !sumOf_cons, IH.
Qed.

Lemma sumOf_ext {A : Type} (f g : A -> R) (l : list A) :
  (forall x, In x l -> f x = g x) -> sumOf f l = sumOf g l.
Proof.
  induction l as [|x l IH]; intros H.
  - reflexivity.
  - rewrite !sumOf_cons, IH, (H x); [reflexivity | now left |].
    intros; apply H; now right.
Qed.

(** ** The totals of the yearly bucket *)


(** ** The scenario engine *)

Lemma targeted_true (opts : scenario) (d : Weekly.t) :
  mixShiftIndustry opts = Some (Weekly.industry d) ->
  Weekly.industry d <> "" ->
  Dashboard.targeted opts d = true.
Proof.
  intros Hm Hne. unfold Dashboard.targeted. rewrite Hm.
  rewrite String.eqb_refl, andb_true_r.
  destruct (String.eqb (Weekly.industry d) "") eqn:E; [|reflexivity].
  apply String.eqb_eq in E. contradiction.
Qed.

(** C6. When [mixShiftIndustry] is set (a non-empty string, which is what
    the engine's truthiness test asks) and the industry of the [i]-th
    record equals it, the [i]-th record of [applyScenario] has the revenue
    of the input times [revenueMultiplier] times [1 + mixShiftPct / 100]
    and its volume times [volumeMultiplier] times
    [1 + 0.6 * mixShiftPct / 100]; with [mixShiftPct = 20] and both
    multipliers [1] that is 1.20 times the revenue and 1.12 times the
    volume. *)
Theorem applyScenario_mix_shift
  (data : list Weekly.t) (opts : scenario) (i : nat) (d : Weekly.t) :
  nth_error data i = Some d ->
  mixShiftIndustry opts = Some (Weekly.industry d) ->
  Weekly.industry d <> "" ->
  exists d',
    nth_error (Dashboard.applyScenario data opts) i = Some d' /\
    Weekly.revenue d'
      = (Weekly.revenue d * revenueMultiplier opts
         * (1 + mixShiftPct opts / 100))%R /\
    Weekly.volume d'
      = (Weekly.volume d * volumeMultiplier opts
         * (1 + 0.6 * mixShiftPct opts / 100))%R /\
    (mixShiftPct opts = 20%R ->
     revenueMultiplier opts = 1%R -> volumeMultiplier opts = 1%R ->
     Weekly.revenue d' = (1.20 * Weekly.revenue d)%R /\
     Weekly.volume d' = (1.12 * Weekly.volume d)%R).
Proof.
  intros Hd Hm Hne.
  exists (Dashboard.adjust opts d).
  split.
  - unfold Dashboard.applyScenario. now rewrite nth_error_map, Hd.
  - unfold Dashboard.adjust; simpl.
    rewrite (targeted_true opts d Hm Hne).
    split; [lra|]. split; [lra|].
    intros -> -> ->. split; lra.
Qed.

Lemma applyScenario_mix_shift_witness :
  exists d',
    nth_error (Dashboard.applyScenario [retailRecord] retailShift) 0
      = Some d' /\
    Weekly.revenue d' = (1000 * 1 * (1 + 20 / 100))%R /\
    Weekly.volume d' = (50 * 1 * (1 + 0.6 * 20 / 100))%R /\
    (20%R = 20%R -> 1%R = 1%R -> 1%R = 1%R ->
     Weekly.revenue d' = (1.20 * 1000)%R /\
     Weekly.volume d' = (1.12 * 50)%R).
Proof.
  apply (applyScenario_mix_shift [retailRecord] retailShift 0 retailRecord).
  - reflexivity.
  - reflexivity.
  - discriminate.
Defined.

(** ** Year-to-date, month-to-date and forecast *)

Lemma sumOf_filter {A : Type} (f : A -> R) (p : A -> bool) (l : list A) :
  sumOf f (filter p l) = sumOf (fun x => if p x then f x else 0%R) l.
Proof.
  induction l as [|x l IH]; simpl.
  - reflexivity.
  - rewrite sumOf_cons. destruct (p x).
    + now rewrite sumOf_cons, IH.
    + rewrite IH. lra.
Qed.

Lemma find_atCutoff_none (cutoff : Z) (l : list Bucket.t) :
  (forall b, In b l -> Bucket.month b <> Some cutoff) ->
  find (Dashboard.atCutoff cutoff) l = None.
Proof.
  induction l as [|b l IH]; intros H; simpl; [reflexivity|].
  unfold Dashboard.atCutoff at 1.
  destruct (Bucket.month b) as [m|] eqn:Em.
  - destruct (m =? cutoff) eqn:E.
    + apply Z.eqb_eq in E. subst m. exfalso.
      apply (H b); [now left | exact Em].
    + apply IH. intros; apply H; now right.
  - apply IH. intros; apply H; now right.
Qed.

Lemma find_atCutoff_first (cutoff : Z) (before : list Bucket.t)
  (b : Bucket.t) (after : list Bucket.t) :
  (forall b', In b' before -> Bucket.month b' <> Some cutoff) ->
  Bucket.month b = Some cutoff ->
  find (Dashboard.atCutoff cutoff) (before ++ b :: after) = Some b.
Proof.
  intros Hb Hm.
  induction before as [|x before IH]; simpl.
  - unfold Dashboard.atCutoff. now rewrite Hm, Z.eqb_refl.
  - unfold Dashboard.atCutoff at 1.
    destruct (Bucket.month x) as [m|] eqn:Em.
    + destruct (m =? cutoff) eqn:E.
      * apply Z.eqb_eq in E. subst m. exfalso.
        apply (Hb x); [now left | exact Em].
      * apply IH. intros; apply Hb; now right.
    + apply IH. intros; apply Hb; now right.
Qed.

(** C7. For a monthly series, a cutoff and an adjustment, and for either
    figure [f] (revenue or volume): [ytd] adds [f] over the buckets whose
    month is at most the cutoff; [mtd] is [f] of the first bucket whose
    month is the cutoff, and 0 when there is none; [avgPerMonth] is
    [ytd / cutoff] for a positive cutoff and 0 otherwise; [forecast] is
    [ytd + (12 - cutoff) * avgPerMonth * (1 + adjPct / 100)].  Hence a
    cutoff of 12 gives [forecast = ytd], and [ytd = 1200], cutoff 6 and
    adjustment 10 give [avgPerMonth = 200] and [forecast = 2520]. *)
Theorem forecast_figures
  (f : Bucket.t -> R) (monthly : list Bucket.t) (cutoff : Z) (adjPct : R) :
  let ytd := Dashboard.ytd f monthly cutoff in
  let mtd := Dashboard.mtd f monthly cutoff in
  let avg := Dashboard.avgPerMonth f monthly cutoff in
  let forecast := Dashboard.forecast f monthly cutoff adjPct in
  ytd = sumOf (fun b =>
                 match Bucket.month b with
                 | Some m => if m <=? cutoff then f b else 0%R
                 | None => 0%R
                 end) monthly /\
  ((forall b, In b monthly -> Bucket.month b <> Some cutoff) -> mtd = 0%R) /\
  (forall before b after,
      monthly = before ++ b :: after ->
      (forall b', In b' before -> Bucket.month b' <> Some cutoff) ->
      Bucket.month b = Some cutoff -> mtd = f b) /\
  (0 < cutoff -> avg = (ytd / IZR cutoff)%R) /\
  (cutoff <= 0 -> avg = 0%R) /\
  forecast = (ytd + (12 - IZR cutoff) * avg * (1 + adjPct / 100))%R /\
  (cutoff = 12 -> forecast = ytd) /\
  (ytd = 1200%R -> cutoff = 6 -> adjPct = 10%R ->
   avg = 200%R /\ forecast = 2520%R).
Proof.
  cbv zeta.
  assert (Hpos : 0 < cutoff ->
                 Dashboard.avgPerMonth f monthly cutoff
                 = (Dashboard.ytd f monthly cutoff / IZR cutoff)%R).
  { intros H. unfold Dashboard.avgPerMonth.
    destruct (0 <? cutoff) eqn:E; [reflexivity|].
    apply Z.ltb_ge in E. lia. }
  split; [|split; [|split; [|split; [|split; [|split; [|split]]]]]].
  - unfold Dashboard.ytd. rewrite sumOf_filter.
    apply sumOf_ext. intros b _. unfold Dashboard.upToCutoff.
    destruct (Bucket.month b); reflexivity.
  - intros H. unfold Dashboard.mtd. now rewrite find_atCutoff_none.
  - intros before b after -> Hb Hm. unfold Dashboard.mtd.
    now rewrite find_atCutoff_first.
  - exact Hpos.
  - intros H. unfold Dashboard.avgPerMonth.
    destruct (0 <? cutoff) eqn:E; [|reflexivity].
    apply Z.ltb_lt in E. lia.
  - reflexivity.
  - intros ->. unfold Dashboard.forecast. simpl. lra.
  - intros Hy -> ->. split.
    + rewrite Hpos, Hy by lia. lra.
    + unfold Dashboard.forecast. rewrite Hpos, Hy by lia. lra.
Qed.

Lemma forecast_figures_witness :
  Dashboard.avgPerMonth Bucket.revenue demoMonthly 6 = 200%R /\
  Dashboard.forecast Bucket.revenue demoMonthly 6 10 = 2520%R.
Proof.
  apply (forecast_figures Bucket.revenue demoMonthly 6 10).
  - unfold Dashboard.ytd, demoMonthly, sumOf; simpl. lra.
  - reflexivity.
  - reflexivity.
Defined.

(** ** The expansion into weeks *)

Lemma ceilWeeks_spec (w : Z) :
  (IZR (ceilWeeks w) - 1 < IZR w / 4.345 <= IZR (ceilWeeks w))%R.
Proof.
  unfold ceilWeeks.
  pose proof (Z.div_mod (- (1000 * w)) 4345 ltac:(lia)) as Hdm.
  pose proof (Z.mod_pos_bound (- (1000 * w)) 4345 ltac:(lia)) as Hb.
  set (q := (- (1000 * w)) / 4345) in *.
  set (m := (- (1000 * w)) mod 4345) in *.
  assert (Hw : 1000 * w = 4345 * (- q) - m) by lia.
  assert (HwR : (1000 * IZR w = 4345 * IZR (- q) - IZR m)%R).
  { rewrite <- !mult_IZR, <- minus_IZR. now f_equal. }
  assert (H0 : (0 <= IZR m)%R) by (apply IZR_le; lia).
  assert (H1 : (IZR m < 4345)%R) by (apply IZR_lt; lia).
  split.
  - apply Rmult_lt_reg_r with 4345%R; [lra|].
    replace (IZR w / 4.345 * 4345)%R with (1000 * IZR w)%R by lra.
    lra.
  - apply Rmult_le_reg_r with 4345%R; [lra|].
    replace (IZR w / 4.345 * 4345)%R with (1000 * IZR w)%R by lra.
    lra.
Qed.

Section Chunks.

Context {A B : Type}.
Variable g : Z -> A -> B.
Variable l : list A.

Lemma length_chunks (ws : list Z) :
  List.length (flat_map (fun w => map (g w) l) ws)
  = (List.length ws * List.length l)%nat.
Proof.
  induction ws as [|w ws IH]; simpl.
  - reflexivity.
  - now rewrite length_app, length_map, IH.
Qed.

Lemma nth_error_chunks (ws : list Z) :
  forall (j i : nat) (w : Z) (a : A),
    nth_error ws j = Some w ->
    nth_error l i = Some a ->
    nth_error (flat_map (fun w => map (g w) l) ws) (j * List.length l + i)
    = Some (g w a).
Proof.
  induction ws as [|w0 ws IH]; intros j i w a Hj Hi.
  - destruct j; discriminate.
  - simpl. destruct j as [|j]; simpl in *.
    + injection Hj as ->.
      rewrite nth_error_app1.
      * now rewrite nth_error_map, Hi.
      * rewrite length_map. apply nth_error_Some. congruence.
    + rewrite nth_error_app2; rewrite length_map; [|lia].
      replace (List.length l + j * List.length l + i - List.length l)%nat
        with (j * List.length l + i)%nat by lia.
      now apply IH.
Qed.

Lemma in_chunks (ws : list Z) (b : B) :
  In b (flat_map (fun w => map (g w) l) ws) <->
  exists w a, In w ws /\ In a l /\ b = g w a.
Proof.
  rewrite in_flat_map. split.
  - intros (w & Hw & Hb). apply in_map_iff in Hb as (a & <- & Ha).
    now exists w, a.
  - intros (w & a & Hw & Ha & ->). exists w. split; [exact Hw|].
    now apply in_map.
Qed.

End Chunks.

Lemma weeks_nth (w : Z) :
  1 <= w <= 52 -> nth_error Rich.weeks (Z.to_nat w - 1) = Some w.
Proof.
  intros H. unfold Rich.weeks.
  rewrite nth_error_map, nth_error_seq.
  replace (Z.to_nat w - 1 <? 52)%nat with true
    by (symmetry; apply Nat.ltb_lt; lia).
  simpl. f_equal. lia.
Qed.

Lemma weeks_in (w : Z) : In w Rich.weeks <-> 1 <= w <= 52.
Proof.
  unfold Rich.weeks. rewrite in_map_iff. split.
  - intros (n & <- & Hn). apply in_seq in Hn. lia.
  - intros H. exists (Z.to_nat w). split; [lia|]. apply in_seq. lia.
Qed.

Lemma shouldContribute_iff (w : Z) (acc : Normalized.t) :
  Rich.shouldContribute w acc = true <->
  contributes (Normalized.startYear acc) (Rich.weekMonth w) acc.
Proof.
  unfold Rich.shouldContribute, contributes.
  rewrite andb_true_iff, !Z.leb_le. lia.
Qed.

(** C1. For every list of normalized accounts, every account [acc] of it
    (the [i]-th) and every week [w] of 1..52, the expansion emits, at
    position [(w - 1) * n + i], a record of week [w] for [acc] whose year
    is [acc.startYear]; with [month] the ceiling of [w / 4.345], the week
    contributes iff (year > startYear, or year = startYear and
    month >= startMonth) and year <= endYear; when it does, revenue is
    [(monthlyRevenue / 4.345) * (1 + 0.12 * sin (2 * PI * w / 52))] and
    volume is the same with [monthlyVolume]; otherwise both are 0. *)
Theorem expand_week_figures
  (accountsData : list Normalized.t) (i : nat) (acc : Normalized.t) (w : Z) :
  nth_error accountsData i = Some acc ->
  1 <= w <= 52 ->
  exists d month,
    nth_error (Rich.expand accountsData)
      ((Z.to_nat w - 1) * List.length accountsData + i) = Some d /\
    Weekly.week d = w /\
    Weekly.account d = Normalized.account acc /\
    Weekly.year d = Normalized.startYear acc /\
    (IZR month - 1 < IZR w / 4.345 <= IZR month)%R /\
    (contributes (Weekly.year d) month acc ->
     Weekly.revenue d
       = (Normalized.monthlyRevenue acc / 4.345
          * (1 + 0.12 * sin (2 * PI * IZR w / 52)))%R /\
     Weekly.volume d
       = (Normalized.monthlyVolume acc / 4.345
          * (1 + 0.12 * sin (2 * PI * IZR w / 52)))%R) /\
    (~ contributes (Weekly.year d) month acc ->
     Weekly.revenue d = 0%R /\ Weekly.volume d = 0%R).
Proof.
  intros Hacc Hw.
  exists (Rich.expandWeek w acc), (Rich.weekMonth w).
  split.
  { unfold Rich.expand. apply nth_error_chunks; [now apply weeks_nth | exact Hacc]. }
  repeat (split; [reflexivity|]).
  split; [apply ceilWeeks_spec|].
  simpl.
  destruct (Rich.shouldContribute w acc) eqn:E.
  - split; [intros _; split; reflexivity|].
    intros Hn. exfalso. apply Hn. now apply shouldContribute_iff.
  - split; [|intros _; split; reflexivity].
    intros Hc. apply shouldContribute_iff in Hc. congruence.
Qed.

Lemma expand_week_figures_witness :
  nth_error [augustAccount] 0 = Some augustAccount /\
  1 <= 31 <= 52 /\
  exists d,
    nth_error (Rich.expand [augustAccount]) 30 = Some d /\
    Weekly.week d = 31 /\
    Weekly.year d = 2025.
Proof.
  split; [reflexivity|]. split; [lia|].
  destruct (expand_week_figures [augustAccount] 0 augustAccount 31
              eq_refl ltac:(lia))
    as (d & month & Hn & Hw & _ & Hy & _).
  exists d. split; [exact Hn|]. split; [exact Hw | exact Hy].
Defined.

(** ** The spread calls of the result literal *)

Lemma length_sortBy {A : Type} (le : A -> A -> bool) (l : list A) :
  List.length (sortBy le l) = List.length l.
Proof.
  induction l as [|x l IH]; [reflexivity|]. simpl.
  rewrite <- IH. generalize (sortBy le l). intros m.
  induction m as [|y m IHm]; [reflexivity|]. simpl.
  destruct (le x y); simpl; [reflexivity | now rewrite IHm].
Qed.

Lemma length_setOf {A : Type} (eqb : A -> A -> bool) (l : list A) :
  (List.length (setOf eqb l) <= List.length l)%nat.
Proof.
  induction l as [|x l IH]; simpl; [lia|].
  pose proof (filter_length_le (fun y => negb (eqb y x)) (setOf eqb l)).
  lia.
Qed.

Lemma length_years (cols : list string) (data : list Weekly.t) :
  (List.length (years (buildResult cols data)) <= List.length data)%nat.
Proof.
  unfold buildResult. cbn [years]. unfold sortDefault.
  rewrite length_sortBy.
  pose proof (length_setOf Z.eqb (map Weekly.year data)) as H.
  now rewrite length_map in H.
Qed.

(** The sample engine spreads the years and the weeks of up to 100000
    records. *)
Lemma sampleSpread_accepts (cols : list string) (data : list Weekly.t) :
  Z.of_nat (List.length data) <= 100000 ->
  spreadError sampleSpread (buildResult cols data) = None.
Proof.
  intros H. pose proof (length_years cols data) as Hy.
  unfold spreadError, sampleSpread.
  replace (weekly (buildResult cols data)) with data by reflexivity.
  destruct (100000 <? Z.of_nat (List.length (years (buildResult cols data))))
    eqn:E1; [apply Z.ltb_lt in E1; lia|].
  destruct (100000 <? Z.of_nat (List.length data)) eqn:E2;
    [apply Z.ltb_lt in E2; lia | reflexivity].
Qed.

(** ** The richer parser: what a resolved parse looks like *)

Section RichParse.

Variable spread : nat -> option string.
Variable numberToString : R -> string.
Variable parseFloat : string -> option R.
Variable fullYear : Z.
Variable getMonth : Z.
Variable random : nat -> R.

Local Abbreviation normalizeRow :=
  (Rich.normalizeRow numberToString parseFloat fullYear getMonth random).
Local Abbreviation normalizeRows :=
  (Rich.normalizeRows numberToString parseFloat fullYear getMonth random).
Local Abbreviation parseExcelFile :=
  (Rich.parseExcelFile spread numberToString parseFloat fullYear
      getMonth random).

Lemma rich_normalizeRows_length (rows : list row) :
  forall index k, List.length (normalizeRows index rows k) = List.length rows.
Proof.
  induction rows as [|r rows IH]; intros index k; simpl.
  - reflexivity.
  - destruct (normalizeRow index r k) as [a k']. simpl. now rewrite IH.
Qed.

Lemma expand_length (accountsData : list Normalized.t) :
  List.length (Rich.expand accountsData)
  = (52 * List.length accountsData)%nat.
Proof.
  unfold Rich.expand. rewrite length_chunks.
  unfold Rich.weeks. now rewrite length_map, length_seq.
Qed.

(** Every non-empty workbook with at least two recognised columns gets
    as far as the result literal. *)
Lemma rich_parse_finish (engine : nat -> option string)
  (first : row) (rest : list row) :
  (2 <= List.length (Rich.foundColumns (keys first)))%nat ->
  Rich.parseExcelFile engine numberToString parseFloat fullYear getMonth
    random (first :: rest)
  = finish engine (keys first)
      (Rich.expand (normalizeRows 0 (first :: rest) 0)).
Proof.
  intros H. unfold Rich.parseExcelFile.
  replace (List.length (Rich.foundColumns (keys first)) <? 2)%nat with false
    by (symmetry; apply Nat.ltb_ge; exact H).
  destruct (Rich.expand (normalizeRows 0 (first :: rest) 0)) eqn:E.
  - apply (f_equal (@List.length _)) in E.
    rewrite expand_length, rich_normalizeRows_length in E. simpl in E. lia.
  - reflexivity.
Qed.

(** It is resolved when no spread call throws, and with which result. *)
Lemma rich_parse_resolved (engine : nat -> option string)
  (first : row) (rest : list row) :
  (2 <= List.length (Rich.foundColumns (keys first)))%nat ->
  spreadError engine
    (buildResult (keys first)
       (Rich.expand (normalizeRows 0 (first :: rest) 0))) = None ->
  Rich.parseExcelFile engine numberToString parseFloat fullYear getMonth
    random (first :: rest)
  = Resolved (buildResult (keys first)
                (Rich.expand (normalizeRows 0 (first :: rest) 0))).
Proof.
  intros H Hs. rewrite (rich_parse_finish engine first rest H).
  unfold finish. now rewrite Hs.
Qed.

Lemma rich_parse_inv (jsonData : list row) (r : result) :
  parseExcelFile jsonData = Resolved r ->
  exists first rest,
    jsonData = first :: rest /\
    (2 <= List.length (Rich.foundColumns (keys first)))%nat /\
    r = buildResult (keys first) (Rich.expand (normalizeRows 0 jsonData 0)).
Proof.
  intros H. destruct jsonData as [|first rest].
  - discriminate.
  - exists first, rest. split; [reflexivity|].
    assert (Hc : (2 <= List.length (Rich.foundColumns (keys first)))%nat).
    { unfold Rich.parseExcelFile in H.
      destruct (List.length (Rich.foundColumns (keys first)) <? 2)%nat eqn:E.
      - discriminate.
      - now apply Nat.ltb_ge in E. }
    split; [exact Hc|].
    rewrite (rich_parse_finish spread first rest Hc) in H. unfold finish in H.
    destruct (spreadError spread _); [discriminate | congruence].
Qed.

Lemma rich_normalizeRows_nth (rows : list row) :
  forall index k i r,
    nth_error rows i = Some r ->
    exists k', nth_error (normalizeRows index rows k) i
               = Some (fst (normalizeRow (index + i) r k')).
Proof.
  induction rows as [|r0 rows IH]; intros index k i r Hi.
  - destruct i; discriminate.
  - simpl. destruct (normalizeRow index r0 k) as [a k1] eqn:E.
    destruct i as [|i]; simpl in *.
    + injection Hi as <-. exists k. now rewrite Nat.add_0_r, E.
    + destruct (IH (S index) k1 i r Hi) as [k' Hk'].
      exists k'. rewrite Hk'. do 3 f_equal. lia.
Qed.

(** C9. When the richer parser resolves, no row has been dropped: the
    weekly collection holds 52 records for every row of the sheet, rows
    that repeat an account name included, so its length is 52 times the
    number of rows; the record of week [w] for the [i]-th row sits at
    position [(w - 1) * rows + i] and is the expansion of that row's
    normalized account; and [info.totalRows] is the length of the weekly
    collection, not the number of rows. *)
Theorem rich_weekly_count (jsonData : list row) (r : result) :
  parseExcelFile jsonData = Resolved r ->
  List.length (weekly r) = (52 * List.length jsonData)%nat /\
  totalRows r = List.length (weekly r) /\
  (forall i raw w,
      nth_error jsonData i = Some raw ->
      1 <= w <= 52 ->
      exists k,
        nth_error (weekly r) ((Z.to_nat w - 1) * List.length jsonData + i)
        = Some (Rich.expandWeek w (fst (normalizeRow i raw k)))).
Proof.
  intros H.
  destruct (rich_parse_inv jsonData r H) as (first & rest & Hj & _ & ->).
  unfold buildResult; simpl.
  split; [|split].
  - now rewrite expand_length, rich_normalizeRows_length.
  - reflexivity.
  - intros i raw w Hi Hw.
    destruct (rich_normalizeRows_nth jsonData 0 0 i raw Hi) as [k Hk].
    exists k. unfold Rich.expand.
    rewrite <- (rich_normalizeRows_length jsonData 0 0).
    apply nth_error_chunks; [now apply weeks_nth | exact Hk].
Qed.

Lemma rich_normalizeRow_fields (index : nat) (raw : row) (k : nat) :
  let a := fst (normalizeRow index raw k) in
  Normalized.startYear a
    = parseIntOr numberToString (get raw "Forecasted TXN Start (Year)")
        fullYear /\
  Normalized.startMonth a
    = Rich.startMonthOf numberToString getMonth
        (get raw "Forecasted TXN Start (Month)") /\
  Normalized.yearsOfEngagement a
    = parseIntOr numberToString (get raw "Years of Engagement") 1 /\
  Normalized.endYear a
    = Normalized.startYear a + Normalized.yearsOfEngagement a - 1 /\
  Normalized.account a
    = toString numberToString
        (orElse (get raw "Account Name")
           (CStr ("Account-" ++ Js.natToString (index + 1))%string)).
Proof.
  unfold Rich.normalizeRow.
  destruct (Req_dec_T _ _); destruct (Req_dec_T _ _); simpl;
    repeat split; reflexivity.
Qed.

Lemma in_sortBy {A : Type} (le : A -> A -> bool) (x : A) (l : list A) :
  In x (sortBy le l) <-> In x l.
Proof.
  assert (Hins : forall y l', In x (insertBy le y l') <-> x = y \/ In x l').
  { intros y l'. induction l' as [|z l' IH]; simpl.
    - intuition.
    - destruct (le y z); simpl; [intuition | rewrite IH; intuition]. }
  induction l as [|y l IH]; simpl.
  - reflexivity.
  - rewrite Hins, IH. intuition.
Qed.

Lemma in_setOf (x : Z) (l : list Z) : In x (setOf Z.eqb l) <-> In x l.
Proof.
  induction l as [|y l IH]; simpl.
  - reflexivity.
  - rewrite filter_In, IH, negb_true_iff, Z.eqb_neq.
    destruct (Z.eq_dec x y); intuition.
Qed.

Lemma fold_max_spec (l : list Z) :
  forall x,
    (fold_left Z.max l x = x \/ In (fold_left Z.max l x) l) /\
    x <= fold_left Z.max l x /\
    (forall y, In y l -> y <= fold_left Z.max l x).
Proof.
  induction l as [|z l IH]; intros x; simpl.
  - repeat split; [now left | lia | intros y []].
  - destruct (IH (Z.max x z)) as (Hin & Hle & Hall).
    repeat split.
    + destruct Hin as [Hin|Hin]; [|now right; right].
      rewrite Hin. destruct (Z.max_spec x z) as [[_ ->]|[_ ->]];
        [right; now left | now left].
    + lia.
    + intros y [<-|Hy]; [lia | now apply Hall].
Qed.

Lemma mathMax_spec (l : list Z) :
  l <> [] ->
  exists m, mathMax l = Some m /\ In m l /\ (forall y, In y l -> y <= m).
Proof.
  destruct l as [|x l]; [congruence|]. intros _.
  exists (fold_left Z.max l x). simpl.
  destruct (fold_max_spec l x) as (Hin & Hle & Hall).
  repeat split.
  - destruct Hin as [->|Hin]; [now left | now right].
  - intros y [<-|Hy]; [exact Hle | now apply Hall].
Qed.

Lemma rich_startYear_of_string (index : nat) (raw : row) (k : nat) (y : Z) :
  parseIntOr numberToString (get raw "Forecasted TXN Start (Year)") fullYear
  = y ->
  Normalized.startYear (fst (normalizeRow index raw k)) = y.
Proof.
  intros <-. apply rich_normalizeRow_fields.
Qed.

(** C10. When the richer parser resolves, every weekly record carries the
    start-year fields of its account and its [year] is that [startYear],
    whatever [yearsOfEngagement] is; [meta.year] is the largest
    [startYear] found among the records; and records of different
    accounts can differ in their [year] (some workbook yields two, in an
    engine whose spread calls take its 104 arguments). *)
Theorem rich_year_is_startYear :
  (forall (jsonData : list row) (r : result),
      parseExcelFile jsonData = Resolved r ->
      (forall d, In d (weekly r) ->
         exists e, Weekly.ext d = Some e /\
                   Weekly.year d = Ext.startYear e) /\
      (exists m,
          metaYear r = Some m /\
          (exists d e, In d (weekly r) /\ Weekly.ext d = Some e /\
                       Ext.startYear e = m) /\
          (forall d e, In d (weekly r) -> Weekly.ext d = Some e ->
                       Ext.startYear e <= m))) /\
  (exists jsonData r d1 d2,
      Rich.parseExcelFile sampleSpread numberToString parseFloat fullYear
        getMonth random jsonData = Resolved r /\
      In d1 (weekly r) /\ In d2 (weekly r) /\
      Weekly.account d1 <> Weekly.account d2 /\
      Weekly.year d1 <> Weekly.year d2).
Proof.
  split.
  - intros jsonData r H.
    destruct (rich_parse_inv jsonData r H) as (first & rest & Hj & _ & ->).
    unfold buildResult; simpl.
    set (data := Rich.expand (normalizeRows 0 jsonData 0)).
    assert (Hrec : forall d, In d data ->
              exists e, Weekly.ext d = Some e /\
                        Weekly.year d = Ext.startYear e).
    { intros d Hd. unfold data, Rich.expand in Hd.
      apply in_chunks in Hd as (w & a & _ & _ & ->).
      eexists. split; reflexivity. }
    split; [exact Hrec|].
    assert (Hne : sortDefault (setOf Z.eqb (map Weekly.year data)) <> []).
    { intros E. apply (f_equal (@List.length _)) in E.
      assert (Hl : (0 < List.length data)%nat).
      { unfold data. rewrite expand_length, rich_normalizeRows_length.
        subst jsonData. simpl. lia. }
      destruct data as [|d0 data']; [simpl in Hl; lia|].
      assert (Hin : In (Weekly.year d0)
                      (sortDefault (setOf Z.eqb (map Weekly.year (d0 :: data'))))).
      { apply in_sortBy, in_setOf. now left. }
      destruct (sortDefault _); [destruct Hin | discriminate]. }
    destruct (mathMax_spec _ Hne) as (m & Hm & Hin & Hmax).
    exists m. split; [exact Hm|]. split.
    + apply in_sortBy, in_setOf, in_map_iff in Hin as (d & Hy & Hd).
      destruct (Hrec d Hd) as (e & He & Hye).
      exists d, e. repeat split; [exact Hd | exact He | congruence].
    + intros d e Hd He.
      destruct (Hrec d Hd) as (e' & He' & Hye).
      assert (e' = e) by congruence. subst e'.
      rewrite <- Hye. apply Hmax.
      apply in_sortBy, in_setOf, in_map. exact Hd.
  - set (row1 := [("Account Name", CStr "Acme"); ("Industry", CStr "Retail");
                  ("Forecasted TXN Start (Year)", CStr "2024")]).
    set (row2 := [("Account Name", CStr "Bolt"); ("Industry", CStr "FMCG");
                  ("Forecasted TXN Start (Year)", CStr "2026")]).
    assert (Hc : (2 <= List.length (Rich.foundColumns (keys row1)))%nat)
      by (vm_compute; lia).
    assert (Hp := rich_parse_resolved sampleSpread row1 [row2] Hc).
    assert (Hlen : Z.of_nat
                     (List.length
                        (Rich.expand (normalizeRows 0 [row1; row2] 0)))
                   <= 100000).
    { rewrite expand_length, rich_normalizeRows_length.
      change (List.length [row1; row2]) with 2%nat. lia. }
    specialize (Hp (sampleSpread_accepts _ _ Hlen)).
    eexists [row1; row2], _.
    destruct (rich_normalizeRows_nth [row1; row2] 0 0 0 row1 eq_refl)
      as [k1 H1].
    destruct (rich_normalizeRows_nth [row1; row2] 0 0 1 row2 eq_refl)
      as [k2 H2].
    exists (Rich.expandWeek 1 (fst (normalizeRow 0 row1 k1))),
           (Rich.expandWeek 1 (fst (normalizeRow 1 row2 k2))).
    split; [exact Hp|].
    unfold buildResult; simpl weekly.
    split; [|split; [|split]].
    + apply in_chunks. eexists 1, _. split; [apply weeks_in; lia|].
      split; [eapply nth_error_In; exact H1 | reflexivity].
    + apply in_chunks. eexists 1, _. split; [apply weeks_in; lia|].
      split; [eapply nth_error_In; exact H2 | reflexivity].
    + simpl Weekly.account.
      destruct (rich_normalizeRow_fields 0 row1 k1) as (_ & _ & _ & _ & ->).
      destruct (rich_normalizeRow_fields 1 row2 k2) as (_ & _ & _ & _ & ->).
      simpl. discriminate.
    + simpl Weekly.year.
      rewrite (rich_startYear_of_string 0 row1 k1 2024) by reflexivity.
      rewrite (rich_startYear_of_string 1 row2 k2 2026) by reflexivity.
      discriminate.
Qed.

End RichParse.

(** ** Splitting a list by a key *)

Section Partition.

Context {A K : Type}.
Variable eqb : K -> K -> bool.
Hypothesis eqb_spec : forall a b, eqb a b = true <-> a = b.
Variable keyOf : A -> K.

Lemma flat_map_app_perm {B : Type} (g h : K -> list B) (ks : list K) :
  Permutation (flat_map (fun k => g k ++ h k) ks)
    (flat_map g ks ++ flat_map h ks).
Proof.
  induction ks as [|k ks IH]; simpl.
  - constructor.
  - rewrite IH, <- !app_assoc. apply Permutation_app_head.
    rewrite !app_assoc. apply Permutation_app_tail, Permutation_app_comm.
Qed.

Lemma flat_map_single (ks : list K) (k : K) (d : A) :
  NoDup ks -> In k ks ->
  flat_map (fun k' => if eqb k k' then [d] else []) ks = [d].
Proof.
  induction ks as [|k0 ks IH]; intros Hnd Hin.
  - destruct Hin.
  - inversion Hnd as [|? ? Hnot Hnd']; subst. simpl.
    destruct (eqb k k0) eqn:E.
    + apply eqb_spec in E. subst k0. simpl. f_equal.
      clear IH Hin Hnd Hnd'. induction ks as [|k1 ks IH]; [reflexivity|].
      simpl. destruct (eqb k k1) eqn:E1.
      * apply eqb_spec in E1. subst k1. exfalso. apply Hnot. now left.
      * apply IH. intros H. apply Hnot. now right.
    + destruct Hin as [->|Hin].
      * assert (eqb k k = true) by now apply eqb_spec. congruence.
      * now apply IH.
Qed.

(** The lists [data.filter(d => keyOf(d) === k)], taken over distinct keys
    [ks] that cover the keys of [data], hold every element of [data]
    exactly once. *)
Lemma partition_perm (ks : list K) (data : list A) :
  NoDup ks ->
  (forall d, In d data -> In (keyOf d) ks) ->
  Permutation
    (flat_map (fun k => filter (fun d => eqb (keyOf d) k) data) ks) data.
Proof.
  intros Hnd. induction data as [|d data IH]; intros Hall.
  - replace (flat_map _ ks) with (@nil A); [constructor|].
    clear. induction ks as [|k ks IH]; [reflexivity | exact IH].
  - assert (E : forall k,
               filter (fun d' => eqb (keyOf d') k) (d :: data)
               = (if eqb (keyOf d) k then [d] else [])
                 ++ filter (fun d' => eqb (keyOf d') k) data).
    { intros k. simpl. now destruct (eqb (keyOf d) k). }
    rewrite (flat_map_ext _ _ E), flat_map_app_perm.
    rewrite (flat_map_single ks (keyOf d) d Hnd) by (apply Hall; now left).
    simpl. constructor. apply IH. intros d' Hd'. apply Hall. now right.
Qed.

End Partition.

Lemma flat_map_map {A B C : Type} (g : A -> B) (h : B -> list C)
  (l : list A) :
  flat_map h (map g l) = flat_map (fun a => h (g a)) l.
Proof.
  induction l as [|a l IH]; simpl; [reflexivity | now rewrite IH].
Qed.

(** ** The accounts of a parse *)

Lemma hasKey_In {V : Type} (m : list (string * V)) (k : string) :
  hasKey m k = true <-> In k (map fst m).
Proof.
  unfold hasKey. rewrite existsb_exists, in_map_iff. split.
  - intros (e & He & Hk). apply String.eqb_eq in Hk. now exists e.
  - intros (e & Hk & He). exists e. split; [exact He|].
    now apply String.eqb_eq.
Qed.

(** What [accountMap] keeps true while it is filled: the keys are
    distinct, every account is stored under its own name, and the keys
    seen so far are all there. *)
Lemma accountMap_invariant (data : list Weekly.t) :
  forall m,
    NoDup (map fst m) ->
    (forall e, In e m -> Account.name (snd e) = fst e) ->
    let m' := fold_left addAccount data m in
    NoDup (map fst m') /\
    (forall e, In e m' -> Account.name (snd e) = fst e) /\
    (forall k, In k (map fst m) -> In k (map fst m')) /\
    (forall d, In d data -> In (Weekly.account d) (map fst m')).
Proof.
  induction data as [|d data IH]; intros m Hnd Hname; simpl.
  - repeat split; auto. intros d [].
  - assert (Hstep : NoDup (map fst (addAccount m d)) /\
                    (forall e, In e (addAccount m d) ->
                               Account.name (snd e) = fst e) /\
                    (forall k, In k (map fst m) ->
                               In k (map fst (addAccount m d))) /\
                    In (Weekly.account d) (map fst (addAccount m d))).
    { unfold addAccount. destruct (hasKey m (Weekly.account d)) eqn:E.
      - repeat split; auto. now apply hasKey_In.
      - assert (Hnot : ~ In (Weekly.account d) (map fst m)).
        { intros Hin. apply hasKey_In in Hin. congruence. }
        rewrite map_app. simpl. repeat split.
        + apply NoDup_app; [exact Hnd | | ].
          * constructor; [intros [] | constructor].
          * intros k Hk [<-|[]]. contradiction.
        + intros e He. apply in_app_or in He as [He|[<-|[]]];
            [now apply Hname | reflexivity].
        + intros k Hk. apply in_or_app. now left.
        + apply in_or_app. right. now left. }
    destruct Hstep as (Hnd1 & Hname1 & Hkeep1 & Hd1).
    destruct (IH (addAccount m d) Hnd1 Hname1) as (Hnd2 & Hname2 & Hkeep2 & Hall2).
    repeat split; auto.
    intros d' [<-|Hd']; [now apply Hkeep2 | now apply Hall2].
Qed.

Lemma deriveAccounts_base (data : list Weekly.t) (a : Account.t) :
  In a (deriveAccounts data) ->
  Account.baseRev a = sumNamed Weekly.revenue data (Account.name a) /\
  Account.baseVol a = sumNamed Weekly.volume data (Account.name a).
Proof.
  unfold deriveAccounts. intros H.
  apply in_map_iff in H as (a0 & <- & _).
  split; reflexivity.
Qed.

Lemma deriveAccounts_names (data : list Weekly.t) :
  NoDup (map Account.name (deriveAccounts data)).
Proof.
  destruct (accountMap_invariant data [] (NoDup_nil _) (fun e H => match H with end))
    as (Hnd & Hname & _ & _).
  fold (accountMap data) in Hnd, Hname.
  unfold deriveAccounts. rewrite !map_map.
  erewrite map_ext_in; [exact Hnd|].
  intros e He. simpl. now apply Hname.
Qed.

Lemma basic_parse_inv spread numberToString parseFloat fullYear currentWeek
  random
  (jsonData : list row) (r : result) :
  Basic.parseExcelFile spread numberToString parseFloat fullYear currentWeek
    random jsonData = Resolved r ->
  exists first rest,
    jsonData = first :: rest /\
    (3 <= List.length (Basic.foundColumns (keys first)))%nat /\
    r = buildResult (keys first)
          (Basic.normalizeRows numberToString parseFloat fullYear currentWeek
             random 0 jsonData 0).
Proof.
  intros H. destruct jsonData as [|first rest]; [discriminate|].
  exists first, rest. split; [reflexivity|].
  unfold Basic.parseExcelFile in H.
  destruct (List.length (Basic.foundColumns (keys first)) <? 3)%nat eqn:E;
    [discriminate|].
  apply Nat.ltb_ge in E. split; [exact E|].
  destruct (Basic.normalizeRows _ _ _ _ _ 0 (first :: rest) 0);
    [discriminate|].
  unfold finish in H.
  destruct (spreadError spread _); [discriminate | congruence].
Qed.

(** C2. Whenever either parser resolves: the accounts have distinct names
    (rows sharing a name share one account); every weekly record bears
    the name of an account; the [baseRev] of an account is the sum, taken
    from 0 in the order of the records, of the revenues of the weekly
    records that bear its name, and its [baseVol] the like sum of their
    volumes; and these per-account lists of records, put together, hold
    every weekly record exactly once.  So the total of the [baseRev] adds
    the same numbers as the total of the weekly revenues, grouped by
    account. *)
Theorem accounts_sum_their_records
  spread numberToString parseFloat fullYear getMonth currentWeek random
  (jsonData : list row) (r : result) :
  Rich.parseExcelFile spread numberToString parseFloat fullYear getMonth random
    jsonData = Resolved r \/
  Basic.parseExcelFile spread numberToString parseFloat fullYear currentWeek
    random jsonData = Resolved r ->
  let recordsOf (a : Account.t) :=
    filter (fun d => String.eqb (Weekly.account d) (Account.name a))
      (weekly r) in
  NoDup (map Account.name (accounts r)) /\
  (forall d, In d (weekly r) ->
     exists a, In a (accounts r) /\ Account.name a = Weekly.account d) /\
  (forall a, In a (accounts r) ->
     Account.baseRev a = sumOf Weekly.revenue (recordsOf a) /\
     Account.baseVol a = sumOf Weekly.volume (recordsOf a)) /\
  Permutation (flat_map recordsOf (accounts r)) (weekly r).
Proof.
  intros H. cbv zeta.
  assert (Hr : exists cols data, r = buildResult cols data).
  { destruct H as [H|H].
    - destruct (rich_parse_inv _ _ _ _ _ _ _ _ H) as (first & rest & _ & _ & ->).
      eexists _, _. reflexivity.
    - destruct (basic_parse_inv _ _ _ _ _ _ _ _ H) as (first & rest & _ & _ & ->).
      eexists _, _. reflexivity. }
  destruct Hr as (cols & data & ->).
  unfold buildResult; simpl.
  destruct (accountMap_invariant data [] (NoDup_nil _)
              (fun e H => match H with end)) as (_ & Hname & _ & Hall).
  fold (accountMap data) in Hname, Hall.
  assert (Hnames : map Account.name (deriveAccounts data)
                   = map fst (accountMap data)).
  { unfold deriveAccounts. rewrite !map_map. apply map_ext_in.
    intros e He. simpl. now apply Hname. }
  assert (Hcover : forall d, In d data ->
                     In (Weekly.account d) (map Account.name (deriveAccounts data))).
  { intros d Hd. rewrite Hnames. now apply Hall. }
  split; [apply deriveAccounts_names|]. split; [|split].
  - intros d Hd. apply Hcover, in_map_iff in Hd as (a & Ha & Hin).
    now exists a.
  - intros a Ha. now apply deriveAccounts_base.
  - rewrite <- (flat_map_map Account.name
                  (fun k => filter (fun d => String.eqb (Weekly.account d) k) data)).
    apply (partition_perm String.eqb String.eqb_eq Weekly.account).
    + apply deriveAccounts_names.
    + exact Hcover.
Qed.

Section AccountTotalsInBinary64.

Import PrimFloat.
#[local] Set Warnings "-inexact-float".

(** C2, in binary64.  [Binary64.tenths] are the records the second
    parser emits for three rows whose cells hold 1.1, 2.2 and 3.3, the
    first and the last under one account name: the weekly figures add up
    to 6.6 and the base figures of the two accounts to
    6.6000000000000005.  [Binary64.cancelling] has the cells 1e16, 1 and
    -1e16: the weekly figures add up to 0 and the base figures to 1, which
    no relative tolerance covers. *)
Lemma binary64_account_totals_differ :
  (Binary64.sumOf Binary64.revenue Binary64.tenths = 6.6%float /\
   Binary64.sumOf Binary64.baseRev (Binary64.deriveAccounts Binary64.tenths)
   = 6.6000000000000005%float /\
   Binary64.same
     (Binary64.sumOf Binary64.revenue Binary64.tenths)
     (Binary64.sumOf Binary64.baseRev
        (Binary64.deriveAccounts Binary64.tenths)) = false /\
   Binary64.same
     (Binary64.sumOf Binary64.volume Binary64.tenths)
     (Binary64.sumOf Binary64.baseVol
        (Binary64.deriveAccounts Binary64.tenths)) = false) /\
  (Binary64.sumOf Binary64.revenue Binary64.cancelling = 0%float /\
   Binary64.sumOf Binary64.baseRev (Binary64.deriveAccounts Binary64.cancelling)
   = 1%float /\
   Binary64.agree
     (Binary64.sumOf Binary64.revenue Binary64.cancelling)
     (Binary64.sumOf Binary64.baseRev
        (Binary64.deriveAccounts Binary64.cancelling)) = false /\
   Binary64.agree
     (Binary64.sumOf Binary64.volume Binary64.cancelling)
     (Binary64.sumOf Binary64.baseVol
        (Binary64.deriveAccounts Binary64.cancelling)) = false).
Proof. vm_compute. repeat split. Qed.

End AccountTotalsInBinary64.

(** ** Column resolution *)

Lemma prefix_spec (p s : string) :
  String.prefix p s = true <-> exists post, s = (p ++ post)%string.
Proof.
  revert s; induction p as [|c p IH]; intros s.
  - split; [intros _; now exists s | intros _; now destruct s].
  - destruct s as [|c' s]; simpl.
    + split; [discriminate | intros [post H]; discriminate].
    + destruct (Ascii.ascii_dec c c') as [->|Hne].
      * rewrite IH. split; intros [post H]; exists post; congruence.
      * split; [discriminate | intros [post H]; congruence].
Qed.

(** [includes] is containment as a contiguous piece. *)
Lemma includes_spec (s pat : string) :
  Js.includes s pat = true <->
  exists pre post, s = (pre ++ pat ++ post)%string.
Proof.
  induction s as [|c s IH]; cbn [Js.includes].
  - rewrite orb_false_r, prefix_spec. split.
    + intros [post H]. now exists EmptyString, post.
    + intros (pre & post & H). destruct pre; [now exists post|discriminate].
  - rewrite orb_true_iff, IH, prefix_spec. split.
    + intros [[post H]|(pre & post & H)].
      * now exists EmptyString, post.
      * exists (String c pre), post. simpl. congruence.
    + intros (pre & post & H). destruct pre as [|c' pre]; simpl in H.
      * left. now exists post.
      * right. exists pre, post. congruence.
Qed.

(** C5, as stated, fails on the richer parser: a sheet whose only header is
    "industry" matches "Industry" once letter case is set aside, yet the
    error the parser raises lists no matched header. *)
Lemma columns_any_case_counterexample :
  ~ (forall spread numberToString parseFloat fullYear getMonth random
            (first : row) (rest : list row),
        (List.length (matchedAnyCase Rich.mappedColumns (keys first)) < 2)%nat ->
        Rich.parseExcelFile spread numberToString parseFloat fullYear getMonth
          random (first :: rest)
        = Rejected
            (Rich.notEnoughColumns
               (matchedAnyCase Rich.mappedColumns (keys first))
               (keys first))).
Proof.
  intros H.
  specialize (H sampleSpread (fun _ => "") (fun _ => None) 2025 0
                (fun _ => 0%R) [("industry", CStr "Retail")] []).
  assert (Hlen : (List.length
                    (matchedAnyCase Rich.mappedColumns
                       (keys [("industry", CStr "Retail")])) < 2)%nat)
    by (vm_compute; lia).
  specialize (H Hlen). vm_compute in H. discriminate H.
Qed.

(** In the other parser two exact headers are fewer than three, and the
    error lists the matched headers only, not those of the file. *)
Lemma basic_columns_message :
  forall spread numberToString parseFloat fullYear currentWeek random,
    Basic.parseExcelFile spread numberToString parseFloat fullYear currentWeek
      random [[("Account Name", CStr "Acme"); ("Industry", CStr "Retail");
        ("Region", CStr "NCR")]]
    = Rejected
        "Could not find enough expected columns. Found: Account Name, Industry".
Proof.
  intros. reflexivity.
Qed.

(** C5, amended. For a non-empty sheet: the richer parser counts a column
    of its mapping when some header of the first row contains it, or is
    contained in it, as a piece with the same letter case, and with fewer
    than 2 such columns it rejects with a message that lists them and
    then all headers of the file; the other parser counts a column when
    it is a header of the first row exactly, and with fewer than 3 such
    columns it rejects with a message that lists them only. *)
Theorem insufficient_columns_rejected
  spread numberToString parseFloat fullYear getMonth currentWeek random
  (first : row) (rest : list row) :
  (forall col,
      In col (Rich.foundColumns (keys first)) <->
      In col Rich.mappedColumns /\
      exists fileCol pre post,
        In fileCol (keys first) /\
        (fileCol = (pre ++ col ++ post)%string
         \/ col = (pre ++ fileCol ++ post)%string)) /\
  ((List.length (Rich.foundColumns (keys first)) < 2)%nat ->
   Rich.parseExcelFile spread numberToString parseFloat fullYear getMonth random
     (first :: rest)
   = Rejected
       ("Could not find enough expected columns. Found: "
        ++ Js.join ", " (Rich.foundColumns (keys first))
        ++ ". Available: " ++ Js.join ", " (keys first))%string) /\
  (forall col,
      In col (Basic.foundColumns (keys first)) <->
      In col Basic.mappedColumns /\ In col (keys first)) /\
  ((List.length (Basic.foundColumns (keys first)) < 3)%nat ->
   Basic.parseExcelFile spread numberToString parseFloat fullYear currentWeek
     random (first :: rest)
   = Rejected
       ("Could not find enough expected columns. Found: "
        ++ Js.join ", " (Basic.foundColumns (keys first)))%string).
Proof.
  split; [|split; [|split]].
  - intros col. unfold Rich.foundColumns.
    rewrite filter_In, existsb_exists. split.
    + intros (Hin & fileCol & Hf & Hc). split; [exact Hin|].
      apply orb_true_iff in Hc as [Hc|Hc];
        apply includes_spec in Hc as (pre & post & Hc);
        exists fileCol, pre, post; split; auto.
    + intros (Hin & fileCol & pre & post & Hf & Hc). split; [exact Hin|].
      exists fileCol. split; [exact Hf|]. apply orb_true_iff.
      destruct Hc as [Hc|Hc]; [left|right];
        apply includes_spec; now exists pre, post.
  - intros H. unfold Rich.parseExcelFile.
    apply Nat.ltb_lt in H. now rewrite H.
  - intros col. unfold Basic.foundColumns, Js.arrayIncludes.
    rewrite filter_In, existsb_exists. split.
    + intros (Hin & x & Hx & Hc). apply String.eqb_eq in Hc. now subst x.
    + intros (Hin & Hx). split; [exact Hin|]. exists col.
      split; [exact Hx | apply String.eqb_refl].
  - intros H. unfold Basic.parseExcelFile.
    apply Nat.ltb_lt in H. now rewrite H.
Qed.

Lemma insufficient_columns_rejected_witness :
  (List.length (Rich.foundColumns (keys [("industry", CStr "Retail")])) < 2)%nat
  /\ Rich.parseExcelFile sampleSpread (fun _ => "") (fun _ => None) 2025 0
       (fun _ => 0%R) [[("industry", CStr "Retail")]]
     = Rejected
         "Could not find enough expected columns. Found: . Available: industry".
Proof.
  split; [vm_compute; lia|].
  apply (insufficient_columns_rejected sampleSpread (fun _ => "")
           (fun _ => None) 2025 0 0 (fun _ => 0%R)
           [("industry", CStr "Retail")] []).
  vm_compute; lia.
Defined.

(** ** The start month of a row *)

Lemma monthMap_range :
  forall e, In e Rich.monthMap -> 1 <= snd e <= 12.
Proof.
  intros e He. unfold Rich.monthMap in He. simpl in He.
  repeat (destruct He as [<-|He]; [simpl; lia|]). destruct He.
Qed.

Lemma find_first {A : Type} (p : A -> bool) (before : list A) (x : A)
  (after : list A) :
  (forall y, In y before -> p y = false) -> p x = true ->
  find p (before ++ x :: after) = Some x.
Proof.
  intros Hb Hx. induction before as [|y before IH]; simpl.
  - now rewrite Hx.
  - rewrite (Hb y) by now left. apply IH. intros; apply Hb; now right.
Qed.

Lemma find_none_iff {A : Type} (p : A -> bool) (l : list A) :
  find p l = None <-> forall y, In y l -> p y = false.
Proof.
  split.
  - intros H y Hy. now apply (find_none p l H).
  - induction l as [|z l IH]; intros H; simpl; [reflexivity|].
    rewrite (H z) by now left. apply IH. intros; apply H; now right.
Qed.

Section StartMonth.

Variable numberToString : R -> string.
Variable getMonth : Z.

Local Abbreviation parseMonthFromText :=
  (Rich.parseMonthFromText numberToString getMonth).
Local Abbreviation startMonthOf :=
  (Rich.startMonthOf numberToString getMonth).

Lemma parseMonthFromText_range (c : cell) :
  0 <= getMonth <= 11 -> 1 <= parseMonthFromText c <= 12.
Proof.
  intros Hm. unfold Rich.parseMonthFromText.
  set (byName := match c with CStr s => _ | _ => None end).
  assert (Hby : forall e, byName = Some e -> In e Rich.monthMap).
  { intros e He. unfold byName in He. destruct c; try discriminate.
    now apply find_some in He. }
  destruct byName as [[name num]|].
  - apply (monthMap_range (name, num)). now apply Hby.
  - destruct (parseInt numberToString (Some c)) as [n|]; [|lia].
    destruct ((1 <=? n) && (n <=? 12)) eqn:E; [|lia].
    apply andb_true_iff in E as [E1 E2].
    apply Z.leb_le in E1, E2. lia.
Qed.

Lemma parseMonthFromText_no_name (c : cell) :
  noMonthName c ->
  parseMonthFromText c
  = match parseInt numberToString (Some c) with
    | Some num => if (1 <=? num) && (num <=? 12) then num else getMonth + 1
    | None => getMonth + 1
    end.
Proof.
  intros H. unfold Rich.parseMonthFromText.
  destruct c as [s| |]; try reflexivity.
  unfold noMonthName in H.
  apply (find_none_iff (fun e => Js.includes (Js.toLowerCase s) (fst e))) in H.
  now rewrite H.
Qed.

Lemma orElse_truthy (v : value) (d : cell) :
  truthy v = true -> exists c, v = Some c /\ orElse v d = c.
Proof.
  intros H. destruct v as [c|]; [|discriminate].
  exists c. split; [reflexivity|]. unfold orElse. now rewrite H.
Qed.

Lemma orElse_falsy (v : value) (d : cell) :
  truthy v = false -> orElse v d = d.
Proof.
  intros H. destruct v as [c|]; [|reflexivity].
  unfold orElse. now rewrite H.
Qed.

(** C4, as stated, fails: with the cell absent and the clock in January
    the start month is 8, not the current month 1. *)
Lemma absent_month_counterexample :
  ~ (forall (numberToString : R -> string) (getMonth : Z),
        0 <= getMonth <= 11 ->
        Rich.startMonthOf numberToString getMonth None = getMonth + 1).
Proof.
  intros H. specialize (H (fun _ => "") 0 ltac:(lia)).
  vm_compute in H. discriminate H.
Qed.

(** C4, amended. For every value [v] of the cell
    'Forecasted TXN Start (Month)' the start month lies in 1..12.  An
    absent or falsy cell is read as 'August' and gives 8.  Otherwise: if
    the cell is a string whose lower-cased text contains a month name of
    the table, the number of the first such name in table order is taken
    (so "August" gives 8); else, if [parseInt] of the cell is an integer
    of 1..12, that integer; else the current calendar month. *)
Theorem start_month_rules (v : value) :
  0 <= getMonth <= 11 ->
  let m := startMonthOf v in
  1 <= m <= 12 /\
  (truthy v = false -> m = 8) /\
  (v = Some (CStr "August") -> m = 8) /\
  (forall s name num before after,
      v = Some (CStr s) -> s <> "" ->
      Rich.monthMap = before ++ (name, num) :: after ->
      Js.includes (Js.toLowerCase s) name = true ->
      (forall e, In e before ->
                 Js.includes (Js.toLowerCase s) (fst e) = false) ->
      m = num) /\
  (forall c n,
      v = Some c -> truthy v = true -> noMonthName c ->
      parseInt numberToString v = Some n -> 1 <= n <= 12 -> m = n) /\
  (forall c,
      v = Some c -> truthy v = true -> noMonthName c ->
      (parseInt numberToString v = None
       \/ exists n, parseInt numberToString v = Some n /\ ~ 1 <= n <= 12) ->
      m = getMonth + 1).
Proof.
  intros Hm. cbv zeta. unfold Rich.startMonthOf.
  split; [apply parseMonthFromText_range; exact Hm|].
  split; [intros Hf; now rewrite orElse_falsy|].
  split; [intros ->; reflexivity|].
  split; [|split].
  - intros s name num before after -> Hs Hmap Hinc Hbefore.
    assert (Ht : truthy (Some (CStr s)) = true).
    { simpl. destruct (String.eqb s "") eqn:E; [|reflexivity].
      apply String.eqb_eq in E. contradiction. }
    destruct (orElse_truthy _ (CStr "August") Ht) as (c & Hc & ->).
    injection Hc as <-.
    unfold Rich.parseMonthFromText. rewrite Hmap.
    now rewrite (find_first _ before (name, num) after Hbefore Hinc).
  - intros c n -> Ht Hno Hp Hn.
    destruct (orElse_truthy _ (CStr "August") Ht) as (c' & Hc & ->).
    injection Hc as <-.
    rewrite (parseMonthFromText_no_name c Hno), Hp.
    replace ((1 <=? n) && (n <=? 12)) with true; [reflexivity|].
    symmetry. apply andb_true_iff. split; apply Z.leb_le; lia.
  - intros c -> Ht Hno Hp.
    destruct (orElse_truthy _ (CStr "August") Ht) as (c' & Hc & ->).
    injection Hc as <-.
    rewrite (parseMonthFromText_no_name c Hno).
    destruct Hp as [->|(n & -> & Hn)]; [reflexivity|].
    destruct ((1 <=? n) && (n <=? 12)) eqn:E; [|reflexivity].
    apply andb_true_iff in E as [E1 E2]. apply Z.leb_le in E1, E2. lia.
Qed.

End StartMonth.

Lemma start_month_rules_witness :
  0 <= 2 <= 11 /\
  1 <= Rich.startMonthOf (fun _ => "") 2 (Some (CStr "mid Oct 2025")) <= 12 /\
  Rich.startMonthOf (fun _ => "") 2 (Some (CStr "August")) = 8.
Proof.
  split; [lia|].
  split.
  - apply (start_month_rules (fun _ => "") 2 (Some (CStr "mid Oct 2025"))). lia.
  - apply (start_month_rules (fun _ => "") 2 (Some (CStr "August")));
      [lia | reflexivity].
Defined.

(** ** Dependence of a parse on [Math.random] *)

Section Randomness.

Variable spread : nat -> option string.
Variable numberToString : R -> string.
Variable parseFloat : string -> option R.
Variable fullYear : Z.
Variable getMonth : Z.

Local Abbreviation normalizeRow :=
  (Rich.normalizeRow numberToString parseFloat fullYear getMonth).
Local Abbreviation normalizeRows :=
  (Rich.normalizeRows numberToString parseFloat fullYear getMonth).
Local Abbreviation parseExcelFile :=
  (Rich.parseExcelFile spread numberToString parseFloat fullYear getMonth).






End Randomness.

Lemma seasonalFactor_pos (w : Z) : (0 < Rich.seasonalFactor w)%R.
Proof.
  unfold Rich.seasonalFactor.
  pose proof (SIN_bound (2 * PI * IZR w / 52)) as [Hlo _]. lra.
Qed.


Section BasicRandomness.

Variable spread : nat -> option string.
Variable numberToString : R -> string.
Variable parseFloat : string -> option R.
Variable fullYear : Z.
Variable currentWeek : Z.

Local Abbreviation normalizeRow :=
  (Basic.normalizeRow numberToString parseFloat fullYear currentWeek).
Local Abbreviation normalizeRows :=
  (Basic.normalizeRows numberToString parseFloat fullYear currentWeek).





End BasicRandomness.


(** ** The sample sheet *)

Lemma sample_resolved (random : nat -> R) :
  sampleParse random = Resolved (sampleResult random).
Proof.
  unfold sampleParse, sampleResult, sampleSheet.
  apply rich_parse_resolved; [vm_compute; lia|].
  apply sampleSpread_accepts.
  rewrite expand_length, rich_normalizeRows_length. simpl. lia.
Qed.


Lemma accounts_sum_their_records_witness :
  sampleParse (fun _ => 0%R) = Resolved (sampleResult (fun _ => 0%R)) /\
  NoDup (map Account.name (accounts (sampleResult (fun _ => 0%R)))).
Proof.
  split; [apply sample_resolved|].
  apply (accounts_sum_their_records sampleSpread sampleNumberToString
           sampleParseFloat 2025 7 30 (fun _ => 0%R) sampleSheet
           (sampleResult (fun _ => 0%R))).
  left. apply sample_resolved.
Defined.

Lemma rich_weekly_count_witness :
  sampleParse (fun _ => 0%R) = Resolved (sampleResult (fun _ => 0%R)) /\
  List.length (weekly (sampleResult (fun _ => 0%R))) = 156%nat /\
  totalRows (sampleResult (fun _ => 0%R)) = 156%nat.
Proof.
  split; [apply sample_resolved|].
  destruct (rich_weekly_count sampleSpread sampleNumberToString
              sampleParseFloat 2025 7
              (fun _ => 0%R) sampleSheet (sampleResult (fun _ => 0%R))
              (sample_resolved _)) as (Hlen & Htotal & _).
  split; [exact Hlen | now rewrite Htotal].
Defined.

Lemma rich_year_is_startYear_witness :
  sampleParse (fun _ => 0%R) = Resolved (sampleResult (fun _ => 0%R)) /\
  exists m, metaYear (sampleResult (fun _ => 0%R)) = Some m.
Proof.
  split; [apply sample_resolved|].
  destruct (rich_year_is_startYear sampleSpread sampleNumberToString
              sampleParseFloat 2025 7
              (fun _ => 0%R)) as [Hall _].
  destruct (Hall sampleSheet (sampleResult (fun _ => 0%R)) (sample_resolved _))
    as (_ & m & Hm & _).
  now exists m.
Defined.


(** * Further properties of the code *)

(** ** Sets of first occurrences and stable sorting *)

Section SetOf.

Context {A : Type}.
Variable eqb : A -> A -> bool.
Hypothesis eqb_spec : forall a b, eqb a b = true <-> a = b.

Lemma eqb_false_iff (a b : A) : eqb a b = false <-> a <> b.
Proof.
  destruct (eqb a b) eqn:E.
  - apply eqb_spec in E. split; [discriminate | contradiction].
  - split; [|reflexivity]. intros _ H. apply eqb_spec in H. congruence.
Qed.

Lemma setOf_In (x : A) (l : list A) : In x (setOf eqb l) <-> In x l.
Proof.
  induction l as [|y l IH]; simpl.
  - reflexivity.
  - rewrite filter_In, IH, negb_true_iff, eqb_false_iff.
    destruct (eqb x y) eqn:E.
    + apply eqb_spec in E. subst. intuition.
    + apply eqb_false_iff in E. intuition congruence.
Qed.

Lemma setOf_NoDup (l : list A) : NoDup (setOf eqb l).
Proof.
  induction l as [|y l IH]; simpl.
  - constructor.
  - constructor.
    + rewrite filter_In, negb_true_iff, eqb_false_iff. intuition.
    + now apply NoDup_filter.
Qed.

Lemma setOf_snoc (l : list A) (x : A) :
  setOf eqb (l ++ [x])
  = if existsb (eqb x) l then setOf eqb l else setOf eqb l ++ [x].
Proof.
  induction l as [|y l IH]; simpl.
  - reflexivity.
  - rewrite IH. destruct (eqb x y) eqn:E; simpl.
    + apply eqb_spec in E. subst y.
      destruct (existsb (eqb x) l); [reflexivity|].
      rewrite filter_app. simpl.
      replace (eqb x x) with true by (symmetry; now apply eqb_spec).
      simpl. now rewrite app_nil_r.
    + destruct (existsb (eqb x) l); [reflexivity|].
      rewrite filter_app. simpl. now rewrite E.
Qed.

Lemma existsb_eqb_In (x : A) (l : list A) :
  existsb (eqb x) l = true <-> In x l.
Proof.
  rewrite existsb_exists. split.
  - intros (y & Hy & E). apply eqb_spec in E. now subst.
  - intros H. exists x. split; [exact H | now apply eqb_spec].
Qed.

End SetOf.

Section Sorting.

Context {A : Type}.
Variable le : A -> A -> bool.
Hypothesis le_total : forall a b, le a b = true \/ le b a = true.
Hypothesis le_trans :
  forall a b c, le a b = true -> le b c = true -> le a c = true.

Lemma insertBy_In (x y : A) (l : list A) :
  In y (insertBy le x l) <-> y = x \/ In y l.
Proof.
  induction l as [|z l IH]; simpl.
  - intuition.
  - destruct (le x z); simpl; [intuition | rewrite IH; intuition].
Qed.

Lemma sortBy_In (y : A) (l : list A) : In y (sortBy le l) <-> In y l.
Proof.
  induction l as [|x l IH]; simpl.
  - reflexivity.
  - rewrite insertBy_In, IH. intuition.
Qed.

Lemma insertBy_sorted (x : A) (l : list A) :
  StronglySorted (fun a b => le a b = true) l ->
  StronglySorted (fun a b => le a b = true) (insertBy le x l).
Proof.
  induction l as [|z l IH]; intros Hs; simpl.
  - repeat constructor.
  - inversion Hs as [|? ? Hs' Hall]; subst.
    destruct (le x z) eqn:E.
    + constructor; [exact Hs|]. constructor; [exact E|].
      apply Forall_forall. intros y Hy.
      rewrite Forall_forall in Hall. eapply le_trans; [exact E | now apply Hall].
    + constructor; [now apply IH|].
      apply Forall_forall. intros y Hy. apply insertBy_In in Hy as [->|Hy].
      * destruct (le_total x z); congruence.
      * rewrite Forall_forall in Hall. now apply Hall.
Qed.

Lemma sortBy_sorted (l : list A) :
  StronglySorted (fun a b => le a b = true) (sortBy le l).
Proof.
  induction l as [|x l IH]; simpl.
  - constructor.
  - now apply insertBy_sorted.
Qed.

End Sorting.

Lemma insertBy_perm {A : Type} (le : A -> A -> bool) (x : A) (l : list A) :
  Permutation (insertBy le x l) (x :: l).
Proof.
  induction l as [|z l IH]; simpl.
  - reflexivity.
  - destruct (le x z); [reflexivity|].
    rewrite IH. apply perm_swap.
Qed.

Lemma sortBy_perm {A : Type} (le : A -> A -> bool) (l : list A) :
  Permutation (sortBy le l) l.
Proof.
  induction l as [|x l IH]; simpl.
  - reflexivity.
  - rewrite insertBy_perm. now constructor.
Qed.

(** Two strictly increasing lists of integers with the same members are
    the same list. *)
Lemma strictly_sorted_unique (l1 l2 : list Z) :
  StronglySorted Z.lt l1 -> StronglySorted Z.lt l2 ->
  (forall x, In x l1 <-> In x l2) -> l1 = l2.
Proof.
  revert l2. induction l1 as [|a l1 IH]; intros l2 H1 H2 Hm.
  - destruct l2 as [|b l2]; [reflexivity|].
    exfalso. apply (Hm b). now left.
  - destruct l2 as [|b l2].
    { exfalso. apply (Hm a). now left. }
    inversion H1 as [|? ? H1' F1]; subst.
    inversion H2 as [|? ? H2' F2]; subst.
    rewrite Forall_forall in F1, F2.
    assert (a = b).
    { assert (Ha : In a (b :: l2)) by (apply Hm; now left).
      assert (Hb : In b (a :: l1)) by (apply Hm; now left).
      destruct Ha as [->|Ha]; [reflexivity|].
      destruct Hb as [->|Hb]; [reflexivity|].
      specialize (F1 b Hb). specialize (F2 a Ha). lia. }
    subst b. f_equal. apply IH; try assumption.
    intros x. split; intros Hx.
    + assert (Hx' : In x (a :: l2)) by (apply Hm; now right).
      destruct Hx' as [<-|Hx']; [|exact Hx'].
      specialize (F1 a Hx). lia.
    + assert (Hx' : In x (a :: l1)) by (apply Hm; now right).
      destruct Hx' as [<-|Hx']; [|exact Hx'].
      specialize (F2 a Hx). lia.
Qed.

(** ** The buckets of [aggregate], one by one *)

Lemma filter_none {A : Type} (p : A -> bool) (l : list A) :
  (forall x, In x l -> p x = false) -> filter p l = [].
Proof.
  induction l as [|x l IH]; intros H; simpl.
  - reflexivity.
  - rewrite (H x) by now left. apply IH. intros; apply H; now right.
Qed.

Lemma Z_eqb_spec' (a b : Z) : (a =? b) = true <-> a = b.
Proof. apply Z.eqb_eq. Qed.

Lemma addTo_keys (by_ : list (Z * Bucket.t)) (k : Z) (r v : R) :
  map fst (Dashboard.addTo by_ k r v) = map fst by_.
Proof.
  induction by_ as [|[k' b] t IH]; simpl.
  - reflexivity.
  - destruct (k' =? k); simpl; [reflexivity | now rewrite IH].
Qed.

Lemma addTo_In (by_ : list (Z * Bucket.t)) (k0 : Z) (r v : R) (k : Z)
  (b : Bucket.t) :
  NoDup (map fst by_) ->
  In (k, b) (Dashboard.addTo by_ k0 r v) ->
  (k <> k0 /\ In (k, b) by_) \/
  (k = k0 /\
   exists b0, In (k0, b0) by_ /\
              b = Bucket.mk (Bucket.tag b0) (Bucket.revenue b0 + r)
                    (Bucket.volume b0 + v)).
Proof.
  induction by_ as [|[k' b'] t IH]; simpl; intros Hnd Hin.
  - destruct Hin.
  - inversion Hnd as [|? ? Hnot Hnd']; subst.
    destruct (k' =? k0) eqn:E.
    + apply Z.eqb_eq in E. subst k'.
      destruct Hin as [Hin|Hin].
      * injection Hin as <- <-. right. split; [reflexivity|].
        exists b'. split; [now left | reflexivity].
      * left. split; [|now right].
        intros ->. apply Hnot. apply in_map_iff. now exists (k0, b).
    + apply Z.eqb_neq in E. destruct Hin as [Hin|Hin].
      * injection Hin as <- <-. left. split; [exact E | now left].
      * destruct (IH Hnd' Hin) as [[Hk Hi]|[Hk (b0 & Hi & Hb)]].
        -- left. split; [exact Hk | now right].
        -- right. split; [exact Hk|]. exists b0. split; [now right | exact Hb].
Qed.

Lemma hasBucket_In (by_ : list (Z * Bucket.t)) (k : Z) :
  Dashboard.hasBucket by_ k = true <-> In k (map fst by_).
Proof.
  unfold Dashboard.hasBucket. rewrite existsb_exists, in_map_iff. split.
  - intros (e & He & Hk). apply Z.eqb_eq in Hk. now exists e.
  - intros (e & Hk & He). exists e. split; [exact He | now apply Z.eqb_eq].
Qed.

Section Buckets.

Variable keyOf : Weekly.t -> Z.
Variable fresh : Z -> bucketTag.

(** What the object [by] holds after the loop over [data]: a key for every
    key value met, in the order of first appearance, and under each key
    the sums over the records that have it. *)
Lemma buckets_spec (data : list Weekly.t) :
  let by_ := fold_left (Dashboard.accumulate keyOf fresh) data [] in
  map fst by_ = setOf Z.eqb (map keyOf data) /\
  (forall k b,
      In (k, b) by_ ->
      Bucket.tag b = fresh k /\
      Bucket.revenue b
        = sumOf Weekly.revenue (filter (fun d => keyOf d =? k) data) /\
      Bucket.volume b
        = sumOf Weekly.volume (filter (fun d => keyOf d =? k) data)).
Proof.
  induction data as [|d data IH] using rev_ind; cbv zeta.
  - simpl. split; [reflexivity | intros k b []].
  - cbv zeta in IH. destruct IH as [Hkeys Hsum].
    rewrite fold_left_app. cbn [fold_left].
    set (by_ := fold_left (Dashboard.accumulate keyOf fresh) data []) in *.
    assert (Hnd : NoDup (map fst by_))
      by (rewrite Hkeys; apply (setOf_NoDup Z.eqb Z_eqb_spec')).
    assert (Hmem : forall k, In k (map fst by_) <-> In k (map keyOf data))
      by (intros k; rewrite Hkeys; apply (setOf_In Z.eqb Z_eqb_spec')).
    assert (Hfilter : forall k,
               filter (fun d' => keyOf d' =? k) (data ++ [d])
               = filter (fun d' => keyOf d' =? k) data
                 ++ (if keyOf d =? k then [d] else [])).
    { intros k. rewrite filter_app. simpl. now destruct (keyOf d =? k). }
    unfold Dashboard.accumulate.
    rewrite (map_app keyOf). cbn [map].
    rewrite (setOf_snoc Z.eqb Z_eqb_spec').
    destruct (Dashboard.hasBucket by_ (keyOf d)) eqn:E.
    + assert (Hin : In (keyOf d) (map keyOf data))
        by (apply Hmem, hasBucket_In; exact E).
      replace (existsb (Z.eqb (keyOf d)) (map keyOf data)) with true
        by (symmetry; now apply (existsb_eqb_In Z.eqb Z_eqb_spec')).
      split; [now rewrite addTo_keys|].
      intros k b Hb. rewrite !Hfilter.
      apply addTo_In in Hb as [[Hk Hb]|[-> (b0 & Hb0 & ->)]]; [| |exact Hnd].
      * destruct (Hsum k b Hb) as (Ht & Hr & Hv).
        replace (keyOf d =? k) with false
          by (symmetry; apply Z.eqb_neq; congruence).
        now rewrite app_nil_r.
      * destruct (Hsum _ b0 Hb0) as (Ht & Hr & Hv).
        rewrite Z.eqb_refl, !sumOf_app, !sumOf_cons, !sumOf_nil. simpl.
        rewrite Ht, Hr, Hv. repeat split; lra.
    + assert (Hnot : ~ In (keyOf d) (map keyOf data)).
      { intros H. apply Hmem, hasBucket_In in H. congruence. }
      replace (existsb (Z.eqb (keyOf d)) (map keyOf data)) with false.
      2:{ symmetry. apply not_true_is_false. intros H.
          apply (existsb_eqb_In Z.eqb Z_eqb_spec') in H. contradiction. }
      split; [now rewrite addTo_keys, map_app, Hkeys|].
      intros k b Hb. rewrite !Hfilter.
      assert (Hnd1 : NoDup (map fst (by_ ++ [(keyOf d, Bucket.mk (fresh (keyOf d)) 0 0)]))).
      { rewrite map_app. simpl. apply NoDup_app; [exact Hnd | | ].
        - constructor; [intros [] | constructor].
        - intros x Hx [<-|[]]. apply Hnot, Hmem, Hx. }
      apply addTo_In in Hb as [[Hk Hb]|[-> (b0 & Hb0 & ->)]]; [| |exact Hnd1].
      * apply in_app_or in Hb as [Hb|[Hb|[]]]; [|congruence].
        destruct (Hsum k b Hb) as (Ht & Hr & Hv).
        replace (keyOf d =? k) with false
          by (symmetry; apply Z.eqb_neq; congruence).
        now rewrite app_nil_r.
      * apply in_app_or in Hb0 as [Hb0|[Hb0|[]]].
        { exfalso. apply Hnot, Hmem, in_map_iff. now exists (keyOf d, b0). }
        injection Hb0 as <-.
        rewrite Z.eqb_refl, (filter_none (fun d' => keyOf d' =? keyOf d) data).
        2:{ intros x Hx. apply Z.eqb_neq. intros Hk. apply Hnot.
            rewrite <- Hk. now apply in_map. }
        simpl. rewrite !sumOf_cons, !sumOf_nil. simpl. repeat split; lra.
Qed.

Lemma sortedValues_keys (by_ : list (Z * Bucket.t)) :
  NoDup (map fst by_) ->
  StronglySorted Z.lt
    (map fst (sortBy (fun a b : Z * Bucket.t => fst a <=? fst b) by_)).
Proof.
  intros Hnd.
  set (le := fun a b : Z * Bucket.t => fst a <=? fst b).
  assert (Hs : StronglySorted (fun a b => le a b = true) (sortBy le by_)).
  { apply sortBy_sorted; unfold le.
    - intros a b. rewrite !Z.leb_le. lia.
    - intros a b c. rewrite !Z.leb_le. lia. }
  assert (Hnd' : NoDup (map fst (sortBy le by_))).
  { eapply Permutation_NoDup; [|exact Hnd].
    apply Permutation_map, Permutation_sym, sortBy_perm. }
  induction Hs as [|a l Hs IH Hall]; simpl.
  - constructor.
  - simpl in Hnd'. inversion Hnd' as [|? ? Hnot Hnd'']; subst.
    constructor; [now apply IH|].
    apply Forall_forall. intros k Hk.
    apply in_map_iff in Hk as (e & <- & He).
    rewrite Forall_forall in Hall. specialize (Hall e He).
    unfold le in Hall. apply Z.leb_le in Hall.
    assert (fst a <> fst e).
    { intros Heq. apply Hnot. rewrite Heq. now apply in_map. }
    lia.
Qed.

End Buckets.

Lemma bucket_eta (b : Bucket.t) :
  b = Bucket.mk (Bucket.tag b) (Bucket.revenue b) (Bucket.volume b).
Proof. now destruct b. Qed.

(** The array [sortedValues] returns for the object the loop built: the
    keys met, in increasing order, each with its tag and its two sums. *)
Lemma aggregate_by_key (keyOf : Weekly.t -> Z) (fresh : Z -> bucketTag)
  (data : list Weekly.t) :
  exists ks,
    StronglySorted Z.lt ks /\
    (forall k, In k ks <-> exists d, In d data /\ keyOf d = k) /\
    Dashboard.sortedValues
      (fold_left (Dashboard.accumulate keyOf fresh) data [])
    = map (fun k =>
             Bucket.mk (fresh k)
               (sumOf Weekly.revenue (filter (fun d => keyOf d =? k) data))
               (sumOf Weekly.volume (filter (fun d => keyOf d =? k) data)))
        ks.
Proof.
  destruct (buckets_spec keyOf fresh data) as [Hkeys Hsum].
  set (by_ := fold_left (Dashboard.accumulate keyOf fresh) data []) in *.
  set (le := fun a b : Z * Bucket.t => fst a <=? fst b).
  exists (map fst (sortBy le by_)).
  assert (Hnd : NoDup (map fst by_))
    by (rewrite Hkeys; apply (setOf_NoDup Z.eqb Z_eqb_spec')).
  split; [now apply sortedValues_keys|]. split.
  - intros k. rewrite in_map_iff. split.
    + intros (e & <- & He). apply sortBy_In in He.
      assert (Hk : In (fst e) (map fst by_)) by now apply in_map.
      rewrite Hkeys in Hk.
      apply (proj1 (setOf_In Z.eqb Z_eqb_spec' _ _)) in Hk.
      apply in_map_iff in Hk as (d & Hd & Hin). now exists d.
    + intros (d & Hd & <-).
      assert (Hk : In (keyOf d) (map fst by_)).
      { rewrite Hkeys. apply (setOf_In Z.eqb Z_eqb_spec'). now apply in_map. }
      apply in_map_iff in Hk as (e & He & Hin).
      exists e. split; [exact He | now apply sortBy_In].
  - unfold Dashboard.sortedValues. fold le. rewrite map_map.
    apply map_ext_in. intros [k b] He. apply sortBy_In in He.
    destruct (Hsum k b He) as (Ht & Hr & Hv). simpl.
    rewrite <- Ht, <- Hr, <- Hv. apply bucket_eta.
Qed.

(** X1. [aggregate(data, "Weekly")] is the list, by increasing week, of
    one bucket per week value found in [data], each holding the sums of
    revenue and of volume over the records of that week. *)
Theorem aggregate_weekly_spec (withMonthName : bool) (data : list Weekly.t) :
  exists ks,
    StronglySorted Z.lt ks /\
    (forall k, In k ks <-> exists d, In d data /\ Weekly.week d = k) /\
    Dashboard.aggregate withMonthName data "Weekly"
    = map (fun k =>
             Bucket.mk (ByWeek k)
               (sumOf Weekly.revenue
                  (filter (fun d => Weekly.week d =? k) data))
               (sumOf Weekly.volume
                  (filter (fun d => Weekly.week d =? k) data)))
        ks.
Proof.
  destruct (aggregate_by_key Weekly.week ByWeek data) as (ks & Hs & Hm & He).
  exists ks. repeat split; try assumption; try apply Hm.
Qed.

Lemma weeklyToMonth_range (week : Z) :
  1 <= Dashboard.weeklyToMonth week <= 12.
Proof. unfold Dashboard.weeklyToMonth. lia. Qed.

Lemma getMonthName_listed (k : Z) :
  1 <= k <= 12 ->
  nth_error Dashboard.months (Z.to_nat (k - 1))
  = Some (Dashboard.getMonthName k).
Proof.
  intros H. unfold Dashboard.getMonthName.
  replace (k <=? 0) with false by (symmetry; apply Z.leb_gt; lia).
  assert (Hk : k = 1 \/ k = 2 \/ k = 3 \/ k = 4 \/ k = 5 \/ k = 6 \/ k = 7
               \/ k = 8 \/ k = 9 \/ k = 10 \/ k = 11 \/ k = 12) by lia.
  repeat (destruct Hk as [->|Hk]; [reflexivity|]). subst. reflexivity.
Qed.

Lemma monthly_buckets (withMonthName : bool) (data : list Weekly.t) :
  exists ks,
    StronglySorted Z.lt ks /\
    (forall k, In k ks <-> exists d, In d data /\ monthOf d = k) /\
    Dashboard.aggregate withMonthName data "Monthly"
    = map (monthBucket withMonthName data) ks.
Proof.
  exact (aggregate_by_key monthOf
           (fun k => ByMonth k (if withMonthName
                                then Some (Dashboard.getMonthName k)
                                else None))
           data).
Qed.

(** X2. [aggregate(data, "Monthly")] is the list, by increasing month, of
    one bucket per month [weeklyToMonth(week)] found in [data]; every
    month lies in 1..12, the richer dashboard's bucket carries the name of
    that month (never 'Unknown'), and each bucket holds the sums of
    revenue and of volume over the records of its month. *)
Theorem aggregate_monthly_spec (withMonthName : bool) (data : list Weekly.t) :
  exists ks,
    StronglySorted Z.lt ks /\
    (forall k, In k ks <-> exists d, In d data /\ monthOf d = k) /\
    (forall k, In k ks ->
               1 <= k <= 12 /\
               nth_error Dashboard.months (Z.to_nat (k - 1))
               = Some (Dashboard.getMonthName k)) /\
    Dashboard.aggregate withMonthName data "Monthly"
    = map (monthBucket withMonthName data) ks.
Proof.
  destruct (monthly_buckets withMonthName data) as (ks & Hs & Hm & He).
  exists ks. split; [exact Hs|]. split; [exact Hm|]. split; [|exact He].
  intros k Hk. apply Hm in Hk as (d & _ & <-).
  split; [apply weeklyToMonth_range|].
  apply getMonthName_listed, weeklyToMonth_range.
Qed.

Lemma months_sorted : StronglySorted Z.lt monthsOfYear.
Proof.
  unfold monthsOfYear. simpl.
  repeat (constructor; [|repeat (constructor; [lia|]); constructor]).
  constructor.
Qed.

Lemma months_In (k : Z) : In k monthsOfYear <-> 1 <= k <= 12.
Proof.
  unfold monthsOfYear. rewrite in_map_iff. split.
  - intros (n & <- & Hn). apply in_seq in Hn. lia.
  - intros H. exists (Z.to_nat k). split; [lia|]. apply in_seq. lia.
Qed.

Lemma monthly_full_year (withMonthName : bool) (data : list Weekly.t) :
  (forall m, 1 <= m <= 12 -> exists d, In d data /\ monthOf d = m) ->
  Dashboard.aggregate withMonthName data "Monthly"
  = map (monthBucket withMonthName data) monthsOfYear.
Proof.
  intros Hall.
  destruct (monthly_buckets withMonthName data) as (ks & Hs & Hm & ->).
  f_equal. apply strictly_sorted_unique; [exact Hs | apply months_sorted |].
  intros k. rewrite months_In. split.
  - intros Hk. apply Hm in Hk as (d & _ & <-). apply weeklyToMonth_range.
  - intros Hk. apply Hm. now apply Hall.
Qed.

(** X3. When every month 1..12 is the month of some record, the monthly
    aggregate has exactly twelve buckets, for months 1, 2, ..., 12 in this
    order, each with the sums over its month. *)
Theorem aggregate_monthly_full_year
  (withMonthName : bool) (data : list Weekly.t) :
  (forall m, 1 <= m <= 12 -> exists d, In d data /\ monthOf d = m) ->
  Dashboard.aggregate withMonthName data "Monthly"
  = map (monthBucket withMonthName data) monthsOfYear /\
  List.length (Dashboard.aggregate withMonthName data "Monthly") = 12%nat /\
  map Bucket.month (Dashboard.aggregate withMonthName data "Monthly")
  = map Some monthsOfYear.
Proof.
  intros Hall. rewrite (monthly_full_year withMonthName data Hall).
  split; [reflexivity|]. split.
  - now rewrite length_map.
  - now rewrite map_map.
Qed.

Lemma yearOfWeeks_months (m : Z) :
  1 <= m <= 12 ->
  exists d, In d yearOfWeeks /\ monthOf d = m.
Proof.
  intros H.
  assert (Hm : m = 1 \/ m = 2 \/ m = 3 \/ m = 4 \/ m = 5 \/ m = 6 \/ m = 7
               \/ m = 8 \/ m = 9 \/ m = 10 \/ m = 11 \/ m = 12) by lia.
  assert (Hw : forall w, 1 <= w <= 52 ->
                 In (Weekly.mk w 2025 "Acme" "Retail" "NCR" "Cruz" "Won"
                       100 1 None) yearOfWeeks).
  { intros w Hw. unfold yearOfWeeks. apply in_map_iff.
    exists w. split; [reflexivity | now apply weeks_in]. }
  destruct Hm as [->|[->|[->|[->|[->|[->|[->|[->|[->|[->|[->| ->]]]]]]]]]]].
  - eexists. split; [apply (Hw 1); lia | reflexivity].
  - eexists. split; [apply (Hw 5); lia | reflexivity].
  - eexists. split; [apply (Hw 9); lia | reflexivity].
  - eexists. split; [apply (Hw 14); lia | reflexivity].
  - eexists. split; [apply (Hw 18); lia | reflexivity].
  - eexists. split; [apply (Hw 22); lia | reflexivity].
  - eexists. split; [apply (Hw 27); lia | reflexivity].
  - eexists. split; [apply (Hw 31); lia | reflexivity].
  - eexists. split; [apply (Hw 35); lia | reflexivity].
  - eexists. split; [apply (Hw 40); lia | reflexivity].
  - eexists. split; [apply (Hw 44); lia | reflexivity].
  - eexists. split; [apply (Hw 48); lia | reflexivity].
Qed.

Lemma aggregate_monthly_full_year_witness :
  List.length (Dashboard.aggregate true yearOfWeeks "Monthly") = 12%nat.
Proof.
  apply (aggregate_monthly_full_year true yearOfWeeks yearOfWeeks_months).
Defined.

(** ** Year-to-date and month-to-date, in terms of the records *)

Section MonthlyFigures.

Variable keyOf : Weekly.t -> Z.
Variable g : Weekly.t -> R.
Variable f : Bucket.t -> R.
Variable data : list Weekly.t.
Variable F : Z -> Bucket.t.
Hypothesis F_month : forall k, Bucket.month (F k) = Some k.
Hypothesis F_sum :
  forall k, f (F k) = sumOf g (filter (fun d => keyOf d =? k) data).


Lemma find_of_map (ks : list Z) (cutoff : Z) :
  find (Dashboard.atCutoff cutoff) (map F ks)
  = if existsb (Z.eqb cutoff) ks then Some (F cutoff) else None.
Proof.
  induction ks as [|k ks IH]; simpl.
  - reflexivity.
  - unfold Dashboard.atCutoff at 1. rewrite F_month.
    rewrite (Z.eqb_sym cutoff k).
    destruct (k =? cutoff) eqn:E; simpl.
    + apply Z.eqb_eq in E. now subst.
    + exact IH.
Qed.

Lemma mtd_of_map (ks : list Z) (cutoff : Z) :
  (forall k, In k ks <-> exists d, In d data /\ keyOf d = k) ->
  Dashboard.mtd f (map F ks) cutoff
  = sumOf g (filter (fun d => keyOf d =? cutoff) data).
Proof.
  intros Hm. unfold Dashboard.mtd. rewrite find_of_map.
  destruct (existsb (Z.eqb cutoff) ks) eqn:E.
  - apply F_sum.
  - rewrite filter_none; [reflexivity|].
    intros d Hd. apply Z.eqb_neq. intros Hk.
    assert (Hin : In cutoff ks) by (apply Hm; now exists d).
    apply (existsb_eqb_In Z.eqb Z_eqb_spec') in Hin. congruence.
Qed.

End MonthlyFigures.

Lemma filter_all {A : Type} (p : A -> bool) (l : list A) :
  (forall x, In x l -> p x = true) -> filter p l = l.
Proof.
  induction l as [|x l IH]; intros H; simpl.
  - reflexivity.
  - rewrite (H x) by now left. f_equal. apply IH. intros; apply H; now right.
Qed.

(** ** The buckets split the records *)


Section BucketTotalsInBinary64.

Import PrimFloat.
#[local] Set Warnings "-inexact-float".


End BucketTotalsInBinary64.

Lemma filter_map_commute {A B : Type} (p : B -> bool) (h : A -> B)
  (l : list A) :
  filter p (map h l) = map h (filter (fun x => p (h x)) l).
Proof.
  induction l as [|x l IH]; simpl; [reflexivity|].
  destruct (p (h x)); simpl; now rewrite IH.
Qed.

(** Year-to-date over the monthly aggregate: the buckets of the months
    up to the cutoff, added in month order. *)
Lemma monthly_ytd (withMonthName : bool) (data : list Weekly.t)
  (g : Weekly.t -> R) (f : Bucket.t -> R) (ks : list Z) (cutoff : Z) :
  (forall k, f (monthBucket withMonthName data k)
             = sumOf g (filter (fun d => monthOf d =? k) data)) ->
  Dashboard.ytd f (map (monthBucket withMonthName data) ks) cutoff
  = sumOf (fun k => sumOf g (filter (fun d => monthOf d =? k) data))
      (filter (fun k => k <=? cutoff) ks).
Proof.
  intros Hf. unfold Dashboard.ytd.
  rewrite (filter_map_commute _ (monthBucket withMonthName data)).
  rewrite sumOf_map.
  transitivity
    (sumOf (fun k => f (monthBucket withMonthName data k))
       (filter (fun k => k <=? cutoff) ks)).
  - reflexivity.
  - apply sumOf_ext. intros k _. apply Hf.
Qed.

Lemma months_up_to (ks : list Z) (cutoff : Z) :
  (forall k, In k ks -> 1 <= k <= 12) ->
  (12 <= cutoff -> filter (fun k => k <=? cutoff) ks = ks) /\
  (cutoff < 1 -> filter (fun k => k <=? cutoff) ks = []).
Proof.
  intros H. split; intros Hc.
  - apply filter_all. intros k Hk. apply Z.leb_le. specialize (H k Hk). lia.
  - apply filter_none. intros k Hk. apply Z.leb_gt. specialize (H k Hk). lia.
Qed.

(** X4. Over the monthly aggregate of any records: the year-to-date
    figure adds, in month order and starting from 0, the buckets of the
    months up to the cutoff, each bucket being the sum of the records of
    its month in the order of the records; the month-to-date figure is
    the bucket of the cutoff month, or 0 when there is none.  So from
    cutoff 12 on the year-to-date figure is the overall figure of the
    monthly series, and for a cutoff below 1 both figures are 0.
    Revenue and volume alike. *)
Theorem ytd_mtd_of_records
  (withMonthName : bool) (data : list Weekly.t) (cutoff : Z) :
  let monthly := Dashboard.aggregate withMonthName data "Monthly" in
  exists ks,
    StronglySorted Z.lt ks /\
    (forall k, In k ks <-> exists d, In d data /\ monthOf d = k) /\
    Dashboard.ytd Bucket.revenue monthly cutoff
    = sumOf (fun k =>
               sumOf Weekly.revenue (filter (fun d => monthOf d =? k) data))
        (filter (fun k => k <=? cutoff) ks) /\
    Dashboard.ytd Bucket.volume monthly cutoff
    = sumOf (fun k =>
               sumOf Weekly.volume (filter (fun d => monthOf d =? k) data))
        (filter (fun k => k <=? cutoff) ks) /\
    Dashboard.mtd Bucket.revenue monthly cutoff
    = sumOf Weekly.revenue (filter (fun d => monthOf d =? cutoff) data) /\
    Dashboard.mtd Bucket.volume monthly cutoff
    = sumOf Weekly.volume (filter (fun d => monthOf d =? cutoff) data) /\
    (12 <= cutoff ->
     Dashboard.ytd Bucket.revenue monthly cutoff
     = Views.overall Bucket.revenue monthly /\
     Dashboard.ytd Bucket.volume monthly cutoff
     = Views.overall Bucket.volume monthly) /\
    (cutoff < 1 ->
     Dashboard.ytd Bucket.revenue monthly cutoff = 0%R /\
     Dashboard.ytd Bucket.volume monthly cutoff = 0%R /\
     Dashboard.mtd Bucket.revenue monthly cutoff = 0%R /\
     Dashboard.mtd Bucket.volume monthly cutoff = 0%R).
Proof.
  cbv zeta.
  destruct (monthly_buckets withMonthName data) as (ks & Hs & Hm & ->).
  exists ks. split; [exact Hs|]. split; [exact Hm|].
  assert (Hrange : forall k, In k ks -> 1 <= k <= 12).
  { intros k Hk. apply Hm in Hk as (d & _ & <-). apply weeklyToMonth_range. }
  assert (Yr := monthly_ytd withMonthName data Weekly.revenue Bucket.revenue
                  ks cutoff (fun k => eq_refl)).
  assert (Yv := monthly_ytd withMonthName data Weekly.volume Bucket.volume
                  ks cutoff (fun k => eq_refl)).
  assert (Mr := mtd_of_map monthOf Weekly.revenue Bucket.revenue data
                  (monthBucket withMonthName data)
                  (fun k => eq_refl) (fun k => eq_refl) ks cutoff Hm).
  assert (Mv := mtd_of_map monthOf Weekly.volume Bucket.volume data
                  (monthBucket withMonthName data)
                  (fun k => eq_refl) (fun k => eq_refl) ks cutoff Hm).
  destruct (months_up_to ks cutoff Hrange) as [Hall Hnone].
  split; [exact Yr|]. split; [exact Yv|].
  split; [exact Mr|]. split; [exact Mv|]. split.
  - intros Hc. rewrite Yr, Yv, (Hall Hc). unfold Views.overall.
    rewrite !sumOf_map. split; reflexivity.
  - intros Hc. rewrite Yr, Yv, Mr, Mv, (Hnone Hc).
    assert (H2 : forall d, In d data -> (monthOf d =? cutoff) = false).
    { intros d _. apply Z.eqb_neq. unfold monthOf.
      pose proof (weeklyToMonth_range (Weekly.week d)). lia. }
    rewrite !(filter_none _ data H2). repeat split; reflexivity.
Qed.

(** ** The scenario engine and the filters *)

Lemma weekly_eta (d : Weekly.t) :
  d = Weekly.mk (Weekly.week d) (Weekly.year d) (Weekly.account d)
        (Weekly.industry d) (Weekly.area d) (Weekly.agent d)
        (Weekly.status d) (Weekly.revenue d) (Weekly.volume d)
        (Weekly.ext d).
Proof. now destruct d. Qed.

Lemma adjust_unit (opts : scenario) (d : Weekly.t) :
  revenueMultiplier opts = 1%R ->
  volumeMultiplier opts = 1%R ->
  mixShiftIndustry opts = None \/ mixShiftIndustry opts = Some ""
  \/ mixShiftPct opts = 0%R ->
  Dashboard.adjust opts d = d.
Proof.
  intros Hr Hv Hm.
  rewrite (weekly_eta d) at 2. unfold Dashboard.adjust.
  rewrite Hr, Hv.
  destruct (Dashboard.targeted opts d) eqn:E.
  - destruct Hm as [Hm|[Hm|Hm]].
    + unfold Dashboard.targeted in E. rewrite Hm in E. discriminate.
    + unfold Dashboard.targeted in E. rewrite Hm in E. discriminate.
    + rewrite Hm. f_equal; lra.
  - f_equal; lra.
Qed.

(** X5. With both multipliers 1 and either no mix-shift industry
    ([null], or the empty string) or a mix-shift of 0 percent,
    [applyScenario] returns the records it was given: the state the page
    installs after an upload or a reset shows the parsed figures
    unchanged. *)
Theorem applyScenario_identity (data : list Weekly.t) (opts : scenario) :
  revenueMultiplier opts = 1%R ->
  volumeMultiplier opts = 1%R ->
  mixShiftIndustry opts = None \/ mixShiftIndustry opts = Some ""
  \/ mixShiftPct opts = 0%R ->
  Dashboard.applyScenario data opts = data.
Proof.
  intros Hr Hv Hm. unfold Dashboard.applyScenario.
  rewrite <- (map_id data) at 2. apply map_ext. intros d.
  now apply adjust_unit.
Qed.

Lemma applyScenario_identity_witness :
  Dashboard.applyScenario [retailRecord] (mkScenario 1 1 None 10)
  = [retailRecord].
Proof.
  apply (applyScenario_identity [retailRecord] (mkScenario 1 1 None 10));
    [reflexivity | reflexivity | now left].
Defined.

Lemma passes_adjust (filters : Filters.t) (opts : scenario) (d : Weekly.t) :
  Views.passes filters (Dashboard.adjust opts d) = Views.passes filters d.
Proof. reflexivity. Qed.

(** X7. Filtering and the scenario commute: filtering the adjusted records
    gives the adjusted filtered records, so [adjustedTY] (scenario first,
    filters second) is also what filtering first would give. *)
Theorem filters_commute_with_scenario
  (filters : Filters.t) (opts : scenario) (data : list Weekly.t) :
  Views.adjustedTY data opts filters
  = Dashboard.applyScenario (Views.applyFilters filters data) opts.
Proof.
  unfold Views.adjustedTY, Views.applyFilters, Dashboard.applyScenario.
  induction data as [|d data IH]; simpl.
  - reflexivity.
  - rewrite passes_adjust. destruct (Views.passes filters d); simpl;
      now rewrite IH.
Qed.

Lemma dimension_all (item : option string) :
  Views.dimension (Some "all") item = true.
Proof. reflexivity. Qed.

Lemma applyFilters_all (data : list Weekly.t) :
  Views.applyFilters Views.allFilters data = data.
Proof.
  unfold Views.applyFilters. apply filter_all. intros d _. reflexivity.
Qed.

(** X8. With a dimension set to 'all' that dimension lets every record
    through, and with all seven set to 'all' (the initial state, an
    upload, 'Clear All Filters') [applyFilters] returns its input; a
    record is kept exactly when it is in the input and, in each dimension
    not set to 'all', its field is identical to the filter value. *)
Theorem applyFilters_spec (filters : Filters.t) (data : list Weekly.t) :
  Views.applyFilters Views.allFilters data = data /\
  (forall d,
      In d (Views.applyFilters filters data) <->
      In d data /\
      (forall get item,
          In (get, item)
            [ (Filters.industry, Some (Weekly.industry d));
              (Filters.salesCategory,
               option_map Ext.salesCategory (Weekly.ext d));
              (Filters.status, Some (Weekly.status d));
              (Filters.city, option_map Ext.city (Weekly.ext d));
              (Filters.territoryCode,
               option_map Ext.territoryCode (Weekly.ext d));
              (Filters.agent, Some (Weekly.agent d));
              (Filters.area, Some (Weekly.area d)) ] ->
          get filters = Some "all" \/ item = get filters)).
Proof.
  assert (Hdim : forall f item,
             Views.dimension f item = true <-> f = Some "all" \/ item = f).
  { intros f item. unfold Views.dimension, Views.strictEq.
    rewrite orb_true_iff. split.
    - intros [H|H].
      + left. destruct f as [s|]; [|discriminate].
        apply String.eqb_eq in H. now subst.
      + right. destruct item as [x|], f as [y|]; try discriminate;
          [apply String.eqb_eq in H; now subst | reflexivity].
    - intros [-> | ->]; [now left|]. right.
      destruct f; [apply String.eqb_refl | reflexivity]. }
  split.
  - apply applyFilters_all.
  - intros d. unfold Views.applyFilters. rewrite filter_In.
    unfold Views.passes. rewrite !andb_true_iff, !Hdim. split.
    + intros (Hin & (((((H1 & H2) & H3) & H4) & H5) & H6) & H7).
      split; [exact Hin|]. intros get item Hg. simpl in Hg.
      repeat (destruct Hg as [Hg|Hg]; [injection Hg as <- <-; assumption|]).
      destruct Hg.
    + intros (Hin & H). split; [exact Hin|].
      repeat split; apply H; simpl; tauto.
Qed.

(** X9. A filter set without [area] (the one [resetToSampleData]
    installs) lets no record through: a record's [area] is a string, and
    [undefined] is neither 'all' nor that string. *)
Theorem applyFilters_without_area
  (filters : Filters.t) (opts : scenario) (data : list Weekly.t) :
  Filters.area filters = None ->
  Views.applyFilters filters data = [] /\
  Views.adjustedTY data opts filters = [] /\
  Views.adjustedTY data opts Views.resetFilters = [].
Proof.
  intros Ha.
  assert (H : forall F l, Filters.area F = None -> Views.applyFilters F l = []).
  { intros F l HF. unfold Views.applyFilters. apply filter_none.
    intros d _. unfold Views.passes. rewrite HF.
    unfold Views.dimension at 7. simpl. apply andb_false_r. }
  repeat split; unfold Views.adjustedTY; now apply H.
Qed.

Lemma applyFilters_without_area_witness :
  Views.applyFilters Views.resetFilters [retailRecord] = [].
Proof.
  apply (applyFilters_without_area Views.resetFilters retailShift
           [retailRecord]).
  reflexivity.
Defined.

(** ** Grouping by a key *)

Lemma String_eqb_spec' (a b : string) : String.eqb a b = true <-> a = b.
Proof. apply String.eqb_eq. Qed.

Lemma addToGroup_keys (m : list (string * Group.t)) (k : string) (r w : R) :
  map fst (Views.addToGroup m k r w) = map fst m.
Proof.
  induction m as [|[k' g] t IH]; simpl.
  - reflexivity.
  - destruct (String.eqb k' k); simpl; [reflexivity | now rewrite IH].
Qed.

Lemma addToGroup_In (m : list (string * Group.t)) (k0 : string) (r w : R)
  (k : string) (g : Group.t) :
  NoDup (map fst m) ->
  In (k, g) (Views.addToGroup m k0 r w) ->
  (k <> k0 /\ In (k, g) m) \/
  (k = k0 /\
   exists g0, In (k0, g0) m /\
              g = Group.mk (Group.key g0) (Group.value g0)
                    (Group.revenue g0 + r) (Group.volume g0 + w)).
Proof.
  induction m as [|[k' g'] t IH]; simpl; intros Hnd Hin.
  - destruct Hin.
  - inversion Hnd as [|? ? Hnot Hnd']; subst.
    destruct (String.eqb k' k0) eqn:E.
    + apply String.eqb_eq in E. subst k'.
      destruct Hin as [Hin|Hin].
      * injection Hin as <- <-. right. split; [reflexivity|].
        exists g'. split; [now left | reflexivity].
      * left. split; [|now right].
        intros ->. apply Hnot. apply in_map_iff. now exists (k0, g).
    + apply String.eqb_neq in E. destruct Hin as [Hin|Hin].
      * injection Hin as <- <-. left. split; [exact E | now left].
      * destruct (IH Hnd' Hin) as [[Hk Hi]|[Hk (g0 & Hi & Hg)]].
        -- left. split; [exact Hk | now right].
        -- right. split; [exact Hk|]. exists g0. split; [now right | exact Hg].
Qed.

(** What the [Map] of [groupByKey] holds after the loop: a key for every
    value of the field, in the order of first appearance, and under each
    key the sums over the records that have it. *)
Lemma groups_spec (key : groupKey) (data : list Weekly.t) :
  let m := fold_left (Views.collect key) data [] in
  map fst m = setOf String.eqb (map (keyValue key) data) /\
  (forall k g,
      In (k, g) m ->
      Group.key g = key /\ Group.value g = k /\
      Group.revenue g
        = sumOf Weekly.revenue
            (filter (fun d => String.eqb (keyValue key d) k) data) /\
      Group.volume g
        = sumOf Weekly.volume
            (filter (fun d => String.eqb (keyValue key d) k) data)).
Proof.
  induction data as [|d data IH] using rev_ind; cbv zeta.
  - simpl. split; [reflexivity | intros k g []].
  - cbv zeta in IH. destruct IH as [Hkeys Hsum].
    rewrite fold_left_app. cbn [fold_left].
    set (m := fold_left (Views.collect key) data []) in *.
    set (keyOf := keyValue key) in *.
    assert (Hnd : NoDup (map fst m))
      by (rewrite Hkeys; apply (setOf_NoDup String.eqb String_eqb_spec')).
    assert (Hmem : forall k, In k (map fst m) <-> In k (map keyOf data))
      by (intros k; rewrite Hkeys;
          apply (setOf_In String.eqb String_eqb_spec')).
    assert (Hfilter : forall k,
               filter (fun d' => String.eqb (keyOf d') k) (data ++ [d])
               = filter (fun d' => String.eqb (keyOf d') k) data
                 ++ (if String.eqb (keyOf d) k then [d] else [])).
    { intros k. rewrite filter_app. simpl.
      now destruct (String.eqb (keyOf d) k). }
    unfold Views.collect. fold keyOf.
    rewrite (map_app keyOf). cbn [map].
    rewrite (setOf_snoc String.eqb String_eqb_spec').
    destruct (hasKey m (keyOf d)) eqn:E.
    + assert (Hin : In (keyOf d) (map keyOf data))
        by (apply Hmem, hasKey_In; exact E).
      replace (existsb (String.eqb (keyOf d)) (map keyOf data)) with true
        by (symmetry; now apply (existsb_eqb_In String.eqb String_eqb_spec')).
      split; [now rewrite addToGroup_keys|].
      intros k g Hg. rewrite !Hfilter.
      apply addToGroup_In in Hg as [[Hk Hg]|[-> (g0 & Hg0 & ->)]];
        [| |exact Hnd].
      * destruct (Hsum k g Hg) as (Hk1 & Hk2 & Hr & Hv).
        replace (String.eqb (keyOf d) k) with false
          by (symmetry; apply String.eqb_neq; congruence).
        now rewrite app_nil_r.
      * destruct (Hsum _ g0 Hg0) as (Hk1 & Hk2 & Hr & Hv).
        rewrite String.eqb_refl, !sumOf_app, !sumOf_cons, !sumOf_nil. simpl.
        rewrite Hr, Hv. repeat split; try assumption; lra.
    + assert (Hnot : ~ In (keyOf d) (map keyOf data)).
      { intros H. apply Hmem, hasKey_In in H. congruence. }
      replace (existsb (String.eqb (keyOf d)) (map keyOf data)) with false.
      2:{ symmetry. apply not_true_is_false. intros H.
          apply (existsb_eqb_In String.eqb String_eqb_spec') in H.
          contradiction. }
      split; [now rewrite addToGroup_keys, map_app, Hkeys|].
      intros k g Hg. rewrite !Hfilter.
      assert (Hnd1 : NoDup (map fst (m ++ [(keyOf d, Group.mk key (keyOf d) 0 0)]))).
      { rewrite map_app. simpl. apply NoDup_app; [exact Hnd | | ].
        - constructor; [intros [] | constructor].
        - intros x Hx [<-|[]]. apply Hnot, Hmem, Hx. }
      apply addToGroup_In in Hg as [[Hk Hg]|[-> (g0 & Hg0 & ->)]];
        [| |exact Hnd1].
      * apply in_app_or in Hg as [Hg|[Hg|[]]]; [|congruence].
        destruct (Hsum k g Hg) as (Hk1 & Hk2 & Hr & Hv).
        replace (String.eqb (keyOf d) k) with false
          by (symmetry; apply String.eqb_neq; congruence).
        now rewrite app_nil_r.
      * apply in_app_or in Hg0 as [Hg0|[Hg0|[]]].
        { exfalso. apply Hnot, Hmem, in_map_iff. now exists (keyOf d, g0). }
        injection Hg0 as <-.
        rewrite String.eqb_refl,
          (filter_none (fun d' => String.eqb (keyOf d') (keyOf d)) data).
        2:{ intros x Hx. apply String.eqb_neq. intros Hk. apply Hnot.
            rewrite <- Hk. now apply in_map. }
        simpl. rewrite !sumOf_cons, !sumOf_nil. simpl.
        repeat split; lra.
Qed.

Lemma group_eta (g : Group.t) :
  g = Group.mk (Group.key g) (Group.value g) (Group.revenue g)
        (Group.volume g).
Proof. now destruct g. Qed.

(** A stable sort keeps, among elements that tie with one another, the
    order they had. *)
Lemma sortBy_stable {A : Type} (le : A -> A -> bool) (p : A -> bool)
  (l : list A) :
  (forall x y, p x = true -> p y = true -> le x y = true) ->
  filter p (sortBy le l) = filter p l.
Proof.
  intros Htie.
  assert (Hins : forall x l', filter p (insertBy le x l') = filter p (x :: l')).
  { intros x l'. induction l' as [|z l' IH]; simpl.
    - reflexivity.
    - destruct (le x z) eqn:E; [reflexivity|].
      simpl. simpl in IH. rewrite IH.
      destruct (p x) eqn:Px; [|reflexivity].
      destruct (p z) eqn:Pz; [|reflexivity].
      rewrite (Htie x z Px Pz) in E. discriminate. }
  induction l as [|x l IH]; simpl.
  - reflexivity.
  - rewrite Hins. simpl. now rewrite IH.
Qed.

Lemma revenueDescending_total (a b : Group.t) :
  Views.revenueDescending a b = true \/ Views.revenueDescending b a = true.
Proof.
  unfold Views.revenueDescending.
  destruct (Rle_dec (Group.revenue b) (Group.revenue a));
    destruct (Rle_dec (Group.revenue a) (Group.revenue b)); auto. lra.
Qed.

Lemma revenueDescending_trans (a b c : Group.t) :
  Views.revenueDescending a b = true -> Views.revenueDescending b c = true ->
  Views.revenueDescending a c = true.
Proof.
  unfold Views.revenueDescending.
  destruct (Rle_dec (Group.revenue b) (Group.revenue a));
    destruct (Rle_dec (Group.revenue c) (Group.revenue b));
    destruct (Rle_dec (Group.revenue c) (Group.revenue a));
    try discriminate; auto. lra.
Qed.

Lemma sortBy_revenueDescending (groups : list Group.t) :
  StronglySorted (fun a b => (Group.revenue b <= Group.revenue a)%R)
    (sortBy Views.revenueDescending groups).
Proof.
  pose proof (sortBy_sorted Views.revenueDescending
                revenueDescending_total revenueDescending_trans groups) as Hs.
  induction Hs as [|a l Hs IH Hall]; constructor; [exact IH|].
  eapply Forall_impl; [|exact Hall]. intros b Hb.
  unfold Views.revenueDescending in Hb.
  destruct (Rle_dec (Group.revenue b) (Group.revenue a));
    [assumption | discriminate].
Qed.

(** The groups of [groupByKey] before the sort: one for each value of the
    key, in the order of first occurrence, each with the sums of its
    records in their order. *)
Lemma groupByKey_groups (data : list Weekly.t) (key : groupKey) :
  Views.groupByKey data key
  = sortBy Views.revenueDescending
      (map (fun k =>
              Group.mk key k
                (sumOf Weekly.revenue
                   (filter (fun d => String.eqb (keyValue key d) k) data))
                (sumOf Weekly.volume
                   (filter (fun d => String.eqb (keyValue key d) k) data)))
         (setOf String.eqb (map (keyValue key) data))).
Proof.
  destruct (groups_spec key data) as [Hkeys Hsum].
  unfold Views.groupByKey. f_equal.
  rewrite <- Hkeys, map_map. apply map_ext_in. intros [k g] Hg.
  destruct (Hsum k g Hg) as (Hk1 & Hk2 & Hr & Hv).
  destruct g as [gk gv gr gw]. simpl in *. now subst.
Qed.

(** X10. [groupByKey(data, key)] holds one group per distinct value of the
    field, with the sums of revenue and volume over the records of that
    value; the groups come by non-increasing revenue, groups of equal
    revenue in the order in which their values first appear in [data].
    Each sum is taken in the order of [data], starting from 0. *)
Theorem groupByKey_spec (data : list Weekly.t) (key : groupKey) :
  let groups :=
    map (fun k =>
           Group.mk key k
             (sumOf Weekly.revenue
                (filter (fun d => String.eqb (keyValue key d) k) data))
             (sumOf Weekly.volume
                (filter (fun d => String.eqb (keyValue key d) k) data)))
      (setOf String.eqb (map (keyValue key) data)) in
  Permutation (Views.groupByKey data key) groups /\
  StronglySorted (fun a b => (Group.revenue b <= Group.revenue a)%R)
    (Views.groupByKey data key) /\
  (forall r,
      filter (fun g => if Req_dec_T (Group.revenue g) r then true else false)
        (Views.groupByKey data key)
      = filter (fun g => if Req_dec_T (Group.revenue g) r then true else false)
          groups).
Proof.
  cbv zeta. rewrite groupByKey_groups.
  set (groups := map _ (setOf String.eqb (map (keyValue key) data))).
  split; [apply sortBy_perm|]. split.
  - apply sortBy_revenueDescending.
  - intros r. apply sortBy_stable. intros x y Hx Hy.
    unfold Views.revenueDescending.
    destruct (Req_dec_T (Group.revenue x) r); [|discriminate].
    destruct (Req_dec_T (Group.revenue y) r); [|discriminate].
    destruct (Rle_dec (Group.revenue y) (Group.revenue x)); [reflexivity|lra].
Qed.

Lemma sorted_firstn_skipn {A : Type} (Rel : A -> A -> Prop) (l : list A) :
  StronglySorted Rel l ->
  forall n a b, In a (firstn n l) -> In b (skipn n l) -> Rel a b.
Proof.
  induction 1 as [|x l Hs IH Hall]; intros n a b Ha Hb.
  - destruct n; destruct Ha.
  - destruct n as [|n]; [destruct Ha|].
    simpl in Ha, Hb. destruct Ha as [<-|Ha].
    + rewrite Forall_forall in Hall. apply Hall.
      rewrite <- (firstn_skipn n l). apply in_or_app. now right.
    + now apply (IH n).
Qed.

Lemma firstn_In {A : Type} (n : nat) (l : list A) (x : A) :
  In x (firstn n l) -> In x l.
Proof.
  intros H. rewrite <- (firstn_skipn n l). apply in_or_app. now left.
Qed.

Lemma volumeDescending_total (a b : Group.t) :
  Views.volumeDescending a b = true \/ Views.volumeDescending b a = true.
Proof.
  unfold Views.volumeDescending.
  destruct (Rle_dec (Group.volume b) (Group.volume a));
    destruct (Rle_dec (Group.volume a) (Group.volume b)); auto. lra.
Qed.

Lemma volumeDescending_trans (a b c : Group.t) :
  Views.volumeDescending a b = true -> Views.volumeDescending b c = true ->
  Views.volumeDescending a c = true.
Proof.
  unfold Views.volumeDescending.
  destruct (Rle_dec (Group.volume b) (Group.volume a));
    destruct (Rle_dec (Group.volume c) (Group.volume b));
    destruct (Rle_dec (Group.volume c) (Group.volume a));
    try discriminate; auto. lra.
Qed.

(** X11. [top10Rev] and [top10Vol] of the account groups hold at most ten
    groups, all taken from the account groups; no account left out of
    [top10Rev] has more revenue than one in it, and no account left out of
    [top10Vol] has more volume than one in it. *)
Theorem top10_spec (data : list Weekly.t) :
  let perAccount := Views.groupByAccount data in
  let byVolume := sortBy Views.volumeDescending perAccount in
  (List.length (Views.top10Rev perAccount) <= 10)%nat /\
  (List.length (Views.top10Vol perAccount) <= 10)%nat /\
  (forall g, In g (Views.top10Rev perAccount) -> In g perAccount) /\
  (forall g, In g (Views.top10Vol perAccount) -> In g perAccount) /\
  (forall a b, In a (Views.top10Rev perAccount) ->
               In b (skipn 10 perAccount) ->
               (Group.revenue b <= Group.revenue a)%R) /\
  (forall a b, In a (Views.top10Vol perAccount) ->
               In b (skipn 10 byVolume) ->
               (Group.volume b <= Group.volume a)%R) /\
  Permutation (Views.top10Vol perAccount ++ skipn 10 byVolume) perAccount.
Proof.
  cbv zeta. unfold Views.top10Rev, Views.top10Vol.
  set (perAccount := Views.groupByAccount data).
  split; [apply firstn_le_length|]. split; [apply firstn_le_length|].
  split; [intros g Hg; eapply firstn_In; exact Hg|].
  split.
  { intros g Hg. apply firstn_In in Hg.
    eapply Permutation_in; [apply sortBy_perm | exact Hg]. }
  split.
  - assert (Hs : StronglySorted
                     (fun a b => (Group.revenue b <= Group.revenue a)%R)
                     perAccount)
      by apply sortBy_revenueDescending.
    intros a b Ha Hb.
    apply (sorted_firstn_skipn _ _ Hs 10%nat a b Ha Hb).
  - split.
    + assert (Hs : StronglySorted
                     (fun a b => (Group.volume b <= Group.volume a)%R)
                     (sortBy Views.volumeDescending perAccount)).
      { pose proof (sortBy_sorted Views.volumeDescending
                      volumeDescending_total volumeDescending_trans
                      perAccount) as Hs.
        induction Hs as [|a l Hs IH Hall]; constructor; [exact IH|].
        eapply Forall_impl; [|exact Hall]. intros b Hb.
        unfold Views.volumeDescending in Hb.
        destruct (Rle_dec (Group.volume b) (Group.volume a));
          [assumption | discriminate]. }
      intros a b Ha Hb. apply (sorted_firstn_skipn _ _ Hs 10%nat a b Ha Hb).
    + rewrite firstn_skipn. apply sortBy_perm.
Qed.

(** ** Edge cases of the page's figures *)

(** X12. Over an empty record set (for instance when the filters let
    nothing through) every figure of the page is 0: the overall totals
    for any period, the monthly averages (the guard on the number of
    buckets gives 0), year-to-date, month-to-date, the average per month
    (0 divided by the cutoff, or the guard's 0) and the forecast for any
    cutoff and adjustment; the groupings are empty and the overlay shows
    twelve zeros. *)
Theorem no_records_all_zero
  (withMonthName : bool) (period : string) (key : groupKey)
  (cutoff : Z) (adjPct : R) (f : Bucket.t -> R) :
  let series := Dashboard.aggregate withMonthName [] period in
  let monthly := Dashboard.aggregate withMonthName [] "Monthly" in
  Views.overall Bucket.revenue series = 0%R /\
  Views.overall Bucket.volume series = 0%R /\
  Views.avgMonthlyOf f monthly = 0%R /\
  Dashboard.ytd f monthly cutoff = 0%R /\
  Dashboard.mtd f monthly cutoff = 0%R /\
  Dashboard.avgPerMonth f monthly cutoff = 0%R /\
  Dashboard.forecast f monthly cutoff adjPct = 0%R /\
  Views.groupByKey [] key = [] /\
  Views.overlay f monthly = map (fun m => (m, 0%R)) (map Z.of_nat (seq 1 12)).
Proof.
  cbv zeta.
  assert (Hm : Dashboard.aggregate withMonthName [] "Monthly" = [])
    by reflexivity.
  rewrite Hm.
  assert (Hy : Dashboard.ytd f [] cutoff = 0%R) by reflexivity.
  assert (Ha : Dashboard.avgPerMonth f [] cutoff = 0%R).
  { unfold Dashboard.avgPerMonth. rewrite Hy.
    destruct (0 <? cutoff) eqn:E; [|reflexivity].
    apply Z.ltb_lt in E. unfold Rdiv. apply Rmult_0_l. }
  split; [|split].
  - unfold Dashboard.aggregate, Views.overall.
    destruct (String.eqb period "Weekly"); [reflexivity|].
    destruct (String.eqb period "Monthly"); [reflexivity|].
    simpl. rewrite sumOf_cons, sumOf_nil. simpl. lra.
  - unfold Dashboard.aggregate, Views.overall.
    destruct (String.eqb period "Weekly"); [reflexivity|].
    destruct (String.eqb period "Monthly"); [reflexivity|].
    simpl. rewrite sumOf_cons, sumOf_nil. simpl. lra.
  - repeat (split; [reflexivity|]). split; [exact Ha|].
    split; [|split; reflexivity].
    unfold Dashboard.forecast. rewrite Hy, Ha. lra.
Qed.

(** X13. When every month 1..12 is the month of some record, the overlay
    series shows under month [m] the sum over the records of month [m]
    (the chart reads the monthly aggregate by position, which is then the
    month minus one). *)
Theorem overlay_full_year (withMonthName : bool) (data : list Weekly.t) :
  (forall m, 1 <= m <= 12 -> exists d, In d data /\ monthOf d = m) ->
  Views.overlay Bucket.revenue
    (Dashboard.aggregate withMonthName data "Monthly")
  = map (fun m =>
           (m, sumOf Weekly.revenue (filter (fun d => monthOf d =? m) data)))
      monthsOfYear /\
  Views.overlay Bucket.volume
    (Dashboard.aggregate withMonthName data "Monthly")
  = map (fun m =>
           (m, sumOf Weekly.volume (filter (fun d => monthOf d =? m) data)))
      monthsOfYear.
Proof.
  intros Hall. rewrite (monthly_full_year withMonthName data Hall).
  split; reflexivity.
Qed.

Lemma overlay_full_year_witness :
  List.length
    (Views.overlay Bucket.revenue
       (Dashboard.aggregate true yearOfWeeks "Monthly")) = 12%nat.
Proof.
  destruct (overlay_full_year true yearOfWeeks yearOfWeeks_months) as [-> _].
  reflexivity.
Defined.

(** X14. In a monthly series that has a single bucket (all records fall in
    one month, as when every uploaded row names the same start month) the
    overlay shows that bucket under month 1, whatever its month is, and 0
    under months 2..12. *)
Theorem overlay_single_month
  (withMonthName : bool) (data : list Weekly.t) (m : Z) (d0 : Weekly.t) :
  In d0 data ->
  (forall d, In d data -> monthOf d = m) ->
  Views.overlay Bucket.revenue
    (Dashboard.aggregate withMonthName data "Monthly")
  = (1, sumOf Weekly.revenue data)
    :: map (fun k => (k, 0%R)) (map Z.of_nat (seq 2 11)).
Proof.
  intros Hin Hall.
  destruct (monthly_buckets withMonthName data) as (ks & Hs & Hm & ->).
  assert (Hks : ks = [m]).
  { apply strictly_sorted_unique; [exact Hs | repeat constructor |].
    intros k. rewrite Hm. simpl. split.
    - intros (d & Hd & <-). left. symmetry. now apply Hall.
    - intros [<-|[]]. exists d0. split; [exact Hin | now apply Hall]. }
  rewrite Hks. unfold Views.overlay. simpl.
  rewrite (filter_all _ data); [reflexivity|].
  intros d Hd. apply Z.eqb_eq. now apply Hall.
Qed.

Lemma overlay_single_month_witness :
  Views.overlay Bucket.revenue (Dashboard.aggregate false [retailRecord] "Monthly")
  = (1, sumOf Weekly.revenue [retailRecord])
    :: map (fun k => (k, 0%R)) (map Z.of_nat (seq 2 11)).
Proof.
  apply (overlay_single_month false [retailRecord] 2 retailRecord).
  - now left.
  - intros d [<-|[]]. reflexivity.
Defined.

(** ** The parsers: outcomes *)

Lemma basic_normalizeRows_length numberToString parseFloat fullYear
  currentWeek random (rows : list row) :
  forall index k,
    List.length
      (Basic.normalizeRows numberToString parseFloat fullYear currentWeek
         random index rows k)
    = List.length rows.
Proof.
  induction rows as [|r rows IH]; intros index k; simpl.
  - reflexivity.
  - destruct (Basic.normalizeRow _ _ _ _ _ index r k) as [d k']. simpl.
    now rewrite IH.
Qed.

Lemma basic_parse_finish spread numberToString parseFloat fullYear
  currentWeek random (first : row) (rest : list row) :
  (3 <= List.length (Basic.foundColumns (keys first)))%nat ->
  Basic.parseExcelFile spread numberToString parseFloat fullYear currentWeek
    random (first :: rest)
  = finish spread (keys first)
      (Basic.normalizeRows numberToString parseFloat fullYear currentWeek
         random 0 (first :: rest) 0).
Proof.
  intros H. unfold Basic.parseExcelFile.
  replace (List.length (Basic.foundColumns (keys first)) <? 3)%nat with false
    by (symmetry; apply Nat.ltb_ge; exact H).
  destruct (Basic.normalizeRows _ _ _ _ _ 0 (first :: rest) 0) eqn:E.
  - apply (f_equal (@List.length _)) in E.
    rewrite basic_normalizeRows_length in E. discriminate.
  - reflexivity.
Qed.

Lemma finish_cases (spread : nat -> option string) (cols : list string)
  (data : list Weekly.t) :
  let distinctYears := List.length (setOf Z.eqb (map Weekly.year data)) in
  (spread distinctYears = None /\ spread (List.length data) = None /\
   finish spread cols data = Resolved (buildResult cols data))
  \/ (exists n message,
         (n = distinctYears \/ n = List.length data) /\
         spread n = Some message /\
         finish spread cols data
         = Rejected ("Failed to parse Excel file: " ++ message)%string).
Proof.
  cbv zeta. unfold finish, spreadError.
  replace (List.length (years (buildResult cols data)))
    with (List.length (setOf Z.eqb (map Weekly.year data)))
    by (unfold buildResult, sortDefault; cbn [years];
        now rewrite length_sortBy).
  replace (weekly (buildResult cols data)) with data by reflexivity.
  destruct (spread (List.length (setOf Z.eqb (map Weekly.year data))))
    as [m|] eqn:E1.
  - right. exists (List.length (setOf Z.eqb (map Weekly.year data))), m.
    split; [now left|]. now split.
  - destruct (spread (List.length data)) as [m|] eqn:E2.
    + right. exists (List.length data), m. split; [now right|]. now split.
    + left. now repeat split.
Qed.

(** X15. Both parsers have exactly four outcomes: an empty sheet is
    rejected with 'Excel file is empty'; a non-empty sheet with fewer
    recognised columns than the threshold (2, respectively 3) is rejected
    with the columns message; a sheet for which one of the spread calls
    of the result literal throws ([Math.max(...years)] over the distinct
    years, [Math.min(...)] and [Math.max(...)] over the weeks of all
    records: 52 per row, respectively one per row) is rejected with
    'Failed to parse Excel file: ' followed by the message of the error;
    every other sheet is resolved.  No row is ever dropped, so the
    rejection 'No valid data rows found after transformation' never
    happens. *)
Theorem parse_outcomes
  spread numberToString parseFloat fullYear getMonth currentWeek random
  (jsonData : list row) :
  let rich :=
    Rich.parseExcelFile spread numberToString parseFloat fullYear getMonth
      random jsonData in
  let basic :=
    Basic.parseExcelFile spread numberToString parseFloat fullYear
      currentWeek random jsonData in
  let richData :=
    Rich.expand
      (Rich.normalizeRows numberToString parseFloat fullYear getMonth random
         0 jsonData 0) in
  let basicData :=
    Basic.normalizeRows numberToString parseFloat fullYear currentWeek
      random 0 jsonData 0 in
  let distinctYears := fun data =>
    List.length (setOf Z.eqb (map Weekly.year data)) in
  (jsonData = [] ->
   rich = Rejected "Excel file is empty" /\
   basic = Rejected "Excel file is empty") /\
  (forall first rest,
      jsonData = first :: rest ->
      ((List.length (Rich.foundColumns (keys first)) < 2)%nat ->
       rich = Rejected (Rich.notEnoughColumns (Rich.foundColumns (keys first))
                          (keys first))) /\
      ((List.length (Basic.foundColumns (keys first)) < 3)%nat ->
       basic = Rejected (Basic.notEnoughColumns
                           (Basic.foundColumns (keys first)))) /\
      ((exists r, rich = Resolved r) <->
       (2 <= List.length (Rich.foundColumns (keys first)))%nat /\
       spread (distinctYears richData) = None /\
       spread (52 * List.length jsonData)%nat = None) /\
      ((exists r, basic = Resolved r) <->
       (3 <= List.length (Basic.foundColumns (keys first)))%nat /\
       spread (distinctYears basicData) = None /\
       spread (List.length jsonData) = None) /\
      ((2 <= List.length (Rich.foundColumns (keys first)))%nat ->
       (forall r, rich <> Resolved r) ->
       exists n message,
         (n = distinctYears richData \/ n = (52 * List.length jsonData)%nat)
         /\ spread n = Some message
         /\ rich = Rejected ("Failed to parse Excel file: " ++ message)%string)
      /\
      ((3 <= List.length (Basic.foundColumns (keys first)))%nat ->
       (forall r, basic <> Resolved r) ->
       exists n message,
         (n = distinctYears basicData \/ n = List.length jsonData)
         /\ spread n = Some message
         /\ basic
            = Rejected ("Failed to parse Excel file: " ++ message)%string)) /\
  rich <> Rejected "No valid data rows found after transformation" /\
  basic <> Rejected "No valid data rows found after transformation".
Proof.
  cbv zeta. split; [intros ->; split; reflexivity|].
  assert (Hrl : forall rows,
             List.length
               (Rich.expand
                  (Rich.normalizeRows numberToString parseFloat fullYear
                     getMonth random 0 rows 0))
             = (52 * List.length rows)%nat).
  { intros rows. now rewrite expand_length, rich_normalizeRows_length. }
  assert (Hbl : forall rows,
             List.length
               (Basic.normalizeRows numberToString parseFloat fullYear
                  currentWeek random 0 rows 0)
             = List.length rows).
  { intros rows. apply basic_normalizeRows_length. }
  assert (Hprefix : forall m,
             ("Failed to parse Excel file: " ++ m)%string
             <> "No valid data rows found after transformation").
  { intros m. simpl. discriminate. }
  split.
  - intros first rest ->.
    split.
    { intros Hc. unfold Rich.parseExcelFile. apply Nat.ltb_lt in Hc.
      now rewrite Hc. }
    split.
    { intros Hc. unfold Basic.parseExcelFile. apply Nat.ltb_lt in Hc.
      now rewrite Hc. }
    split; [|split; [|split]].
    + split.
      * intros [r Hr].
        destruct (rich_parse_inv _ _ _ _ _ _ _ _ Hr) as (f & t & Hj & Hc & _).
        injection Hj as <- <-. split; [exact Hc|].
        rewrite (rich_parse_finish _ _ _ _ _ spread first rest Hc) in Hr.
        destruct (finish_cases spread (keys first)
                    (Rich.expand
                       (Rich.normalizeRows numberToString parseFloat fullYear
                          getMonth random 0 (first :: rest) 0)))
          as [(H1 & H2 & _)|(n & m & _ & _ & E)].
        -- rewrite Hrl in H2. now split.
        -- rewrite E in Hr. discriminate.
      * intros (Hc & H1 & H2).
        rewrite (rich_parse_finish _ _ _ _ _ spread first rest Hc).
        destruct (finish_cases spread (keys first)
                    (Rich.expand
                       (Rich.normalizeRows numberToString parseFloat fullYear
                          getMonth random 0 (first :: rest) 0)))
          as [(_ & _ & E)|(n & m & [-> | ->] & Hn & _)].
        -- eexists. exact E.
        -- cbv zeta in Hn. congruence.
        -- rewrite Hrl in Hn. congruence.
    + split.
      * intros [r Hr].
        destruct (basic_parse_inv _ _ _ _ _ _ _ _ Hr) as (f & t & Hj & Hc & _).
        injection Hj as <- <-. split; [exact Hc|].
        rewrite (basic_parse_finish _ _ _ _ _ _ first rest Hc) in Hr.
        destruct (finish_cases spread (keys first)
                    (Basic.normalizeRows numberToString parseFloat fullYear
                       currentWeek random 0 (first :: rest) 0))
          as [(H1 & H2 & _)|(n & m & _ & _ & E)].
        -- rewrite Hbl in H2. now split.
        -- rewrite E in Hr. discriminate.
      * intros (Hc & H1 & H2).
        rewrite (basic_parse_finish _ _ _ _ _ _ first rest Hc).
        destruct (finish_cases spread (keys first)
                    (Basic.normalizeRows numberToString parseFloat fullYear
                       currentWeek random 0 (first :: rest) 0))
          as [(_ & _ & E)|(n & m & [-> | ->] & Hn & _)].
        -- eexists. exact E.
        -- cbv zeta in Hn. congruence.
        -- rewrite Hbl in Hn. congruence.
    + intros Hc Hno.
      rewrite (rich_parse_finish _ _ _ _ _ spread first rest Hc) in *.
      destruct (finish_cases spread (keys first)
                  (Rich.expand
                     (Rich.normalizeRows numberToString parseFloat fullYear
                        getMonth random 0 (first :: rest) 0)))
        as [(_ & _ & E)|(n & m & Hn & Hs & E)].
      * exfalso. now apply (Hno _ E).
      * exists n, m. rewrite Hrl in Hn. cbv zeta in Hn. now repeat split.
    + intros Hc Hno.
      rewrite (basic_parse_finish _ _ _ _ _ _ first rest Hc) in *.
      destruct (finish_cases spread (keys first)
                  (Basic.normalizeRows numberToString parseFloat fullYear
                     currentWeek random 0 (first :: rest) 0))
        as [(_ & _ & E)|(n & m & Hn & Hs & E)].
      * exfalso. now apply (Hno _ E).
      * exists n, m. rewrite Hbl in Hn. cbv zeta in Hn. now repeat split.
  - destruct jsonData as [|first rest]; [split; discriminate|]. split.
    + destruct (le_lt_dec 2 (List.length (Rich.foundColumns (keys first))))
        as [Hc|Hc].
      * rewrite (rich_parse_finish _ _ _ _ _ spread first rest Hc).
        destruct (finish_cases spread (keys first)
                    (Rich.expand
                       (Rich.normalizeRows numberToString parseFloat fullYear
                          getMonth random 0 (first :: rest) 0)))
          as [(_ & _ & ->)|(n & m & _ & _ & ->)]; [discriminate|].
        intros E. injection E as E. now apply (Hprefix m).
      * unfold Rich.parseExcelFile. apply Nat.ltb_lt in Hc. rewrite Hc.
        unfold Rich.notEnoughColumns. simpl. discriminate.
    + destruct (le_lt_dec 3 (List.length (Basic.foundColumns (keys first))))
        as [Hc|Hc].
      * rewrite (basic_parse_finish _ _ _ _ _ _ first rest Hc).
        destruct (finish_cases spread (keys first)
                    (Basic.normalizeRows numberToString parseFloat fullYear
                       currentWeek random 0 (first :: rest) 0))
          as [(_ & _ & ->)|(n & m & _ & _ & ->)]; [discriminate|].
        intros E. injection E as E. now apply (Hprefix m).
      * unfold Basic.parseExcelFile. apply Nat.ltb_lt in Hc. rewrite Hc.
        unfold Basic.notEnoughColumns. simpl. discriminate.
Qed.

(** ** The richer parser: what every record satisfies *)

Section RichRecords.

Variable spread : nat -> option string.
Variable numberToString : R -> string.
Variable parseFloat : string -> option R.
Variable fullYear : Z.
Variable getMonth : Z.
Variable random : nat -> R.
Hypothesis random_range : forall k, (0 <= random k < 1)%R.

Local Abbreviation normalizeRow :=
  (Rich.normalizeRow numberToString parseFloat fullYear getMonth random).
Local Abbreviation normalizeRows :=
  (Rich.normalizeRows numberToString parseFloat fullYear getMonth random).
Local Abbreviation parseExcelFile :=
  (Rich.parseExcelFile spread numberToString parseFloat fullYear
      getMonth random).

Lemma parseFigure_nonneg (clean : string -> string) (v : value) :
  (0 <= Rich.parseFigure numberToString parseFloat clean v)%R.
Proof.
  unfold Rich.parseFigure. destruct (truthy v); [|lra].
  destruct (parseFloat _) as [x|]; [|lra].
  destruct (Rlt_dec 0 x); lra.
Qed.

Lemma normalized_positive (index : nat) (raw : row) (k : nat) :
  let a := fst (normalizeRow index raw k) in
  (0 < Normalized.monthlyRevenue a)%R /\
  (0 < Normalized.monthlyVolume a)%R /\
  Normalized.endYear a
  = Normalized.startYear a + Normalized.yearsOfEngagement a - 1.
Proof.
  cbv zeta. unfold Rich.normalizeRow.
  pose proof (parseFigure_nonneg Rich.cleanRevenue
                (get raw "Monthly Sales Forecast")) as Hr.
  pose proof (parseFigure_nonneg Rich.cleanVolume
                (get raw "Committed Monthly Volume")) as Hv.
  pose proof (random_range k) as Hk.
  pose proof (random_range (S k)) as Hk1.
  destruct (Req_dec_T _ _) as [Er|Er]; destruct (Req_dec_T _ _) as [Ev|Ev];
    simpl; repeat split; intros; try lra.
Qed.

(** X16. In the richer parser the monthly figures of a row are either
    what its cells hold or a fallback in a fixed interval: when the
    revenue cell yields a positive number that number is taken, otherwise
    the figure is [500000 + random * 2000000], in [500000, 2500000]; when
    the volume cell yields a positive number that number is taken,
    otherwise a fallback in [50, 550].  So both figures are
    always positive, and [endYear] is [startYear + yearsOfEngagement - 1]. *)
Theorem rich_normalized_figures (index : nat) (raw : row) (k : nat) :
  let a := fst (normalizeRow index raw k) in
  let revenue := revenueRead numberToString parseFloat raw in
  let volume := volumeRead numberToString parseFloat raw in
  (revenue <> 0%R -> Normalized.monthlyRevenue a = revenue) /\
  (revenue = 0%R ->
   Normalized.monthlyRevenue a = (500000 + random k * 2000000)%R /\
   (500000 <= Normalized.monthlyRevenue a <= 2500000)%R) /\
  (volume <> 0%R -> Normalized.monthlyVolume a = volume) /\
  (volume = 0%R -> (50 <= Normalized.monthlyVolume a <= 550)%R) /\
  (0 < Normalized.monthlyRevenue a)%R /\
  (0 < Normalized.monthlyVolume a)%R /\
  Normalized.endYear a
  = Normalized.startYear a + Normalized.yearsOfEngagement a - 1.
Proof.
  cbv zeta. unfold revenueRead, volumeRead, Rich.normalizeRow.
  pose proof (parseFigure_nonneg Rich.cleanRevenue
                (get raw "Monthly Sales Forecast")) as Hr.
  pose proof (parseFigure_nonneg Rich.cleanVolume
                (get raw "Committed Monthly Volume")) as Hv.
  pose proof (random_range k) as Hk.
  pose proof (random_range (S k)) as Hk1.
  destruct (Req_dec_T _ _) as [Er|Er]; destruct (Req_dec_T _ _) as [Ev|Ev];
    simpl; repeat split; intros; try lra; try contradiction.
Qed.

Lemma rich_normalizeRows_In (rows : list row) :
  forall index k a,
    In a (normalizeRows index rows k) ->
    exists index' raw k', In raw rows /\ a = fst (normalizeRow index' raw k').
Proof.
  induction rows as [|r rows IH]; intros index k a Ha; simpl in Ha.
  - destruct Ha.
  - destruct (normalizeRow index r k) as [a0 k1] eqn:E.
    destruct Ha as [<-|Ha].
    + exists index, r, k. split; [now left | now rewrite E].
    + destruct (IH _ _ _ Ha) as (i' & raw & k' & Hin & ->).
      exists i', raw, k'. split; [now right | reflexivity].
Qed.

(** X17. Every weekly record of a resolved parse of the richer parser has
    its week in 1..52 and carries the start fields of its row; it has a
    positive revenue and volume when the month of its week,
    [ceil(week / 4.345)], has reached [startMonth] and
    [yearsOfEngagement] is at least 1, and revenue and volume 0
    otherwise.  In particular no figure is negative. *)
Theorem rich_records_window (jsonData : list row) (r : result) (d : Weekly.t) :
  parseExcelFile jsonData = Resolved r ->
  In d (weekly r) ->
  exists e,
    Weekly.ext d = Some e /\
    1 <= Weekly.week d <= 52 /\
    Ext.endYear e = Ext.startYear e + Ext.yearsOfEngagement e - 1 /\
    (Ext.startMonth e <= ceilWeeks (Weekly.week d)
     /\ 1 <= Ext.yearsOfEngagement e ->
     (0 < Weekly.revenue d)%R /\ (0 < Weekly.volume d)%R) /\
    (~ (Ext.startMonth e <= ceilWeeks (Weekly.week d)
        /\ 1 <= Ext.yearsOfEngagement e) ->
     Weekly.revenue d = 0%R /\ Weekly.volume d = 0%R) /\
    (0 <= Weekly.revenue d)%R /\ (0 <= Weekly.volume d)%R.
Proof.
  intros H Hd.
  destruct (rich_parse_inv _ _ _ _ _ _ jsonData r H) as (first & rest & Hj & _ & ->).
  unfold buildResult in Hd; simpl in Hd. unfold Rich.expand in Hd.
  apply in_chunks in Hd as (w & a & Hw & Ha & ->).
  apply weeks_in in Hw.
  apply rich_normalizeRows_In in Ha as (index & raw & k & _ & ->).
  destruct (normalized_positive index raw k) as (Hrev & Hvol & Hend).
  set (a := fst (normalizeRow index raw k)) in *.
  eexists. split; [reflexivity|]. simpl.
  split; [exact Hw|]. split; [exact Hend|].
  pose proof (seasonalFactor_pos w) as Hs.
  assert (Hpos : forall x, (0 < x)%R -> (0 < x / 4.345 * Rich.seasonalFactor w)%R).
  { intros x Hx. apply Rmult_lt_0_compat; [|exact Hs].
    apply Rdiv_lt_0_compat; lra. }
  assert (Hc : Rich.shouldContribute w a = true <->
               Normalized.startMonth a <= ceilWeeks w
               /\ 1 <= Normalized.yearsOfEngagement a).
  { unfold Rich.shouldContribute, Rich.weekMonth.
    rewrite andb_true_iff, !Z.leb_le, Hend. lia. }
  destruct (Rich.shouldContribute w a) eqn:E.
  - pose proof (Hpos _ Hrev). pose proof (Hpos _ Hvol).
    split; [intros _; split; lra|].
    split; [intros Hn; exfalso; apply Hn; now apply Hc|].
    split; lra.
  - split; [intros Hy; apply Hc in Hy; discriminate|].
    split; [intros _; split; reflexivity|].
    split; lra.
Qed.

End RichRecords.

Lemma rich_records_window_witness :
  (forall k : nat, (0 <= (fun _ : nat => 0%R) k < 1)%R) /\
  (forall d, In d (weekly (sampleResult (fun _ => 0%R))) ->
             (0 <= Weekly.revenue d)%R /\ 1 <= Weekly.week d <= 52).
Proof.
  split; [intros k; simpl; lra|].
  intros d Hd.
  destruct (rich_records_window sampleSpread sampleNumberToString
           sampleParseFloat 2025 7
              (fun _ => 0%R) (fun k => conj (Rle_refl 0) Rlt_0_1)
              sampleSheet (sampleResult (fun _ => 0%R)) d
              (sample_resolved _) Hd)
    as (e & _ & Hw & _ & _ & _ & Hr & _).
  split; assumption.
Defined.

Lemma rich_normalized_figures_witness :
  (forall k : nat, (0 <= (fun _ : nat => 0%R) k < 1)%R) /\
  (0 < Normalized.monthlyRevenue
         (fst (Rich.normalizeRow sampleNumberToString sampleParseFloat 2025 7
                 (fun _ => 0%R) 0 bareRow 0)))%R.
Proof.
  split; [intros k; simpl; lra|].
  apply (rich_normalized_figures sampleNumberToString sampleParseFloat 2025 7
           (fun _ => 0%R) (fun k => conj (Rle_refl 0) Rlt_0_1) 0 bareRow 0).
Defined.

(** ** The accounts of a parse *)

Lemma find_snoc {A : Type} (p : A -> bool) (l : list A) (x : A) :
  find p (l ++ [x])
  = match find p l with
    | Some y => Some y
    | None => if p x then Some x else None
    end.
Proof.
  induction l as [|z l IH]; simpl.
  - reflexivity.
  - destruct (p z); [reflexivity | exact IH].
Qed.

Lemma accountMap_spec (data : list Weekly.t) :
  let m := accountMap data in
  map fst m = setOf String.eqb (map Weekly.account data) /\
  map (fun e => Account.id (snd e)) m = seq 1 (List.length m) /\
  (forall k a,
      In (k, a) m ->
      exists d,
        firstNamed data k = Some d /\
        a = Account.mk (Account.id a) k (Weekly.industry d) (Weekly.area d)
              (Weekly.agent d) (Weekly.status d) 0%R 0%R (Weekly.ext d)).
Proof.
  unfold accountMap.
  induction data as [|d data IH] using rev_ind; cbv zeta.
  - simpl. repeat split. intros k a [].
  - cbv zeta in IH. destruct IH as (Hkeys & Hids & Hfirst).
    rewrite fold_left_app. cbn [fold_left].
    set (m := fold_left addAccount data []) in *.
    assert (Hmem : forall k, In k (map fst m) <-> In k (map Weekly.account data))
      by (intros k; rewrite Hkeys;
          apply (setOf_In String.eqb String_eqb_spec')).
    unfold addAccount.
    rewrite (map_app Weekly.account). cbn [map].
    rewrite (setOf_snoc String.eqb String_eqb_spec').
    destruct (hasKey m (Weekly.account d)) eqn:E.
    + assert (Hin : In (Weekly.account d) (map Weekly.account data))
        by (apply Hmem, hasKey_In; exact E).
      replace (existsb (String.eqb (Weekly.account d))
                 (map Weekly.account data)) with true
        by (symmetry; now apply (existsb_eqb_In String.eqb String_eqb_spec')).
      split; [exact Hkeys|]. split; [exact Hids|].
      intros k a Ha. destruct (Hfirst k a Ha) as (d' & Hd' & Heq).
      exists d'. split; [|exact Heq].
      unfold firstNamed in *. now rewrite find_snoc, Hd'.
    + assert (Hnot : ~ In (Weekly.account d) (map Weekly.account data)).
      { intros H. apply Hmem, hasKey_In in H. congruence. }
      replace (existsb (String.eqb (Weekly.account d))
                 (map Weekly.account data)) with false.
      2:{ symmetry. apply not_true_is_false. intros H.
          apply (existsb_eqb_In String.eqb String_eqb_spec') in H.
          contradiction. }
      split; [now rewrite map_app, Hkeys|]. split.
      * rewrite map_app, Hids, length_app. simpl.
        rewrite seq_app. simpl. do 2 f_equal. lia.
      * intros k a Ha. apply in_app_or in Ha as [Ha|[Ha|[]]].
        -- destruct (Hfirst k a Ha) as (d' & Hd' & Heq).
           exists d'. split; [|exact Heq].
           unfold firstNamed in *. now rewrite find_snoc, Hd'.
        -- injection Ha as <- <-. exists d. split; [|reflexivity].
           unfold firstNamed. rewrite find_snoc.
           replace (find (fun d0 => String.eqb (Weekly.account d0)
                                      (Weekly.account d)) data) with (@None Weekly.t).
           ++ now rewrite String.eqb_refl.
           ++ symmetry. apply find_none_iff. intros x Hx.
              apply String.eqb_neq. intros Hk. apply Hnot.
              rewrite <- Hk. now apply in_map.
Qed.

(** X18. Whenever either parser resolves, the accounts are, in order, one
    per distinct account name of the weekly records in the order in which
    the names first appear; their ids are 1, 2, ..., n; and the industry,
    area, agent, status and start fields of an account are those of the
    first weekly record with its name (a later row with the same name
    changes nothing but the base figures). *)
Theorem parsed_accounts_spec
  spread numberToString parseFloat fullYear getMonth currentWeek random
  (jsonData : list row) (r : result) :
  Rich.parseExcelFile spread numberToString parseFloat fullYear getMonth random
    jsonData = Resolved r \/
  Basic.parseExcelFile spread numberToString parseFloat fullYear currentWeek
    random jsonData = Resolved r ->
  map Account.name (accounts r)
  = setOf String.eqb (map Weekly.account (weekly r)) /\
  map Account.id (accounts r) = seq 1 (List.length (accounts r)) /\
  (List.length (accounts r) <= List.length (weekly r))%nat /\
  (forall a, In a (accounts r) ->
     exists d,
       firstNamed (weekly r) (Account.name a) = Some d /\
       Account.industry a = Weekly.industry d /\
       Account.area a = Weekly.area d /\
       Account.agent a = Weekly.agent d /\
       Account.status a = Weekly.status d /\
       Account.ext a = Weekly.ext d).
Proof.
  intros H.
  assert (Hr : exists cols data, r = buildResult cols data).
  { destruct H as [H|H].
    - destruct (rich_parse_inv _ _ _ _ _ _ _ _ H) as (first & rest & _ & _ & ->).
      eexists _, _. reflexivity.
    - destruct (basic_parse_inv _ _ _ _ _ _ _ _ H) as (first & rest & _ & _ & ->).
      eexists _, _. reflexivity. }
  destruct Hr as (cols & data & ->).
  unfold buildResult; simpl. unfold deriveAccounts.
  destruct (accountMap_spec data) as (Hkeys & Hids & Hfirst).
  set (m := accountMap data) in *.
  assert (Hname : forall e, In e m -> Account.name (snd e) = fst e).
  { intros [k a] He. destruct (Hfirst k a He) as (d & _ & ->). reflexivity. }
  assert (Hnames : map Account.name (map (setBase data) (map snd m))
                   = map fst m).
  { rewrite !map_map. apply map_ext_in. intros e He. simpl. now apply Hname. }
  split; [now rewrite Hnames, Hkeys|]. split.
  - rewrite !length_map, <- Hids, !map_map. reflexivity.
  - split.
    + rewrite !length_map, <- (length_map fst m), Hkeys.
      rewrite <- (length_map Weekly.account data).
      apply NoDup_incl_length.
      * apply (setOf_NoDup String.eqb String_eqb_spec').
      * intros x Hx.
        exact (proj1 (setOf_In String.eqb String_eqb_spec' _ _) Hx).
    + intros a Ha. rewrite map_map in Ha.
      apply in_map_iff in Ha as ([k a0] & <- & He). simpl.
      destruct (Hfirst k a0 He) as (d & Hd & Heq).
      exists d. rewrite Heq. simpl. repeat split. exact Hd.
Qed.

Lemma parsed_accounts_spec_witness :
  sampleParse (fun _ => 0%R) = Resolved (sampleResult (fun _ => 0%R)) /\
  map Account.id (accounts (sampleResult (fun _ => 0%R)))
  = seq 1 (List.length (accounts (sampleResult (fun _ => 0%R)))).
Proof.
  split; [apply sample_resolved|].
  apply (parsed_accounts_spec sampleSpread sampleNumberToString
           sampleParseFloat 2025 7 30
           (fun _ => 0%R) sampleSheet (sampleResult (fun _ => 0%R))).
  left. apply sample_resolved.
Defined.

(** ** From an upload to the page *)

Lemma week_months (m : Z) :
  1 <= m <= 12 ->
  exists w, 1 <= w <= 52 /\ Dashboard.weeklyToMonth w = m.
Proof.
  intros H.
  assert (Hm : m = 1 \/ m = 2 \/ m = 3 \/ m = 4 \/ m = 5 \/ m = 6 \/ m = 7
               \/ m = 8 \/ m = 9 \/ m = 10 \/ m = 11 \/ m = 12) by lia.
  destruct Hm as [->|[->|[->|[->|[->|[->|[->|[->|[->|[->|[->| ->]]]]]]]]]]].
  - exists 1. split; [lia | reflexivity].
  - exists 5. split; [lia | reflexivity].
  - exists 9. split; [lia | reflexivity].
  - exists 14. split; [lia | reflexivity].
  - exists 18. split; [lia | reflexivity].
  - exists 22. split; [lia | reflexivity].
  - exists 27. split; [lia | reflexivity].
  - exists 31. split; [lia | reflexivity].
  - exists 35. split; [lia | reflexivity].
  - exists 40. split; [lia | reflexivity].
  - exists 44. split; [lia | reflexivity].
  - exists 48. split; [lia | reflexivity].
Qed.

Lemma passes_expandWeek (filters : Filters.t) (w w' : Z) (a : Normalized.t) :
  Views.passes filters (Rich.expandWeek w a)
  = Views.passes filters (Rich.expandWeek w' a).
Proof. reflexivity. Qed.

(** X19. For an upload the richer parser resolved, whatever the scenario
    and the filters: either no record passes the filters, or the records
    that pass cover every month, so that the monthly aggregate has exactly
    twelve buckets, months 1..12 in order (what the page's own check
    'monthlyTY has 12 buckets' asks); with all filters at 'all' it is the
    second case. *)
Theorem uploaded_monthly_buckets
  spread numberToString parseFloat fullYear getMonth random
  (jsonData : list row) (r : result) (opts : scenario) (filters : Filters.t)
  (withMonthName : bool) :
  Rich.parseExcelFile spread numberToString parseFloat fullYear getMonth random
    jsonData = Resolved r ->
  let monthlyOf := fun F =>
    Dashboard.aggregate withMonthName (Views.adjustedTY (weekly r) opts F)
      "Monthly" in
  (Views.adjustedTY (weekly r) opts filters = []
   \/ map Bucket.month (monthlyOf filters)
      = map Some monthsOfYear) /\
  map Bucket.month (monthlyOf Views.allFilters) = map Some monthsOfYear.
Proof.
  intros H. cbv zeta.
  destruct (rich_parse_inv _ _ _ _ _ _ jsonData r H) as (first & rest & Hj & _ & ->).
  unfold buildResult; simpl weekly.
  set (accs := Rich.normalizeRows numberToString parseFloat fullYear getMonth
                 random 0 jsonData 0).
  assert (Hfull : forall F d,
             In d (Views.adjustedTY (Rich.expand accs) opts F) ->
             map Bucket.month
               (Dashboard.aggregate withMonthName
                  (Views.adjustedTY (Rich.expand accs) opts F) "Monthly")
             = map Some monthsOfYear).
  { intros F d Hd.
    rewrite monthly_full_year.
    - rewrite map_map. simpl. reflexivity.
    - intros m Hm. destruct (week_months m Hm) as (w' & Hw' & Hmw).
      unfold Views.adjustedTY, Views.applyFilters in Hd.
      apply filter_In in Hd as [Hd Hp].
      unfold Dashboard.applyScenario in Hd.
      apply in_map_iff in Hd as (d0 & <- & Hd0).
      unfold Rich.expand in Hd0.
      apply in_chunks in Hd0 as (w & a & Hw & Ha & ->).
      exists (Dashboard.adjust opts (Rich.expandWeek w' a)).
      split; [|exact Hmw].
      unfold Views.adjustedTY, Views.applyFilters. apply filter_In. split.
      + unfold Dashboard.applyScenario. apply in_map.
        unfold Rich.expand. apply in_chunks.
        exists w', a. split; [now apply weeks_in|]. split; [exact Ha | reflexivity].
      + rewrite passes_adjust in *.
        now rewrite (passes_expandWeek F w' w a). }
  split.
  - destruct (Views.adjustedTY (Rich.expand accs) opts filters) as [|d l] eqn:E.
    + now left.
    + right. rewrite <- E. apply (Hfull filters d). rewrite E. now left.
  - assert (Hne : exists d, In d (Views.adjustedTY (Rich.expand accs) opts
                                    Views.allFilters)).
    { unfold Views.adjustedTY.
      rewrite applyFilters_all.
      destruct (Dashboard.applyScenario (Rich.expand accs) opts) as [|d l] eqn:E.
      - apply (f_equal (@List.length _)) in E.
        unfold Dashboard.applyScenario in E.
        rewrite length_map, expand_length in E. unfold accs in E.
        rewrite rich_normalizeRows_length, Hj in E. simpl in E. lia.
      - exists d. now left. }
    destruct Hne as [d Hd]. now apply (Hfull Views.allFilters d).
Qed.

Lemma uploaded_monthly_buckets_witness :
  sampleParse (fun _ => 0%R) = Resolved (sampleResult (fun _ => 0%R)) /\
  map Bucket.month
    (Dashboard.aggregate true
       (Views.adjustedTY (weekly (sampleResult (fun _ => 0%R))) retailShift
          Views.allFilters) "Monthly")
  = map Some monthsOfYear.
Proof.
  split; [apply sample_resolved|].
  apply (uploaded_monthly_buckets sampleSpread sampleNumberToString
           sampleParseFloat 2025 7
           (fun _ => 0%R) sampleSheet (sampleResult (fun _ => 0%R))
           retailShift Views.allFilters true (sample_resolved _)).
Defined.

Lemma deriveAccounts_name_set (data : list Weekly.t) :
  map Account.name (deriveAccounts data)
  = setOf String.eqb (map Weekly.account data).
Proof.
  unfold deriveAccounts.
  destruct (accountMap_spec data) as (Hkeys & _ & Hfirst).
  rewrite <- Hkeys, !map_map. apply map_ext_in. intros [k a] He. simpl.
  destruct (Hfirst k a He) as (d & _ & ->). reflexivity.
Qed.

(** X20. For an upload either parser resolved, shown with the scenario
    and the filters of a fresh upload (multipliers 1, no mix shift, all
    filters 'all'): the adjusted records are the parsed ones; the
    per-account breakdown has one group for each account of the parse,
    and the group of an account carries its [baseRev] as revenue and its
    [baseVol] as volume; at cutoff 12 the forecast is the year-to-date
    figure, which is the overall figure of the monthly series, for
    revenue and for volume. *)
Theorem uploaded_figures_on_page
  spread numberToString parseFloat fullYear getMonth currentWeek random
  (jsonData : list row) (r : result)
  (withMonthName : bool) (mixShiftPct adjPct : R) :
  Rich.parseExcelFile spread numberToString parseFloat fullYear getMonth random
    jsonData = Resolved r \/
  Basic.parseExcelFile spread numberToString parseFloat fullYear currentWeek
    random jsonData = Resolved r ->
  let adjusted :=
    Views.adjustedTY (weekly r) (mkScenario 1 1 None mixShiftPct)
      Views.allFilters in
  let monthly := Dashboard.aggregate withMonthName adjusted "Monthly" in
  let perAccount := Views.groupByAccount adjusted in
  adjusted = weekly r /\
  List.length perAccount = List.length (accounts r) /\
  (forall a,
      In a (accounts r) ->
      exists g,
        In g perAccount /\
        Group.value g = Account.name a /\
        Group.revenue g = Account.baseRev a /\
        Group.volume g = Account.baseVol a) /\
  Dashboard.forecast Bucket.revenue monthly 12 adjPct
  = Dashboard.ytd Bucket.revenue monthly 12 /\
  Dashboard.ytd Bucket.revenue monthly 12
  = Views.overall Bucket.revenue monthly /\
  Dashboard.forecast Bucket.volume monthly 12 adjPct
  = Dashboard.ytd Bucket.volume monthly 12 /\
  Dashboard.ytd Bucket.volume monthly 12
  = Views.overall Bucket.volume monthly.
Proof.
  intros H. cbv zeta.
  assert (Hr : exists cols data, r = buildResult cols data).
  { destruct H as [H|H].
    - destruct (rich_parse_inv _ _ _ _ _ _ _ _ H) as (first & rest & _ & _ & ->).
      eexists _, _. reflexivity.
    - destruct (basic_parse_inv _ _ _ _ _ _ _ _ H) as (first & rest & _ & _ & ->).
      eexists _, _. reflexivity. }
  destruct Hr as (cols & data & ->).
  unfold buildResult; simpl.
  assert (Hadj : Views.adjustedTY data (mkScenario 1 1 None mixShiftPct)
                   Views.allFilters = data).
  { unfold Views.adjustedTY. rewrite applyFilters_all.
    unfold Dashboard.applyScenario.
    rewrite <- (map_id data) at 2. apply map_ext. intros d.
    apply adjust_unit; [reflexivity | reflexivity | now left]. }
  rewrite Hadj. split; [reflexivity|].
  unfold Views.groupByAccount. rewrite groupByKey_groups.
  split; [|split].
  - rewrite length_sortBy, length_map, <- deriveAccounts_name_set.
    now rewrite length_map.
  - intros a Ha.
    destruct (deriveAccounts_base data a Ha) as [Hrev Hvol].
    eexists (Group.mk ByAccount (Account.name a) _ _).
    split; [|split; [reflexivity | split; simpl; symmetry; eassumption]].
    apply sortBy_In. apply in_map_iff. exists (Account.name a).
    split; [reflexivity|].
    change (map (keyValue ByAccount) data) with (map Weekly.account data).
    rewrite <- deriveAccounts_name_set. now apply in_map.
  - destruct (monthly_buckets withMonthName data) as (ks & Hsorted & Hks & ->).
    assert (Hrange : forall k, In k ks -> 1 <= k <= 12).
    { intros k Hk. apply Hks in Hk as (d & _ & <-). apply weeklyToMonth_range. }
    destruct (months_up_to ks 12 Hrange) as [Hall _].
    assert (Hy : forall f,
               Dashboard.ytd f (map (monthBucket withMonthName data) ks) 12
               = Views.overall f (map (monthBucket withMonthName data) ks)).
    { intros f. unfold Dashboard.ytd, Views.overall.
      rewrite (filter_map_commute _ (monthBucket withMonthName data)).
      change (fun x => Dashboard.upToCutoff 12 (monthBucket withMonthName data x))
        with (fun k => k <=? 12).
      now rewrite (Hall (Z.le_refl 12)). }
    unfold Dashboard.forecast. rewrite !Hy. simpl. repeat split; lra.
Qed.

Lemma uploaded_figures_on_page_witness :
  sampleParse (fun _ => 0%R) = Resolved (sampleResult (fun _ => 0%R)) /\
  Views.adjustedTY (weekly (sampleResult (fun _ => 0%R)))
    (mkScenario 1 1 None 10) Views.allFilters
  = weekly (sampleResult (fun _ => 0%R)).
Proof.
  split; [apply sample_resolved|].
  apply (uploaded_figures_on_page sampleSpread sampleNumberToString
           sampleParseFloat 2025 7
           30 (fun _ => 0%R) sampleSheet (sampleResult (fun _ => 0%R))
           true 10 0).
  left. apply sample_resolved.
Defined.

(** ** The month tables of the parsers *)

Lemma find_nth {A : Type} (p : A -> bool) (l : list A) :
  forall (i : nat) (x : A),
    nth_error l i = Some x -> p x = true ->
    (forall j y, (j < i)%nat -> nth_error l j = Some y -> p y = false) ->
    find p l = Some x.
Proof.
  induction l as [|z l IH]; intros i x Hn Hx Hprev.
  - destruct i; discriminate.
  - destruct i as [|i]; simpl in *.
    + injection Hn as ->. now rewrite Hx.
    + rewrite (Hprev 0%nat z) by (try lia; reflexivity).
      apply (IH i x Hn Hx). intros j y Hj Hy.
      apply (Hprev (S j) y); [lia | exact Hy].
Qed.

Lemma string_app_assoc (a b c : string) :
  ((a ++ b) ++ c)%string = (a ++ b ++ c)%string.
Proof. induction a as [|x a IH]; simpl; [reflexivity | now rewrite IH]. Qed.

Lemma includes_shorter (s a b : string) :
  Js.includes s a = false -> Js.includes s (a ++ b)%string = false.
Proof.
  intros H. destruct (Js.includes s (a ++ b)%string) eqn:E; [|reflexivity].
  apply includes_spec in E as (pre & post & ->).
  rewrite <- H. symmetry. apply includes_spec.
  exists pre, (b ++ post)%string. now rewrite string_app_assoc.
Qed.

(** X21. In [parseMonthFromText] the three-letter entries decide alone:
    a text whose lower-cased form contains a three-letter month
    abbreviation yields the number of the first such abbreviation in
    table order (not in the order of the text), and a text that contains
    none of them matches no entry of the table at all, the full names
    included, and is handed to the numeric reading and then to the
    clock. *)
Theorem parseMonthFromText_abbreviations
  numberToString (getMonth : Z) (s : string) :
  (forall i abbr,
      nth_error monthAbbreviations i = Some abbr ->
      Js.includes (Js.toLowerCase s) abbr = true ->
      (forall j a, (j < i)%nat -> nth_error monthAbbreviations j = Some a ->
                   Js.includes (Js.toLowerCase s) a = false) ->
      Rich.parseMonthFromText numberToString getMonth (CStr s)
      = Z.of_nat i + 1) /\
  ((forall a, In a monthAbbreviations ->
              Js.includes (Js.toLowerCase s) a = false) ->
   Rich.parseMonthFromText numberToString getMonth (CStr s)
   = match parseInt numberToString (Some (CStr s)) with
     | Some num => if (1 <=? num) && (num <=? 12) then num else getMonth + 1
     | None => getMonth + 1
     end).
Proof.
  split.
  - intros i abbr Hn Hin Hprev. unfold Rich.parseMonthFromText.
    assert (Hi : (i < 12)%nat).
    { apply (proj1 (nth_error_Some monthAbbreviations i)).
      rewrite Hn. discriminate. }
    assert (Hm : nth_error Rich.monthMap i = Some (abbr, Z.of_nat i + 1)).
    { do 12 (destruct i as [|i];
             [simpl in Hn; injection Hn as <-; reflexivity|]).
      lia. }
    rewrite (find_nth _ Rich.monthMap i (abbr, Z.of_nat i + 1) Hm Hin);
      [reflexivity|].
    intros j y Hj Hy. apply (Hprev j (fst y) Hj).
    unfold monthAbbreviations.
    rewrite nth_error_map, nth_error_firstn.
    assert (Hj12 : (j <? 12)%nat = true) by (apply Nat.ltb_lt; lia).
    rewrite Hj12, Hy. reflexivity.
  - intros Hnone. unfold Rich.parseMonthFromText.
    assert (Hfind : find (fun e => Js.includes (Js.toLowerCase s) (fst e))
                      Rich.monthMap = None).
    { apply find_none_iff. intros y Hy.
      assert (Hab : forall a, In a monthAbbreviations ->
                              forall b, Js.includes (Js.toLowerCase s)
                                          (a ++ b)%string = false).
      { intros a Ha b. apply includes_shorter. now apply Hnone. }
      unfold monthAbbreviations in Hab. simpl in Hab, Hy.
      repeat (destruct Hy as [<-|Hy];
              [first [ apply Hnone; unfold monthAbbreviations; simpl; tauto
                     | apply (Hab "jan" ltac:(tauto) "uary")
                     | apply (Hab "feb" ltac:(tauto) "ruary")
                     | apply (Hab "mar" ltac:(tauto) "ch")
                     | apply (Hab "apr" ltac:(tauto) "il")
                     | apply (Hab "jun" ltac:(tauto) "e")
                     | apply (Hab "jul" ltac:(tauto) "y")
                     | apply (Hab "aug" ltac:(tauto) "ust")
                     | apply (Hab "sep" ltac:(tauto) "tember")
                     | apply (Hab "oct" ltac:(tauto) "ober")
                     | apply (Hab "nov" ltac:(tauto) "ember")
                     | apply (Hab "dec" ltac:(tauto) "ember") ]|]).
      destruct Hy. }
    now rewrite Hfind.
Qed.

Lemma parseMonthFromText_abbreviations_witness :
  Rich.parseMonthFromText sampleNumberToString 7 (CStr "Dec to Jan") = 1.
Proof.
  apply (proj1 (parseMonthFromText_abbreviations sampleNumberToString 7
                  "Dec to Jan") 0%nat "jan").
  - reflexivity.
  - reflexivity.
  - intros j a Hj. lia.
Defined.

(** X22. The week [getWeekFromMonth] gives for a month name and the month
    [weeklyToMonth] files that week under: for a text whose first
    matching name (table order, letter case set aside) is the [i]-th
    month, the week is the table's, and the dashboard files it under that
    same month for January, February, March, September, November and
    December, and under the month before for April to August and for
    October. *)
Theorem week_of_month_name (currentWeek : Z) (s : string) (i : nat)
  (name : string) :
  nth_error (map fst Basic.monthMap) i = Some name ->
  Js.includes (Js.toLowerCase s) (Js.toLowerCase name) = true ->
  (forall j a, (j < i)%nat -> nth_error (map fst Basic.monthMap) j = Some a ->
               Js.includes (Js.toLowerCase s) (Js.toLowerCase a) = false) ->
  let week := Basic.getWeekFromMonth currentWeek (CStr s) in
  nth_error (map snd Basic.monthMap) i = Some week /\
  (In i [0; 1; 2; 8; 10; 11]%nat ->
   Dashboard.weeklyToMonth week = Z.of_nat i + 1) /\
  (In i [3; 4; 5; 6; 7; 9]%nat ->
   Dashboard.weeklyToMonth week = Z.of_nat i).
Proof.
  intros Hn Hin Hprev. cbv zeta.
  assert (Hi : (i < 12)%nat).
  { apply (proj1 (nth_error_Some (map fst Basic.monthMap) i)).
    rewrite Hn. discriminate. }
  destruct (nth_error Basic.monthMap i) as [[name' week]|] eqn:Hm.
  2:{ apply nth_error_None in Hm. simpl in Hm. lia. }
  assert (Hname : name' = name).
  { rewrite nth_error_map, Hm in Hn. now injection Hn. }
  subst name'.
  assert (Hw : Basic.getWeekFromMonth currentWeek (CStr s) = week).
  { unfold Basic.getWeekFromMonth.
    rewrite (find_nth _ Basic.monthMap i (name, week) Hm Hin); [reflexivity|].
    intros j y Hj Hy. apply (Hprev j (fst y) Hj).
    now rewrite nth_error_map, Hy. }
  rewrite Hw. split; [now rewrite nth_error_map, Hm|].
  do 12 (destruct i as [|i];
         [simpl in Hm; injection Hm as <- <-;
          split; intros Hi'; simpl in Hi'; first [reflexivity | lia]|]).
  lia.
Qed.

Lemma week_of_month_name_witness :
  Dashboard.weeklyToMonth (Basic.getWeekFromMonth 1 (CStr "August 2025")) = 7.
Proof.
  apply (week_of_month_name 1 "August 2025" 7 "August").
  - reflexivity.
  - reflexivity.
  - intros j a Hj Ha.
    do 7 (destruct j as [|j]; [injection Ha as <-; reflexivity|]). lia.
  - simpl. tauto.
Defined.

(** ** The records of the second parser *)

Section BasicRecords.

Variable numberToString : R -> string.
Variable parseFloat : string -> option R.
Variable fullYear : Z.
Variable currentWeek : Z.
Variable random : nat -> R.

Hypothesis random_range : forall k, (0 <= random k < 1)%R.

Lemma parseFloatOr_spec (text : string) (fallback : R) (k : nat) :
  (parsesNonZero parseFloat text ->
   parseFloat text = Some (fst (Basic.parseFloatOr parseFloat text fallback k))
   /\ snd (Basic.parseFloatOr parseFloat text fallback k) = k) /\
  (~ parsesNonZero parseFloat text ->
   Basic.parseFloatOr parseFloat text fallback k = (fallback, S k)).
Proof.
  unfold Basic.parseFloatOr, parsesNonZero. split.
  - intros (x & -> & Hx). destruct (Req_dec_T x 0); [contradiction|].
    split; reflexivity.
  - intros Hn. destruct (parseFloat text) as [x|]; [|reflexivity].
    destruct (Req_dec_T x 0); [reflexivity|].
    exfalso. apply Hn. now exists x.
Qed.

(** X23. A record of the second parser: its revenue is the number
    [parseFloat] reads from the cleaned revenue text when that is a number
    other than 0 (a negative one included), and otherwise the fallback
    [random * 1000000 + 100000], in [100000, 1100000]; its volume
    likewise, with the fallback in [50, 550]; so neither figure is ever 0.
    It carries no start fields, and a row with neither start cell is put
    in week 30, the week of the default 'August', which the dashboard
    files under month 7. *)
Theorem basic_record_figures (index : nat) (raw : row) (k : nat) :
  let d :=
    fst (Basic.normalizeRow numberToString parseFloat fullYear currentWeek
           random index raw k) in
  (parsesNonZero parseFloat (basicRevenueText numberToString raw) ->
   parseFloat (basicRevenueText numberToString raw)
   = Some (Weekly.revenue d)) /\
  (~ parsesNonZero parseFloat (basicRevenueText numberToString raw) ->
   Weekly.revenue d = (random k * 1000000 + 100000)%R /\
   (100000 <= Weekly.revenue d <= 1100000)%R) /\
  (parsesNonZero parseFloat (basicVolumeText numberToString raw) ->
   parseFloat (basicVolumeText numberToString raw)
   = Some (Weekly.volume d)) /\
  (~ parsesNonZero parseFloat (basicVolumeText numberToString raw) ->
   (50 <= Weekly.volume d <= 550)%R) /\
  Weekly.revenue d <> 0%R /\
  Weekly.volume d <> 0%R /\
  Weekly.ext d = None /\
  (truthy (get raw Basic.weekSourceKey) = false ->
   truthy (get raw "Expected/Forecasted TXN Start") = false ->
   Weekly.week d = 30 /\ monthOf d = 7).
Proof.
  cbv zeta. unfold basicRevenueText, basicVolumeText, Basic.normalizeRow.
  set (rt := Basic.cleanRevenue _). set (vt := Basic.cleanVolume _).
  assert (Hnz : forall text fallback j,
             (0 < fallback)%R ->
             fst (Basic.parseFloatOr parseFloat text fallback j) <> 0%R).
  { intros text fallback j Hf. unfold Basic.parseFloatOr.
    destruct (parseFloat text) as [x|]; [|simpl; lra].
    destruct (Req_dec_T x 0); simpl; [lra | assumption]. }
  pose proof (random_range k) as Hk.
  destruct (parseFloatOr_spec rt (random k * 1000000 + 100000)%R k)
    as [Hr1 Hr2].
  pose proof (Hnz rt (random k * 1000000 + 100000)%R k ltac:(lra)) as Hr0.
  destruct (Basic.parseFloatOr parseFloat rt _ k) as [revenue k1].
  pose proof (random_range k1) as Hk1.
  destruct (parseFloatOr_spec vt (random k1 * 500 + 50)%R k1) as [Hv1 Hv2].
  pose proof (Hnz vt (random k1 * 500 + 50)%R k1 ltac:(lra)) as Hv0.
  destruct (Basic.parseFloatOr parseFloat vt _ k1) as [volume k2].
  simpl in *.
  split; [intros H; now apply Hr1|].
  split.
  { intros H. apply Hr2 in H. injection H as -> _. split; [reflexivity|lra]. }
  split; [intros H; now apply Hv1|].
  split.
  { intros H. apply Hv2 in H. injection H as -> _. lra. }
  split; [exact Hr0|]. split; [exact Hv0|]. split; [reflexivity|].
  intros H1 H2. rewrite (orElse_falsy _ _ H1), (orElse_falsy _ _ H2).
  split; reflexivity.
Qed.

End BasicRecords.

Lemma basic_record_figures_witness :
  Weekly.revenue
    (fst (Basic.normalizeRow sampleNumberToString sampleParseFloat 2025 30
            (fun _ => 0%R) 0 bareRow 0)) <> 0%R.
Proof.
  apply (basic_record_figures sampleNumberToString sampleParseFloat 2025 30
           (fun _ => 0%R)).
  intros k. lra.
Defined.

(** ** The synthetic data set *)

Section Generators.

Import Sample.

Lemma always_ret {A : Type} (x : A) (P : A -> Prop) : P x -> always (ret x) P.
Proof. intros H a. exists x, a. now split. Qed.

Lemma always_bind {A B : Type} (m : gen A) (f : A -> gen B)
  (P : A -> Prop) (Q : B -> Prop) :
  always m P -> (forall x, P x -> always (f x) Q) -> always (bind m f) Q.
Proof.
  intros Hm Hf a. destruct (Hm a) as (x & a1 & E & Hx).
  destruct (Hf x Hx a1) as (y & a2 & E' & Hy).
  exists y, a2. unfold bind. rewrite E. now split.
Qed.

Lemma always_weaken {A : Type} (m : gen A) (P Q : A -> Prop) :
  always m P -> (forall x, P x -> Q x) -> always m Q.
Proof.
  intros Hm H a. destruct (Hm a) as (x & a1 & E & Hx).
  exists x, a1. split; [exact E | now apply H].
Qed.

Lemma mulberry32_unit (a : Z) : (0 <= fst (mulberry32 a) < 1)%R.
Proof.
  unfold mulberry32. cbv zeta. cbn [fst].
  match goal with |- context [ushr ?x 0] => set (t := x) end.
  unfold ushr, toUint32. rewrite Z.shiftr_0_r.
  pose proof (Z.mod_pos_bound t 4294967296 ltac:(lia)) as [H0 H1].
  apply IZR_le in H0. apply IZR_lt in H1.
  split.
  - apply Rmult_le_pos; [exact H0|].
    apply Rlt_le, Rinv_0_lt_compat. lra.
  - apply (Rmult_lt_reg_r 4294967296); [lra|].
    unfold Rdiv. rewrite Rmult_assoc, Rinv_l by lra. lra.
Qed.

Lemma always_rnd : always rnd (fun r => (0 <= r < 1)%R).
Proof.
  intros a. exists (fst (mulberry32 a)), (snd (mulberry32 a)).
  split; [unfold rnd; now destruct (mulberry32 a) | apply mulberry32_unit].
Qed.

Lemma floor_range (x : R) (n : Z) :
  (0 <= x < IZR n)%R -> 0 <= floor x < n.
Proof.
  intros [H0 H1]. unfold floor.
  destruct (base_Int_part x) as [Hl Hu]. split.
  - assert (H : (IZR (-1) < IZR (Int_part x))%R) by (simpl; lra).
    apply lt_IZR in H. lia.
  - apply lt_IZR. lra.
Qed.

Lemma floor_nonneg (x : R) : (0 <= x)%R -> 0 <= floor x.
Proof.
  intros H0. unfold floor. destruct (base_Int_part x) as [Hl Hu].
  assert (H : (IZR (-1) < IZR (Int_part x))%R) by (simpl; lra).
  apply lt_IZR in H. lia.
Qed.

Lemma floor_le (x : R) : (IZR (floor x) <= x)%R.
Proof. unfold floor. now destruct (base_Int_part x). Qed.

Lemma always_pickFrom (l : list string) :
  l <> [] -> always (pickFrom l) (fun x => In x l).
Proof.
  intros Hl. unfold pickFrom.
  apply (always_bind _ _ _ _ always_rnd). intros r Hr a.
  set (n := Z.of_nat (List.length l)).
  assert (Hn : (0 < IZR n)%R).
  { apply (IZR_lt 0). unfold n. destruct l; [contradiction | simpl; lia]. }
  assert (Hi : 0 <= floor (r * IZR n) < n).
  { apply floor_range. split.
    - apply Rmult_le_pos; lra.
    - rewrite <- (Rmult_1_l (IZR n)) at 2.
      apply Rmult_lt_compat_r; lra. }
  unfold element.
  destruct (floor (r * IZR n) <? 0) eqn:E; [apply Z.ltb_lt in E; lia|].
  destruct (nth_error l (Z.to_nat (floor (r * IZR n)))) as [x|] eqn:Ex.
  - exists x, a. split; [reflexivity|]. eapply nth_error_In; exact Ex.
  - apply nth_error_None in Ex.
    assert (En : n = Z.of_nat (List.length l)) by reflexivity. lia.
Qed.

Lemma indexOf_range (l : list string) (x : string) :
  -1 <= indexOf l x < Z.of_nat (List.length l).
Proof.
  induction l as [|y l IH]; simpl indexOf.
  - simpl. lia.
  - change (List.length (y :: l)) with (S (List.length l)).
    destruct (String.eqb y x); [lia|].
    destruct (indexOf l x <? 0) eqn:E; lia.
Qed.

Lemma always_mapIndexed {A B : Type} (f : A -> nat -> gen B)
  (P : A -> nat -> B -> Prop) (l : list A) :
  (forall x i, always (f x i) (P x i)) ->
  forall i0,
    always (mapIndexed f l i0)
      (fun ys =>
         List.length ys = List.length l /\
         forall j x, nth_error l j = Some x ->
                     exists y, nth_error ys j = Some y
                               /\ P x (i0 + j)%nat y).
Proof.
  intros Hf. induction l as [|x l IH]; intros i0; simpl mapIndexed.
  - apply always_ret. split; [reflexivity|].
    intros j x Hj. destruct j; discriminate.
  - apply (always_bind _ _ _ _ (Hf x i0)). intros y Hy.
    apply (always_bind _ _ _ _ (IH (S i0))). intros ys [Hlen Hys].
    apply always_ret. split; [simpl; now rewrite Hlen|].
    intros j x' Hj. destruct j as [|j]; simpl in Hj.
    + injection Hj as <-. exists y. split; [reflexivity|].
      now rewrite Nat.add_0_r.
    + destruct (Hys j x' Hj) as (y' & Hy' & HP).
      exists y'. split; [exact Hy'|].
      now replace (i0 + S j)%nat with (S i0 + j)%nat by lia.
Qed.

Lemma always_forWeeks (body : Z -> Account.t -> nat -> gen Weekly.t)
  (P : Z -> Account.t -> nat -> Weekly.t -> Prop)
  (ws : list Z) (accs : list Account.t) :
  (forall w acc i, always (body w acc i) (P w acc i)) ->
  always (forWeeks body ws accs)
    (fun l =>
       List.length l = (List.length ws * List.length accs)%nat /\
       forall jw i w acc,
         nth_error ws jw = Some w -> nth_error accs i = Some acc ->
         exists d, nth_error l (jw * List.length accs + i) = Some d
                   /\ P w acc i d).
Proof.
  intros Hb. induction ws as [|w ws IH]; simpl forWeeks.
  - apply always_ret. split; [reflexivity|].
    intros jw i w acc Hw. destruct jw; discriminate.
  - apply (always_bind _ _ _ _
             (always_mapIndexed (body w) (P w) accs (Hb w) 0%nat)).
    intros chunk [Hlen Hchunk].
    apply (always_bind _ _ _ _ IH). intros rest [Hlr Hrest].
    apply always_ret. split.
    + rewrite length_app, Hlen, Hlr. simpl. lia.
    + intros jw i w' acc Hw Hacc. destruct jw as [|jw]; simpl in Hw.
      * injection Hw as <-.
        destruct (Hchunk i acc Hacc) as (d & Hd & HP).
        exists d. split; [|exact HP].
        simpl. rewrite nth_error_app1; [exact Hd|].
        apply nth_error_Some. rewrite Hd. discriminate.
      * destruct (Hrest jw i w' acc Hw Hacc) as (d & Hd & HP).
        exists d. split; [|exact HP].
        rewrite nth_error_app2 by (rewrite Hlen; simpl; lia).
        rewrite Hlen.
        now replace (S jw * List.length accs + i - List.length accs)%nat
          with (jw * List.length accs + i)%nat by (simpl; lia).
Qed.

Lemma industryW_range (industry : string) :
  (0.72 <= industryW industry <= 1.2)%R.
Proof.
  unfold industryW.
  pose proof (indexOf_range industries industry) as [H0 H1].
  change (Z.of_nat (List.length industries)) with 6 in H1.
  assert (H5 : indexOf industries industry <= 5) by lia.
  apply IZR_le in H0, H5. lra.
Qed.

Lemma areaW_range (area : string) : (0.85 <= areaW area <= 1.1)%R.
Proof.
  unfold areaW.
  pose proof (indexOf_range areas area) as [H0 H1].
  change (Z.of_nat (List.length areas)) with 5 in H1.
  assert (H4 : indexOf areas area <= 4) by lia.
  apply IZR_le in H0, H4. lra.
Qed.

Lemma season_range (w : Z) (i : nat) : (0.88 <= season w i <= 1.12)%R.
Proof.
  unfold season.
  pose proof (SIN_bound ((2 * PI * IZR (w + Z.of_nat i)) / 52)). lra.
Qed.

Lemma product_range (r u v c : R) :
  (0 <= r < 1)%R -> (0 < u <= 1.2)%R -> (0 < v <= 1.1)%R -> (0 < c)%R ->
  (0 <= r * c * u * v < c * 1.32)%R.
Proof.
  intros Hr Hu Hv Hc. split.
  - repeat apply Rmult_le_pos; lra.
  - assert (H1 : (r * c < c)%R) by nra.
    assert (H2 : (0 <= r * c)%R) by (apply Rmult_le_pos; lra).
    assert (H3 : (r * c * u <= r * c * 1.2)%R)
      by (apply Rmult_le_compat_l; lra).
    assert (H4 : (0 <= r * c * u)%R) by (apply Rmult_le_pos; lra).
    assert (H5 : (r * c * u * v <= r * c * u * 1.1)%R)
      by (apply Rmult_le_compat_l; lra).
    lra.
Qed.

Ltac gen_step :=
  first
    [ eapply always_bind;
      [ apply always_pickFrom; discriminate | intros ? ? ]
    | eapply always_bind; [ apply always_rnd | intros ? ? ]
    | apply always_ret ].

Lemma base_figures (r1 r2 : R) (industry area : string) :
  (0 <= r1 < 1)%R -> (0 <= r2 < 1)%R ->
  (400000 <= 400000 + r1 * 3000000 * industryW industry * areaW area
   < 4360000)%R /\
  (40 <= 40 + IZR (floor (r2 * 600 * industryW industry * areaW area))
   < 832)%R.
Proof.
  intros H1 H2.
  pose proof (industryW_range industry) as Hi.
  pose proof (areaW_range area) as Ha.
  pose proof (product_range r1 (industryW industry) (areaW area) 3000000
                H1 ltac:(lra) ltac:(lra) ltac:(lra)) as P1.
  pose proof (product_range r2 (industryW industry) (areaW area) 600
                H2 ltac:(lra) ltac:(lra) ltac:(lra)) as P2.
  split; [lra|].
  pose proof (floor_le (r2 * 600 * industryW industry * areaW area)) as Hf.
  pose proof (floor_nonneg (r2 * 600 * industryW industry * areaW area)
                (proj1 P2)) as Hn.
  apply IZR_le in Hn. lra.
Qed.

Lemma lab_account_ok (u : unit) (idx : nat) :
  always (Lab.account u idx)
    (fun acc => accountOk idx acc /\ Account.ext acc = None).
Proof.
  unfold Lab.account. do 6 gen_step. gen_step.
  destruct (base_figures x3 x4 x x0) as [Hr Hv]; [assumption..|].
  unfold accountOk. simpl. tauto.
Qed.

Lemma figure_positive (base r : R) (w : Z) (i : nat) (c : R) :
  (0 < base)%R -> (0 <= r < 1)%R -> (0 < c)%R ->
  (0 < base / 4.345 * (0.6 + r * 0.8) * season w i * c)%R.
Proof.
  intros Hb Hr Hc. pose proof (season_range w i) as Hs.
  repeat apply Rmult_lt_0_compat; lra.
Qed.

Lemma lab_record_ok (year w : Z) (acc : Account.t) (i : nat) :
  always (Lab.record year w acc i)
    (fun d =>
       recordOf year w acc d /\ Weekly.ext d = None /\
       ((0 < Account.baseRev acc)%R ->
        (0 < Weekly.revenue d)%R /\ (0 < Weekly.volume d)%R
        \/ (Account.baseVol acc <= 0)%R)).
Proof.
  unfold Lab.record. do 2 gen_step. gen_step. cbv beta in *.
  split; [unfold recordOf; simpl; now repeat split|].
  split; [reflexivity|]. simpl. intros Hb.
  destruct (Rlt_dec 0 (Account.baseVol acc)) as [Hv|Hv]; [left | right; lra].
  split.
  - apply figure_positive; [assumption..|]. destruct (year =? 2025); lra.
  - pose proof (figure_positive (Account.baseVol acc) x0 w i 1 Hv H0
                  ltac:(lra)). lra.
Qed.

Lemma forecast_account_ok (year : Z) (u : unit) (idx : nat) :
  always (Forecast.account year u idx)
    (fun acc =>
       accountOk idx acc /\
       exists e, Account.ext acc = Some e /\ startOk year e).
Proof.
  unfold Forecast.account. do 12 gen_step. gen_step. cbv beta in *.
  destruct (base_figures x9 x10 x x2) as [Hr Hv]; [assumption..|].
  split; [unfold accountOk; simpl; tauto|].
  eexists. split; [reflexivity|]. unfold startOk. simpl.
  pose proof (floor_range (x6 * 12) 12 ltac:(lra)).
  pose proof (floor_range (x7 * 2) 2 ltac:(lra)).
  pose proof (floor_range (x8 * 3) 3 ltac:(lra)).
  split; [assumption|]. split; [assumption|]. split; [assumption|].
  split; [lia|]. split; [lia|]. split; lia.
Qed.

Lemma forecast_record_ok (year w : Z) (acc : Account.t) (i : nat) :
  always (Forecast.record year w acc i)
    (fun d =>
       recordOf year w acc d /\ Weekly.ext d = Account.ext acc /\
       forall e,
         Account.ext acc = Some e ->
         (Forecast.shouldContribute year w e = true ->
          (0 < Account.baseRev acc)%R -> (0 < Account.baseVol acc)%R ->
          (0 < Weekly.revenue d)%R /\ (0 < Weekly.volume d)%R) /\
         (Forecast.shouldContribute year w e = false ->
          Weekly.revenue d = 0%R /\ Weekly.volume d = 0%R)).
Proof.
  unfold Forecast.record.
  destruct (Account.ext acc) as [e|] eqn:Ee.
  - destruct (Forecast.shouldContribute year w e) eqn:Es.
    + eapply always_bind.
      * eapply always_bind; [apply always_rnd | intros r1 H1].
        eapply always_bind; [apply always_rnd | intros r2 H2].
        apply (always_ret _ (fun p => (0 < Account.baseRev acc)%R ->
                                      (0 < Account.baseVol acc)%R ->
                                      (0 < fst p)%R /\ (0 < snd p)%R)).
        simpl. intros Hb Hv. split.
        -- apply figure_positive; [assumption..|].
           destruct (year =? 2025); lra.
        -- pose proof (figure_positive (Account.baseVol acc) r2 w i 1 Hv H2
                         ltac:(lra)). lra.
      * intros p Hp. apply always_ret.
        split; [unfold recordOf; simpl; now repeat split|].
        split; [reflexivity|].
        intros e' He'. injection He' as <-. rewrite Es. simpl.
        split; [intros _; exact Hp | discriminate].
    + eapply always_bind.
      * apply (always_ret _ (fun p => fst p = 0%R /\ snd p = 0%R)).
        now split.
      * intros p Hp. apply always_ret.
        split; [unfold recordOf; simpl; now repeat split|].
        split; [reflexivity|].
        intros e' He'. injection He' as <-. rewrite Es. simpl.
        split; [discriminate | intros _; exact Hp].
  - eapply always_bind.
    + apply (always_ret _ (fun p => True)). exact I.
    + intros p _. apply always_ret.
      split; [unfold recordOf; simpl; now repeat split|].
      split; [reflexivity | discriminate].
Qed.

Lemma generate_shape
  (account : unit -> nat -> gen Account.t)
  (record : Z -> Account.t -> nat -> gen Weekly.t)
  (A : nat -> Account.t -> Prop)
  (W : Z -> Account.t -> nat -> Weekly.t -> Prop) (year : Z) :
  (forall u idx, always (account u idx) (A idx)) ->
  (forall w acc i, always (record w acc i) (W w acc i)) ->
  always
    (bind (mapIndexed account (repeat tt 80) 0)
       (fun accs =>
          bind (forWeeks record Rich.weeks accs)
            (fun weekly => ret (Sample.mk weekly accs year))))
    (fun smp =>
       Sample.year smp = year /\
       List.length (Sample.accounts smp) = 80%nat /\
       List.length (Sample.weekly smp) = 4160%nat /\
       (forall idx, (idx < 80)%nat ->
                    exists acc, nth_error (Sample.accounts smp) idx = Some acc
                                /\ A idx acc) /\
       (forall w i acc,
           1 <= w <= 52 ->
           nth_error (Sample.accounts smp) i = Some acc ->
           exists d,
             nth_error (Sample.weekly smp) (Z.to_nat (w - 1) * 80 + i)
             = Some d /\ W w acc i d)).
Proof.
  intros HA HW.
  eapply always_bind;
    [apply (always_mapIndexed account (fun _ => A) (repeat tt 80) HA 0%nat)|].
  intros accs [Hlen Haccs]. rewrite repeat_length in Hlen.
  eapply always_bind; [apply (always_forWeeks record W Rich.weeks accs HW)|].
  intros weekly [Hlw Hweekly]. apply always_ret. simpl.
  split; [reflexivity|]. split; [exact Hlen|].
  split; [rewrite Hlw, Hlen; reflexivity|]. split.
  - intros idx Hidx.
    destruct (Haccs idx tt) as (acc & Hacc & Hok).
    { apply nth_error_repeat. exact Hidx. }
    exists acc. split; [exact Hacc | exact Hok].
  - intros w i acc Hw Hacc.
    destruct (Hweekly (Z.to_nat (w - 1)) i w acc) as (d & Hd & HWd).
    + unfold Rich.weeks. rewrite nth_error_map.
      rewrite nth_error_seq.
      assert (E : (Z.to_nat (w - 1) <? 52)%nat = true)
        by (apply Nat.ltb_lt; lia).
      rewrite E. simpl. f_equal. lia.
    + exact Hacc.
    + exists d. rewrite Hlen in Hd. split; [exact Hd | exact HWd].
Qed.

Lemma lab_generate_ok (year : Z) :
  always (Lab.generate year)
    (fun smp =>
       Sample.year smp = year /\
       List.length (Sample.accounts smp) = 80%nat /\
       List.length (Sample.weekly smp) = 4160%nat /\
       (forall idx, (idx < 80)%nat ->
                    exists acc, nth_error (Sample.accounts smp) idx = Some acc
                                /\ accountOk idx acc
                                /\ Account.ext acc = None) /\
       (forall w i,
           1 <= w <= 52 -> (i < 80)%nat ->
           exists acc d,
             nth_error (Sample.accounts smp) i = Some acc /\
             nth_error (Sample.weekly smp) (Z.to_nat (w - 1) * 80 + i)
             = Some d /\
             recordOf year w acc d /\ Weekly.ext d = None /\
             (0 < Weekly.revenue d)%R /\ (0 < Weekly.volume d)%R)).
Proof.
  eapply always_weaken.
  - apply (generate_shape Lab.account (Lab.record year) _ _ year
             lab_account_ok (lab_record_ok year)).
  - intros smp (Hy & Hla & Hlw & Ha & Hw). cbv beta in *.
    split; [exact Hy|]. split; [exact Hla|]. split; [exact Hlw|].
    split; [exact Ha|].
    intros w i Hwr Hi.
    destruct (Ha i Hi) as (acc & Hacc & Hok & _).
    destruct (Hw w i acc Hwr Hacc) as (d & Hd & Hrec & Hext & Hpos).
    exists acc, d. split; [exact Hacc|]. split; [exact Hd|].
    split; [exact Hrec|]. split; [exact Hext|].
    destruct Hok as (_ & _ & _ & _ & _ & _ & Hrev & Hvol).
    destruct Hpos as [Hpos|Hneg]; [lra | exact Hpos | lra].
Qed.

Lemma generated_contributes_iff (year w : Z) (e : Ext.t) :
  startOk year e ->
  Forecast.shouldContribute year w e = true <->
  Ext.startYear e = year /\ Ext.startMonth e <= ceilWeeks w.
Proof.
  intros (_ & _ & _ & Hm & Hy & Hn & He).
  unfold Forecast.shouldContribute. cbv zeta.
  rewrite andb_true_iff, orb_true_iff, andb_true_iff.
  rewrite Z.ltb_lt, Z.eqb_eq, !Z.leb_le. lia.
Qed.

Lemma forecast_generate_ok (year : Z) :
  always (Forecast.generate year)
    (fun smp =>
       Sample.year smp = year /\
       List.length (Sample.accounts smp) = 80%nat /\
       List.length (Sample.weekly smp) = 4160%nat /\
       (forall idx, (idx < 80)%nat ->
                    exists acc e,
                      nth_error (Sample.accounts smp) idx = Some acc
                      /\ accountOk idx acc
                      /\ Account.ext acc = Some e /\ startOk year e) /\
       (forall w i,
           1 <= w <= 52 -> (i < 80)%nat ->
           exists acc e d,
             nth_error (Sample.accounts smp) i = Some acc /\
             Account.ext acc = Some e /\
             nth_error (Sample.weekly smp) (Z.to_nat (w - 1) * 80 + i)
             = Some d /\
             recordOf year w acc d /\ Weekly.ext d = Some e /\
             (Ext.startYear e = year /\ Ext.startMonth e <= ceilWeeks w ->
              (0 < Weekly.revenue d)%R /\ (0 < Weekly.volume d)%R) /\
             (~ (Ext.startYear e = year /\ Ext.startMonth e <= ceilWeeks w) ->
              Weekly.revenue d = 0%R /\ Weekly.volume d = 0%R))).
Proof.
  eapply always_weaken.
  - apply (generate_shape (Forecast.account year) (Forecast.record year) _ _
             year (forecast_account_ok year) (forecast_record_ok year)).
  - intros smp (Hy & Hla & Hlw & Ha & Hw). cbv beta in *.
    split; [exact Hy|]. split; [exact Hla|]. split; [exact Hlw|].
    split.
    + intros idx Hidx. destruct (Ha idx Hidx) as (acc & Hacc & Hok & e & He & Hs).
      exists acc, e. tauto.
    + intros w i Hwr Hi.
      destruct (Ha i Hi) as (acc & Hacc & Hok & e & He & Hs).
      destruct (Hw w i acc Hwr Hacc) as (d & Hd & Hrec & Hext & Hfig).
      exists acc, e, d. split; [exact Hacc|]. split; [exact He|].
      split; [exact Hd|]. split; [exact Hrec|].
      split; [now rewrite Hext|].
      destruct (Hfig e He) as [Hyes Hno].
      destruct Hok as (_ & _ & _ & _ & _ & _ & Hrev & Hvol).
      pose proof (generated_contributes_iff year w e Hs) as Hiff.
      split.
      * intros Hc. apply Hyes; [now apply Hiff | lra | lra].
      * intros Hc. apply Hno.
        destruct (Forecast.shouldContribute year w e); [|reflexivity].
        exfalso. apply Hc. now apply Hiff.
Qed.

Lemma weeks_cover_months (data : list Weekly.t) :
  (forall w, 1 <= w <= 52 -> exists d, In d data /\ Weekly.week d = w) ->
  forall m, 1 <= m <= 12 -> exists d, In d data /\ monthOf d = m.
Proof.
  intros H m Hm. destruct (week_months m Hm) as (w & Hw & Hmw).
  destruct (H w Hw) as (d & Hd & Hdw).
  exists d. split; [exact Hd|]. unfold monthOf. now rewrite Hdw.
Qed.

Lemma applyScenario_weeks (data : list Weekly.t) (opts : scenario) :
  (forall w, 1 <= w <= 52 -> exists d, In d data /\ Weekly.week d = w) ->
  forall w, 1 <= w <= 52 ->
            exists d, In d (Dashboard.applyScenario data opts)
                      /\ Weekly.week d = w.
Proof.
  intros H w Hw. destruct (H w Hw) as (d & Hd & Hdw).
  exists (Dashboard.adjust opts d). split; [|exact Hdw].
  unfold Dashboard.applyScenario. now apply in_map.
Qed.

End Generators.

(** X24. Every call of the generator [mulberry32(a)] returns a number in
    [0, 1), an integer multiple of 2^-32, and advances the captured [a]
    by 0x6d2b79f5. *)
Theorem mulberry32_range (a : Z) :
  (0 <= fst (Sample.mulberry32 a) < 1)%R /\
  (exists n, 0 <= n < 4294967296
             /\ fst (Sample.mulberry32 a) = (IZR n / 4294967296)%R) /\
  snd (Sample.mulberry32 a) = a + 1831565813.
Proof.
  split; [apply mulberry32_unit|]. split; [|reflexivity].
  unfold Sample.mulberry32. cbv zeta. cbn [fst].
  match goal with |- context [Sample.ushr ?x 0] => set (t := x) end.
  exists (Sample.ushr t 0). split; [|reflexivity].
  unfold Sample.ushr, Sample.toUint32. rewrite Z.shiftr_0_r.
  apply Z.mod_pos_bound. lia.
Qed.

(** X25. [generateSample(seed, year)] of the first page, for every
    integer seed and year: no array is read outside its bounds; there are
    80 accounts, account [idx] with id [idx + 1], its industry, area,
    agent and status taken from the arrays, its name built from them,
    [baseRev] in [400000, 4360000) and [baseVol] in [40, 832); and 4160
    weekly records, the record at position [(w - 1) * 80 + i] being that
    of week [w] for account [i], of the given year, with a positive
    revenue and a positive volume. *)
Theorem lab_sample_shape (seed year : Z) :
  exists smp,
    Sample.Lab.generateSample seed year = Some smp /\
    Sample.year smp = year /\
    List.length (Sample.accounts smp) = 80%nat /\
    List.length (Sample.weekly smp) = 4160%nat /\
    (forall idx, (idx < 80)%nat ->
                 exists acc, nth_error (Sample.accounts smp) idx = Some acc
                             /\ Sample.accountOk idx acc
                             /\ Account.ext acc = None) /\
    (forall w i,
        1 <= w <= 52 -> (i < 80)%nat ->
        exists acc d,
          nth_error (Sample.accounts smp) i = Some acc /\
          nth_error (Sample.weekly smp) (Z.to_nat (w - 1) * 80 + i)
          = Some d /\
          Sample.recordOf year w acc d /\ Weekly.ext d = None /\
          (0 < Weekly.revenue d)%R /\ (0 < Weekly.volume d)%R).
Proof.
  destruct (lab_generate_ok year seed) as (smp & a' & E & H).
  exists smp. split; [|exact H].
  unfold Sample.Lab.generateSample. now rewrite E.
Qed.

(** X26. The start fields of the generated accounts of the richer page:
    for every integer seed and year the generator reads no array outside
    its bounds and yields 80 accounts, each with a start month in 1..12,
    a start year that is the given year or the next, one to three years
    of engagement, and [endYear = startYear + yearsOfEngagement - 1]. *)
Theorem forecast_sample_accounts (seed year : Z) :
  exists smp,
    Sample.Forecast.generateSample seed year = Some smp /\
    Sample.year smp = year /\
    List.length (Sample.accounts smp) = 80%nat /\
    (forall idx, (idx < 80)%nat ->
                 exists acc e,
                   nth_error (Sample.accounts smp) idx = Some acc
                   /\ Sample.accountOk idx acc
                   /\ Account.ext acc = Some e /\ Sample.startOk year e).
Proof.
  destruct (forecast_generate_ok year seed)
    as (smp & a' & E & Hy & Hla & _ & Ha & _).
  exists smp. split; [|tauto].
  unfold Sample.Forecast.generateSample. now rewrite E.
Qed.

(** X27. The weekly records of the generated data of the richer page:
    4160 records, the one at position [(w - 1) * 80 + i] for week [w] and
    account [i]; its revenue and volume are positive when the account
    starts in the given year and the month of the week,
    [ceil(week / 4.345)], has reached its start month, and both are 0
    otherwise, so an account that starts the year after shows 0 in all
    52 weeks. *)
Theorem forecast_sample_window (seed year : Z) :
  exists smp,
    Sample.Forecast.generateSample seed year = Some smp /\
    List.length (Sample.weekly smp) = 4160%nat /\
    (forall w i,
        1 <= w <= 52 -> (i < 80)%nat ->
        exists acc e d,
          nth_error (Sample.accounts smp) i = Some acc /\
          Account.ext acc = Some e /\
          nth_error (Sample.weekly smp) (Z.to_nat (w - 1) * 80 + i)
          = Some d /\
          Sample.recordOf year w acc d /\ Weekly.ext d = Some e /\
          (Ext.startYear e = year /\ Ext.startMonth e <= ceilWeeks w ->
           (0 < Weekly.revenue d)%R /\ (0 < Weekly.volume d)%R) /\
          (~ (Ext.startYear e = year /\ Ext.startMonth e <= ceilWeeks w) ->
           Weekly.revenue d = 0%R /\ Weekly.volume d = 0%R) /\
          (Ext.startYear e = year + 1 ->
           Weekly.revenue d = 0%R /\ Weekly.volume d = 0%R)).
Proof.
  destruct (forecast_generate_ok year seed)
    as (smp & a' & E & Hy & Hla & Hlw & Ha & Hw).
  exists smp. split; [unfold Sample.Forecast.generateSample; now rewrite E|].
  split; [exact Hlw|].
  intros w i Hwr Hi.
  destruct (Hw w i Hwr Hi) as (acc & e & d & H1 & H2 & H3 & H4 & H5 & H6 & H7).
  exists acc, e, d. repeat (split; [assumption|]).
  intros Hnext. apply H7. lia.
Qed.

(** X28. The monthly series of generated data always has twelve buckets,
    months 1 to 12 in order: for the data of either page, as generated
    (last year's series) and after any scenario and, on the richer page,
    the filters all at 'all' (this year's series).  These are the
    standalone page's own checks 'monthlyTY has 12 buckets' and
    'monthlyLY has 12 buckets'. *)
Theorem sample_monthly_twelve
  (seed year : Z) (opts : scenario) (withMonthName : bool) :
  (exists smp,
      Sample.Lab.generateSample seed year = Some smp /\
      let monthlyLY :=
        Dashboard.aggregate withMonthName (Sample.weekly smp) "Monthly" in
      let monthlyTY :=
        Dashboard.aggregate withMonthName
          (Dashboard.applyScenario (Sample.weekly smp) opts) "Monthly" in
      map Bucket.month monthlyLY = map Some monthsOfYear /\
      map Bucket.month monthlyTY = map Some monthsOfYear /\
      List.length monthlyLY = 12%nat /\ List.length monthlyTY = 12%nat) /\
  (exists smp,
      Sample.Forecast.generateSample seed year = Some smp /\
      let monthlyLY :=
        Dashboard.aggregate withMonthName (Sample.weekly smp) "Monthly" in
      let monthlyTY :=
        Dashboard.aggregate withMonthName
          (Views.adjustedTY (Sample.weekly smp) opts Views.allFilters)
          "Monthly" in
      map Bucket.month monthlyLY = map Some monthsOfYear /\
      map Bucket.month monthlyTY = map Some monthsOfYear /\
      List.length monthlyLY = 12%nat /\ List.length monthlyTY = 12%nat).
Proof.
  assert (Hagg : forall data,
             (forall w, 1 <= w <= 52 ->
                        exists d, In d data /\ Weekly.week d = w) ->
             map Bucket.month (Dashboard.aggregate withMonthName data "Monthly")
             = map Some monthsOfYear /\
             List.length (Dashboard.aggregate withMonthName data "Monthly")
             = 12%nat).
  { intros data H.
    rewrite (monthly_full_year withMonthName data (weeks_cover_months data H)).
    split; [now rewrite map_map | now rewrite length_map]. }
  split.
  - destruct (lab_generate_ok year seed)
      as (smp & a' & E & _ & _ & _ & _ & Hw).
    exists smp. split; [unfold Sample.Lab.generateSample; now rewrite E|].
    cbv zeta.
    assert (Hweeks : forall w, 1 <= w <= 52 ->
                               exists d, In d (Sample.weekly smp)
                                         /\ Weekly.week d = w).
    { intros w Hwr.
      destruct (Hw w 0%nat Hwr ltac:(lia)) as (acc & d & _ & Hd & Hrec & _).
      exists d. split; [eapply nth_error_In; exact Hd | apply Hrec]. }
    destruct (Hagg _ Hweeks) as [M1 L1].
    destruct (Hagg _ (applyScenario_weeks _ opts Hweeks)) as [M2 L2].
    tauto.
  - destruct (forecast_generate_ok year seed)
      as (smp & a' & E & _ & _ & _ & _ & Hw).
    exists smp. split; [unfold Sample.Forecast.generateSample; now rewrite E|].
    cbv zeta.
    assert (Hweeks : forall w, 1 <= w <= 52 ->
                               exists d, In d (Sample.weekly smp)
                                         /\ Weekly.week d = w).
    { intros w Hwr.
      destruct (Hw w 0%nat Hwr ltac:(lia))
        as (acc & e & d & _ & _ & Hd & Hrec & _).
      exists d. split; [eapply nth_error_In; exact Hd | apply Hrec]. }
    unfold Views.adjustedTY. rewrite applyFilters_all.
    destruct (Hagg _ Hweeks) as [M1 L1].
    destruct (Hagg _ (applyScenario_weeks _ opts Hweeks)) as [M2 L2].
    tauto.
Qed.
